(** * erlotinib: reduced log-pdfs, predictive models and optimisation runs

    A shallow embedding of [erlotinib/_log_pdfs.py] and
    [erlotinib/_predictive_models.py], and a model of the run loop of the
    optimisation controller after its specification, with the properties
    the specification states about them.

    Conventions of the embedding:
    - a Python call either returns a value or raises: [outcome];
    - [numpy] arrays are lists; an array of booleans used as an index is a
      [list bool];
    - [float] values that are only moved around are elements of an
      arbitrary type; where the code calculates with them or compares them
      (times, doses) they are rationals [Q], whose arithmetic is exact
      where binary floating point rounds; the dose times in the properties
      below are small integers, which are exact in both;
    - calls to collaborators (the wrapped log-pdf, the mechanistic model,
      the error models, the log-prior) are recorded in a trace. *)

From Stdlib Require Import String.
From Stdlib Require Import List Bool Arith ZArith QArith Qround Lia.
From Stdlib Require Import Permutation Sorted.
Import ListNotations.

Set Implicit Arguments.

Close Scope Q_scope.
Close Scope Z_scope.
Open Scope nat_scope.

(** ** Python exceptions and results *)

Inductive exn : Type :=
| ValueError (msg : string)
| IndexError (msg : string)
| AttributeError (msg : string)
| TypeError (msg : string).

Inductive outcome (A : Type) : Type :=
| Returned (a : A)
| Raised (e : exn).

Arguments Returned {A} a.
Arguments Raised {A} e.

Definition is_ValueError {A : Type} (r : outcome A) : Prop :=
  exists msg, r = Raised (ValueError msg).

Definition raises {A : Type} (r : outcome A) : Prop :=
  exists e, r = Raised e.

(** ** numpy fragments *)

Module Numpy.

(** The element types [numpy] can infer for the masks that reach
    [ReducedLogPDF]. *)
Inductive dtype : Type := dt_bool | dt_int64 | dt_float64 | dt_str.

Definition dtype_eqb (a b : dtype) : bool :=
  match a, b with
  | dt_bool, dt_bool | dt_int64, dt_int64
  | dt_float64, dt_float64 | dt_str, dt_str => true
  | _, _ => false
  end.

(** Python scalars that can sit in a list handed over as a mask. *)
Inductive pyobj : Type :=
| PyBool (b : bool)
| PyInt (z : Z)
| PyFloat (q : Q)
| PyStr (s : string).

Definition scalar_dtype (o : pyobj) : dtype :=
  match o with
  | PyBool _ => dt_bool
  | PyInt _ => dt_int64
  | PyFloat _ => dt_float64
  | PyStr _ => dt_str
  end.

(** Type promotion: bool < int64 < float64, and a string turns the whole
    array into strings. *)
Definition promote (a b : dtype) : dtype :=
  match a, b with
  | dt_str, _ | _, dt_str => dt_str
  | dt_float64, _ | _, dt_float64 => dt_float64
  | dt_int64, _ | _, dt_int64 => dt_int64
  | dt_bool, dt_bool => dt_bool
  end.

(** What is passed where an array is expected: a Python list, or an array
    that already carries its dtype. *)
Inductive array_like : Type :=
| PyList (items : list pyobj)
| NdArray (dt : dtype) (items : list pyobj).

Record ndarray : Type := mk_ndarray { dtype_of : dtype; items_of : list pyobj }.

(** [len(x)] *)
Definition len (x : array_like) : nat :=
  match x with
  | PyList items => length items
  | NdArray _ items => length items
  end.

(** [np.asarray(x)]: an array is returned as it is; the dtype of a list is
    the promotion of its elements' types, and the empty list becomes an
    array of [float64]. *)
Definition asarray (x : array_like) : ndarray :=
  match x with
  | NdArray dt items => mk_ndarray dt items
  | PyList [] => mk_ndarray dt_float64 []
  | PyList (o :: os) =>
      mk_ndarray (fold_left promote (map scalar_dtype os) (scalar_dtype o))
                 (o :: os)
  end.

Definition truth (o : pyobj) : bool :=
  match o with
  | PyBool b => b
  | _ => false
  end.

(** The entries of an array of dtype [bool]. *)
Definition bools (a : ndarray) : list bool := map truth (items_of a).

(** [int(np.sum(mask))] for a boolean array. *)
Definition count_true (mask : list bool) : nat :=
  length (filter (fun b => b) mask).

(** [~mask] *)
Definition invert (mask : list bool) : list bool := map negb mask.

(** The indices at which a mask is true, ascending ([np.flatnonzero]). *)
Fixpoint where_from (i : nat) (mask : list bool) : list nat :=
  match mask with
  | [] => []
  | true :: mask' => i :: where_from (S i) mask'
  | false :: mask' => where_from (S i) mask'
  end.

Definition where_true (mask : list bool) : list nat := where_from 0 mask.

Section Arrays.

Variable R : Type.

(** Uninitialised memory: what [np.empty] finds at each cell. *)
Definition memory : Type := nat -> R.

(** [np.empty(shape=n)]: [n] cells with whatever was there; the cells are
    taken from the memory, so the next allocation sees other cells. *)
Definition empty (mem : memory) (n : nat) : list R * memory :=
  (map mem (seq 0 n), fun i => mem (n + i)).

(** Writing [v] at the true positions of [mask], first value to first true
    position, once the sizes are known to fit. *)
Fixpoint scatter (a : list R) (mask : list bool) (v : list R) : list R :=
  match a, mask with
  | x :: a', true :: mask' =>
      match v with
      | y :: v' => y :: scatter a' mask' v'
      | [] => x :: scatter a' mask' []
      end
  | x :: a', false :: mask' => x :: scatter a' mask' v
  | _, _ => a
  end.

(** [a[mask] = v] for one-dimensional [a], boolean [mask] and
    one-dimensional [v]: the mask has to be as long as [a]; [v] has to
    have one value per true entry, or a single value, which is then
    written to every true position. *)
Definition setitem_mask (a : list R) (mask : list bool) (v : list R)
  : outcome (list R) :=
  if negb (length mask =? length a) then
    Raised (IndexError "boolean index did not match indexed array")
  else if length v =? count_true mask then
    Returned (scatter a mask v)
  else
    match v with
    | [y] => Returned (scatter a mask (repeat y (count_true mask)))
    | _ => Raised (ValueError
             "NumPy boolean array indexing assignment cannot assign input values to the output values where the mask is true")
    end.

(** [a[mask]]: the entries at the true positions, in order. *)
Fixpoint getitem_mask (a : list R) (mask : list bool) : list R :=
  match a, mask with
  | x :: a', true :: mask' => x :: getitem_mask a' mask'
  | _ :: a', false :: mask' => getitem_mask a' mask'
  | _, _ => []
  end.

End Arrays.

End Numpy.

(** ** [erlotinib/_log_pdfs.py] *)

Module LogPDFs.

Import Numpy.

Section ReducedLogPDF.

(** [R]: the parameter values; [Score]: the scores of a log-pdf. *)
Variables R Score : Type.

(** A [pints.LogPDF]: its parameter count and its value at a point. *)
Record LogPDF : Type := mk_LogPDF {
  pdf_n_parameters : nat;
  pdf_call : list R -> Score
}.

Record ReducedLogPDF : Type := mk_ReducedLogPDF {
  _log_pdf : LogPDF;
  _parameters : list R;
  _mask : list bool;
  _n_parameters : nat
}.

(** [ReducedLogPDF.__init__(self, log_pdf, mask, values)]; [mem] is the
    memory [np.empty] allocates the parameter array from. *)
Definition __init__ (log_pdf : LogPDF) (mask : array_like)
    (values : list R) (mem : memory R)
  : outcome ReducedLogPDF * memory R :=
  if negb (len mask =? pdf_n_parameters log_pdf) then
    (Raised (ValueError
       "Length of mask has to match the number of log-pdf parameters."), mem)
  else
    let mask_arr := asarray mask in
    if negb (dtype_eqb (dtype_of mask_arr) dt_bool) then
      (Raised (ValueError "Mask has to be a boolean array."), mem)
    else
      let mask := bools mask_arr in
      let n_fixed := count_true mask in
      if negb (n_fixed =? length values) then
        (Raised (ValueError
           "The have to be as many value inputs as the number of fixed parameters."),
         mem)
      else
        let (parameters, mem') := empty mem (length mask) in
        match setitem_mask parameters mask values with
        | Raised e => (Raised e, mem')
        | Returned parameters =>
            let free := invert mask in
            (Returned {| _log_pdf := log_pdf;
                         _parameters := parameters;
                         _mask := free;
                         _n_parameters := count_true free |}, mem')
        end.

(** What a call of the adapter does: the adapter afterwards (its parameter
    array is updated in place), the arguments of the calls it made to the
    wrapped log-pdf, and its result. *)
Record called : Type := mk_called {
  self_after : ReducedLogPDF;
  log_pdf_calls : list (list R);
  result : outcome Score
}.

(** [ReducedLogPDF.__call__(self, parameters)] *)
Definition __call__ (self : ReducedLogPDF) (parameters : list R) : called :=
  match setitem_mask (_parameters self) (_mask self) parameters with
  | Raised e => mk_called self [] (Raised e)
  | Returned full =>
      mk_called
        {| _log_pdf := _log_pdf self;
           _parameters := full;
           _mask := _mask self;
           _n_parameters := _n_parameters self |}
        [full]
        (Returned (pdf_call (_log_pdf self) full))
  end.

(** [ReducedLogPDF.n_parameters(self)] *)
Definition n_parameters (self : ReducedLogPDF) : nat := _n_parameters self.

(** The three conditions [__init__] validates: the mask is as long as the
    log-pdf has parameters, it is a boolean array, and there is one value
    per true entry. *)
Definition valid_fixing (log_pdf : LogPDF) (mask : array_like)
    (values : list R) : Prop :=
  len mask = pdf_n_parameters log_pdf /\
  dtype_of (asarray mask) = dt_bool /\
  length values = count_true (bools (asarray mask)).

(** Fixing parameters with [mask] and [values], then evaluating the
    reduced log-pdf at [x]. *)
Definition fixed_call (log_pdf : LogPDF) (mask : array_like)
    (values : list R) (mem : memory R) (x : list R) : outcome Score :=
  match fst (__init__ log_pdf mask values mem) with
  | Raised e => Raised e
  | Returned self => result (__call__ self x)
  end.

(** Fixing parameters with [mask] and [values], then fixing none with the
    mask [unfix] and no values, then fixing with [mask] and [values]
    again, and evaluating the last reduced log-pdf at [x]. Every
    construction allocates from the memory the one before has left. *)
Definition refixed_call (log_pdf : LogPDF) (mask unfix : array_like)
    (values : list R) (mem : memory R) (x : list R) : outcome Score :=
  let (first, mem) := __init__ log_pdf mask values mem in
  match first with
  | Raised e => Raised e
  | Returned _ =>
      let (unfixed, mem) := __init__ log_pdf unfix [] mem in
      match unfixed with
      | Raised e => Raised e
      | Returned _ =>
          let (again, mem) := __init__ log_pdf mask values mem in
          match again with
          | Raised e => Raised e
          | Returned self => result (__call__ self x)
          end
      end
  end.

End ReducedLogPDF.

End LogPDFs.

(** ** [erlotinib/_predictive_models.py] *)

Module PredictiveModels.

(** *** Times *)

Definition Qlt_bool (a b : Q) : bool := negb (Qle_bool b a).

(** [np.sort(times)]: ascending, every entry kept. *)
Fixpoint insert_sorted (t : Q) (ts : list Q) : list Q :=
  match ts with
  | [] => [t]
  | u :: ts' => if Qle_bool t u then t :: ts else u :: insert_sorted t ts'
  end.

Fixpoint sort (ts : list Q) : list Q :=
  match ts with
  | [] => []
  | t :: ts' => insert_sorted t (sort ts')
  end.

(** A final time after [None] has been replaced by [np.inf]. *)
Inductive ext : Type := Finite (q : Q) | Inf.

(** [a <= b], [a > b], [a < 0] and [np.isfinite] for a finite [a] and
    an extended [b]. *)
Definition le_ext (a : Q) (b : ext) : bool :=
  match b with
  | Finite q => Qle_bool a q
  | Inf => true
  end.

Definition gt_ext (a : Q) (b : ext) : bool := negb (le_ext a b).

Definition negative (b : ext) : bool :=
  match b with
  | Finite q => Qlt_bool q 0%Q
  | Inf => false
  end.

Definition isfinite (b : ext) : bool :=
  match b with
  | Finite _ => true
  | Inf => false
  end.

(** *** Dosing regimens ([myokit.Protocol]) *)

Record ProtocolEvent : Type := mk_event {
  level : Q;
  start : Q;
  duration : Q;
  period : Q;
  multiplier : Z
}.

(** [regimen.events()] *)
Definition Protocol : Type := list ProtocolEvent.

(** A row of the dosing regimen dataframe. *)
Record dose_row : Type := mk_dose_row {
  Time : Q;
  Duration : Q;
  Dose : Q
}.

(** [range(n)] as the rationals [0, 1, ..., n - 1]. *)
Definition range (n : Z) : list Q :=
  map (fun k => inject_Z (Z.of_nat k)) (seq 0 (Z.to_nat n)).

(** [int(final_time // period)] *)
Definition floordiv (a b : Q) : Z := Qfloor (a / b)%Q.

(** The rows one dose event contributes: the body of the loop over
    [regimen.events()] in [get_dosing_regimen]. *)
Definition event_rows (final_time : ext) (dose_event : ProtocolEvent)
  : list dose_row :=
  let dose_rate := level dose_event in
  let dose_duration := duration dose_event in
  let dose_amount := (dose_rate * dose_duration)%Q in
  let start_time := start dose_event in
  let period := period dose_event in
  let n_doses := multiplier dose_event in
  if gt_ext start_time final_time then []
  else if Qeq_bool period 0%Q then
    [mk_dose_row start_time dose_duration dose_amount]
  else
    let n_doses :=
      if Z.eqb n_doses 0 then
        match final_time with
        | Finite f => floordiv f period
        | Inf => 1%Z
        end
      else n_doses in
    let dose_times :=
      map (fun n => (start_time + n * period)%Q) (range n_doses) in
    let dose_times := filter (fun t => le_ext t final_time) dose_times in
    map (fun t => mk_dose_row t dose_duration dose_amount) dose_times.

(** *** Samples *)

Record sample_row : Type := mk_sample_row {
  Sample_ID : Z;
  Biomarker : string;
  Sample_Time : Q;
  Sample : Q
}.

(** What [PredictiveModel.sample] returns: the array of shape
    [(n_outputs, n_times, n_samples)] or the dataframe. *)
Inductive samples : Type :=
| Container (c : list (list (list Q)))
| Frame (rows : list sample_row).

(** *** Calls to collaborators *)

Inductive event : Type :=
| ev_simulate (parameters times : list Q)
| ev_error_sample (output_id : nat) (parameters model_output : list Q)
    (n_samples : Z) (seed : option Z)
| ev_random_seed (seed : Z)
| ev_prior_sample (drawn : list Q)
| ev_predictive_sample (parameters times : list Q) (n_samples : option Z)
    (seed : option Z) (return_df : bool).

(** The calls of one kind in a trace, with their arguments. *)
Definition simulate_calls (tr : list event) : list (list Q * list Q) :=
  flat_map (fun ev =>
    match ev with
    | ev_simulate parameters times => [(parameters, times)]
    | _ => []
    end) tr.

Definition error_sample_calls (tr : list event) : list (nat * list Q) :=
  flat_map (fun ev =>
    match ev with
    | ev_error_sample output_id parameters _ _ _ => [(output_id, parameters)]
    | _ => []
    end) tr.

(** The draws from the log-prior and the calls to
    [PredictiveModel.sample], in the order they happened. *)
Definition draws_and_samples (tr : list event) : list event :=
  filter (fun ev =>
    match ev with
    | ev_prior_sample _ | ev_predictive_sample _ _ _ _ _ => true
    | _ => false
    end) tr.

(** The vectors drawn from the log-prior, in the order they were drawn. *)
Definition prior_draws (tr : list event) : list (list Q) :=
  flat_map (fun ev =>
    match ev with
    | ev_prior_sample drawn => [drawn]
    | _ => []
    end) tr.

(** The seeds [np.random.seed] takes: the integers from 0 to [2**32 - 1];
    for any other integer it raises a [ValueError]. *)
Definition valid_seed (seed : Z) : bool :=
  (0 <=? seed)%Z && (seed <=? 2 ^ 32 - 1)%Z.

(** Cutting a list into consecutive pieces of the given sizes. *)
Fixpoint split_by {A : Type} (sizes : list nat) (l : list A) : list (list A) :=
  match sizes with
  | [] => []
  | n :: sizes' => firstn n l :: split_by sizes' (skipn n l)
  end.

(** The draw from the log-prior and the call to [PredictiveModel.sample]
    that the loop of [PriorPredictiveModel.sample] makes for one sample
    id, as they appear in a trace. *)
Definition draw_and_sample (times : list Q) (n_samples : Z)
    (seed base_seed : option Z) (id_and_draw : Z * list Q) : list event :=
  let (sample_id, parameters) := id_and_draw in
  [ev_prior_sample parameters;
   ev_predictive_sample parameters times (Some n_samples)
     match seed, base_seed with
     | Some _, Some base_seed => Some (base_seed + sample_id)%Z
     | _, _ => seed
     end
     false].

Section Models.

(** The state of everything random or uninitialised outside the models:
    the generators of [np.random] and the memory [np.empty] hands out. *)
Variable world : Type.

(** [np.random.seed(seed)], for a seed it takes *)
Variable random_seed : Z -> world -> world.

(** The content of cell [i] of an array that [np.empty] allocates. *)
Variable garbage : world -> nat -> Q.

(** **** Computations that return or raise, change the world and call
    collaborators *)

Record ran (A : Type) : Type := mk_ran {
  value : outcome A;
  world_after : world;
  trace : list event
}.

Definition M (A : Type) : Type := world -> ran A.

Definition ret {A : Type} (a : A) : M A :=
  fun w => mk_ran (Returned a) w [].

Definition raise {A : Type} (e : exn) : M A :=
  fun w => mk_ran (Raised e) w [].

Definition bind {A B : Type} (m : M A) (f : A -> M B) : M B :=
  fun w =>
    let r := m w in
    match value r with
    | Returned a =>
        let r' := f a (world_after r) in
        mk_ran (value r') (world_after r') (trace r ++ trace r')
    | Raised e => mk_ran (Raised e) (world_after r) (trace r)
    end.

Definition log (ev : event) : M unit :=
  fun w => mk_ran (Returned tt) w [ev].

Definition oracle {A : Type} (f : world -> A * world) : M A :=
  fun w => let (a, w') := f w in mk_ran (Returned a) w' [].

Definition lift {A : Type} (r : outcome A) : M A :=
  fun w => mk_ran r w [].

Definition get_world : M world :=
  fun w => mk_ran (Returned w) w [].

Notation "x <- c ;; k" := (bind c (fun x => k))
  (at level 61, c at next level, right associativity).
Notation "c ;;; k" := (bind c (fun _ => k))
  (at level 61, right associativity).

(** **** The collaborators' interfaces *)

Class MechanisticModel (MM : Type) : Type := {
  mm_n_parameters : MM -> nat;
  mm_n_outputs : MM -> nat;
  mm_outputs : MM -> list string;
  mm_parameters : MM -> list string;
  mm_set_outputs : list string -> MM -> outcome MM;
  mm_simulate : MM -> list Q -> list Q -> list (list Q);
  (** raises [AttributeError] where the model has no dosing regimen *)
  mm_dosing_regimen : MM -> outcome (option Protocol);
  mm_set_dosing_regimen :
    Q -> Q -> Q -> option Q -> option Z -> MM -> outcome MM
}.

Class ErrorModel (EM : Type) : Type := {
  em_n_parameters : EM -> nat;
  em_get_parameter_names : EM -> list string;
  (** [sample(parameters, model_output, n_samples, seed)], an array of
      shape [(n_times, n_samples)] *)
  em_sample :
    EM -> list Q -> list Q -> Z -> option Z -> world -> list (list Q) * world
}.

Class LogPrior (LP : Type) : Type := {
  lp_n_parameters : LP -> nat;
  (** [sample().flatten()] *)
  lp_sample : LP -> world -> list Q * world
}.

Context {MM EM LP : Type}.
Context `{MechanisticModel MM} `{ErrorModel EM} `{LogPrior LP}.

(** **** [PredictiveModel] *)

Record PredictiveModel : Type := mk_PredictiveModel {
  _mechanistic_model : MM;
  _error_models : list EM;
  _parameter_names : list string;
  _n_parameters : nat
}.

(** [PredictiveModel.__init__(self, mechanistic_model, error_models,
    outputs)]; the [isinstance] checks are the types of the arguments. *)
Definition PredictiveModel__init__ (mechanistic_model : MM)
    (error_models : list EM) (outputs : option (list string))
  : outcome PredictiveModel :=
  let configured :=
    match outputs with
    | Some names => mm_set_outputs names mechanistic_model
    | None => Returned mechanistic_model
    end in
  match configured with
  | Raised e => Raised e
  | Returned mechanistic_model =>
      let n_outputs := mm_n_outputs mechanistic_model in
      if negb (length error_models =? n_outputs) then
        Raised (ValueError
          "Wrong number of error models. One error model has to be provided for each mechanistic error model.")
      else
        let parameter_names :=
          mm_parameters mechanistic_model
          ++ concat (map em_get_parameter_names error_models) in
        Returned {| _mechanistic_model := mechanistic_model;
                    _error_models := error_models;
                    _parameter_names := parameter_names;
                    _n_parameters := length parameter_names |}
  end.

(** [PredictiveModel.get_dosing_regimen(self, final_time=None)] *)
Definition get_dosing_regimen (self : PredictiveModel)
    (final_time : option Q) : outcome (option (list dose_row)) :=
  match mm_dosing_regimen (_mechanistic_model self) with
  | Raised (AttributeError _) => Returned None
  | Raised e => Raised e
  | Returned None => Returned None
  | Returned (Some regimen) =>
      let final_time :=
        match final_time with
        | None => Inf
        | Some f => Finite f
        end in
      if negative final_time then
        Raised (ValueError "The final dose time has to be positive.")
      else
        let regimen_df := flat_map (event_rows final_time) regimen in
        match regimen_df with
        | [] => Returned None
        | _ :: _ => Returned (Some regimen_df)
        end
  end.

(** [PredictiveModel.get_n_outputs], [get_output_names],
    [get_parameter_names] and [n_parameters] *)
Definition get_n_outputs (self : PredictiveModel) : nat :=
  mm_n_outputs (_mechanistic_model self).

Definition get_output_names (self : PredictiveModel) : list string :=
  mm_outputs (_mechanistic_model self).

Definition get_parameter_names (self : PredictiveModel) : list string :=
  _parameter_names self.

Definition n_parameters (self : PredictiveModel) : nat :=
  _n_parameters self.

(** **** [PredictiveModel.sample] *)

(** [l[a:b]] for [0 <= a <= b] *)
Definition slice {A : Type} (l : list A) (a b : nat) : list A :=
  firstn (b - a) (skipn a l).

(** [l[i] = x], for [i] in range *)
Fixpoint set_nth {A : Type} (l : list A) (i : nat) (x : A) : list A :=
  match l, i with
  | [], _ => []
  | _ :: l', O => x :: l'
  | y :: l', S i' => y :: set_nth l' i' x
  end.

(** [np.empty(shape=(a, b, c))] *)
Definition empty3 (w : world) (a b c : nat) : list (list (list Q)) :=
  map (fun i =>
    map (fun j =>
      map (fun k => garbage w ((i * b + j) * c + k)) (seq 0 c))
      (seq 0 b))
    (seq 0 a).

(** [np.arange(start=1, stop=n_samples+1)] *)
Definition sample_ids (n_samples : Z) : list Z :=
  map (fun k => Z.of_nat (S k)) (seq 0 (Z.to_nat n_samples)).

(** The loop over [enumerate(self._error_models)]. *)
Fixpoint sample_errors (error_models : list EM) (output_id start_index : nat)
    (error_params : list Q) (outputs : list (list Q)) (n_samples : Z)
    (seed : option Z) (container : list (list (list Q)))
  : M (list (list (list Q))) :=
  match error_models with
  | [] => ret container
  | error_model :: error_models' =>
      let end_index := start_index + em_n_parameters error_model in
      match nth_error outputs output_id with
      | None => raise (IndexError "index is out of bounds for axis 0")
      | Some model_output =>
          let parameters := slice error_params start_index end_index in
          log (ev_error_sample output_id parameters model_output
                 n_samples seed) ;;;
          drawn <- oracle (em_sample error_model parameters model_output
                             n_samples seed) ;;
          sample_errors error_models' (S output_id) end_index error_params
            outputs n_samples seed (set_nth container output_id drawn)
      end
  end.

(** Sequencing of results that may raise. *)
Fixpoint collect {A B : Type} (f : A -> outcome (list B)) (l : list A)
  : outcome (list B) :=
  match l with
  | [] => Returned []
  | a :: l' =>
      match f a with
      | Raised e => Raised e
      | Returned bs =>
          match collect f l' with
          | Raised e => Raised e
          | Returned bs' => Returned (bs ++ bs')
          end
      end
  end.

Definition enumerate {A : Type} (l : list A) : list (nat * A) :=
  combine (seq 0 (length l)) l.

(** The dataframe of all samples of one output at one time point. *)
Definition frame_at (container : list (list (list Q))) (ids : list Z)
    (output_id : nat) (name : string) (time_id : nat) (time : Q)
  : outcome (list sample_row) :=
  match nth_error container output_id with
  | None => Raised (IndexError "index is out of bounds for axis 0")
  | Some output =>
      match nth_error output time_id with
      | None => Raised (IndexError "index is out of bounds for axis 1")
      | Some cells =>
          if negb (length cells =? length ids) then
            Raised (ValueError "All arrays must be of the same length")
          else
            Returned
              (map (fun '(id, cell) => mk_sample_row id name time cell)
                   (combine ids cells))
      end
  end.

(** [PredictiveModel.sample(self, parameters, times, n_samples=None,
    seed=None, return_df=True)] *)
Definition sample (self : PredictiveModel) (parameters times : list Q)
    (n_samples seed : option Z) (return_df : bool) : M samples :=
  log (ev_predictive_sample parameters times n_samples seed return_df) ;;;
  if negb (length parameters =? _n_parameters self) then
    raise (ValueError "The length of parameters does not match n_parameters.")
  else
    let times := sort times in
    let n_parameters := mm_n_parameters (_mechanistic_model self) in
    let mechanistic_params := firstn n_parameters parameters in
    let error_params := skipn n_parameters parameters in
    log (ev_simulate mechanistic_params times) ;;;
    let outputs :=
      mm_simulate (_mechanistic_model self) mechanistic_params times in
    let n_outputs := length outputs in
    let n_times := length times in
    let n_samples :=
      match n_samples with
      | Some n => n
      | None => 1%Z
      end in
    if Z.ltb n_samples 0 then
      raise (ValueError "negative dimensions are not allowed")
    else
      w <- get_world ;;
      let container := empty3 w n_outputs n_times (Z.to_nat n_samples) in
      container <- sample_errors (_error_models self) 0 0 error_params
                     outputs n_samples seed container ;;
      if negb return_df then ret (Container container)
      else
        let output_names := mm_outputs (_mechanistic_model self) in
        let ids := sample_ids n_samples in
        rows <- lift (collect (fun '(output_id, name) =>
                  collect (fun '(time_id, time) =>
                    frame_at container ids output_id name time_id time)
                    (enumerate times))
                  (enumerate output_names)) ;;
        ret (Frame rows).

(** [PredictiveModel.set_dosing_regimen(self, dose, start, duration=0.01,
    period=None, num=None)] *)
Definition set_dosing_regimen (self : PredictiveModel) (dose start : Q)
    (duration : Q) (period : option Q) (num : option Z)
  : outcome PredictiveModel :=
  match mm_set_dosing_regimen dose start duration period num
          (_mechanistic_model self) with
  | Raised (AttributeError _) =>
      Raised (AttributeError
        "The mechanistic model does not support to set dosing regimens. This may be because the underlying erlotinib.MechanisticModel is a erlotinib.PharmacodynamicModel.")
  | Raised e => Raised e
  | Returned mechanistic_model =>
      Returned {| _mechanistic_model := mechanistic_model;
                  _error_models := _error_models self;
                  _parameter_names := _parameter_names self;
                  _n_parameters := _n_parameters self |}
  end.

(** **** [PriorPredictiveModel] *)

Record PriorPredictiveModel : Type := mk_PriorPredictiveModel {
  _predictive_model : PredictiveModel;
  _log_prior : LP
}.

(** [PriorPredictiveModel.__init__(self, predictive_model, log_prior)];
    the [isinstance] checks are the types of the arguments. *)
Definition PriorPredictiveModel__init__ (predictive_model : PredictiveModel)
    (log_prior : LP) : outcome PriorPredictiveModel :=
  if negb (n_parameters predictive_model =? lp_n_parameters log_prior) then
    Raised (ValueError
      "The dimension of the log-prior has to be the same as the number of parameters of the predictive model.")
  else
    Returned {| _predictive_model := predictive_model;
                _log_prior := log_prior |}.

(** The dataframe of one draw: [sample[output_id, :, 0]] against [times]
    for every output. *)
Definition draw_frame (sample_id : Z) (outputs : list string)
    (times : list Q) (sample : samples) : outcome (list sample_row) :=
  match sample with
  | Frame _ => Raised (IndexError "only integers and slices are valid indices")
  | Container c =>
      collect (fun '(output_id, name) =>
        match nth_error c output_id with
        | None => Raised (IndexError "index is out of bounds for axis 0")
        | Some output =>
            match collect (fun cells =>
                    match cells with
                    | [] => Raised (IndexError
                              "index 0 is out of bounds for axis 2")
                    | cell :: _ => Returned [cell]
                    end) output with
            | Raised e => Raised e
            | Returned column =>
                if negb (length column =? length times) then
                  Raised (ValueError "All arrays must be of the same length")
                else
                  Returned
                    (map (fun '(time, cell) =>
                            mk_sample_row sample_id name time cell)
                         (combine times column))
            end
        end) (enumerate outputs)
  end.

(** The loop over [sample_ids] in [PriorPredictiveModel.sample]; [seed]
    is the variable the loop assigns to, [base_seed] is bound when a seed
    was given. *)
Fixpoint draw_samples (self : PriorPredictiveModel) (ids : list Z)
    (times : list Q) (n_samples : Z) (seed base_seed : option Z)
    (outputs : list string) (container : list sample_row)
  : M (list sample_row) :=
  match ids with
  | [] => ret container
  | sample_id :: ids' =>
      parameters <- oracle (lp_sample (_log_prior self)) ;;
      log (ev_prior_sample parameters) ;;;
      let seed :=
        match seed, base_seed with
        | Some _, Some base_seed => Some (base_seed + sample_id)%Z
        | _, _ => seed
        end in
      sample <- sample (_predictive_model self) parameters times
                  (Some n_samples) seed false ;;
      rows <- lift (draw_frame sample_id outputs times sample) ;;
      draw_samples self ids' times n_samples seed base_seed outputs
        (container ++ rows)
  end.

(** [PriorPredictiveModel.sample(self, times, n_samples=None, seed=None)] *)
Definition prior_predictive_sample (self : PriorPredictiveModel)
    (times : list Q) (n_samples seed : option Z) : M (list sample_row) :=
  let n_samples :=
    match n_samples with
    | Some n => n
    | None => 1%Z
    end in
  base_seed <-
    match seed with
    | Some s =>
        log (ev_random_seed s) ;;;
        (if valid_seed s then oracle (fun w => (tt, random_seed s w))
         else raise (ValueError "Seed must be between 0 and 2**32 - 1")) ;;;
        ret (Some s)
    | None => ret None
    end ;;
  let times := sort times in
  let outputs := get_output_names (_predictive_model self) in
  draw_samples self (sample_ids n_samples) times n_samples seed base_seed
    outputs [].

End Models.

Arguments em_n_parameters {world EM _} _.
Arguments em_get_parameter_names {world EM _} _.
Arguments em_sample {world EM _} _ _ _ _ _ _.
Arguments lp_n_parameters {world LP _} _.
Arguments lp_sample {world LP _} _ _.

End PredictiveModels.

(** ** The optimisation controller *)

Module Optimisation.

(** A number of the table: a real number, or one of [nan], [inf],
    [-inf]. *)
Inductive number : Type :=
| finite (q : Q)
| non_finite.

Definition score : Type := number.

(** A row of the result table, columns [Parameter], [Estimate], [Score]
    and [Run]. *)
Record result_row : Type := mk_result_row {
  col_Parameter : string;
  col_Estimate : number;
  col_Score : score;
  col_Run : nat
}.

(** Modelled from the spec: the part of the state of
    [OptimisationController] (its source, [erlotinib/_optimisation.py], is
    not part of the sources at hand) that [run] reads: the names of the
    free parameters, the number of runs and the matrix of initial points,
    one row per run. *)
Record OptimisationController : Type := mk_OptimisationController {
  _parameters : list string;
  _n_runs : nat;
  _initial_params : list (list Q)
}.

(** Modelled from the spec: one search of the numerical optimiser, an
    external routine: run number, starting point and iteration cap give
    the estimates and their score, or the routine raises. *)
Definition optimiser : Type :=
  nat -> list Q -> nat -> outcome (list Q * score).

(** Modelled from the spec: the rows that [OptimisationController.run]
    adds for one run, in the order of the free parameter names; run
    indices are 1-based. *)
Definition run_rows (names : list string) (run_id : nat)
    (estimates : list number) (s : score) : list result_row :=
  map (fun '(name, estimate) => mk_result_row name estimate s (S run_id))
      (combine names estimates).

(** Modelled from the spec: what a run leaves in the table. The spec words
    are that a run whose optimiser raises or returns a score that is not
    finite is dropped from the output. The one source at hand that calls
    [run], [test_run] in [erlotinib/tests/test_optimisation.py], makes the
    optimiser fail in every run and asserts that the runs 1, 2 and 3 and
    the free parameter are in the table. Where the two differ the model
    follows the test: the rows of a failed run are kept, with the
    estimates and the score that the optimiser returned, or with [nan] in
    their place when it raised (what the table holds then is not shown by
    the sources at hand). *)
Definition rows_of_search (names : list string) (run_id : nat)
    (found : outcome (list Q * score)) : list result_row :=
  match found with
  | Returned (estimates, s) => run_rows names run_id (map finite estimates) s
  | Raised _ =>
      run_rows names run_id (map (fun _ => non_finite) names) non_finite
  end.

(** Modelled from the spec: the loop of [OptimisationController.run],
    whose source ([erlotinib/_optimisation.py]) is not part of the
    sources at hand. Each run starts from its row of the initial-points
    matrix, no run ends the loop, and the rows of the runs are appended in
    run order. *)
Fixpoint run_loop (self : OptimisationController) (opt : optimiser)
    (n_max_iterations : nat) (run_ids : list nat) (result : list result_row)
  : outcome (list result_row) :=
  match run_ids with
  | [] => Returned result
  | run_id :: run_ids' =>
      match nth_error (_initial_params self) run_id with
      | None => Raised (IndexError "index is out of bounds for axis 0")
      | Some initial =>
          run_loop self opt n_max_iterations run_ids'
            (result ++ rows_of_search (_parameters self) run_id
                         (opt run_id initial n_max_iterations))
      end
  end.

(** Modelled from the spec: [OptimisationController.run(n_max_iterations)],
    whose source is not part of the sources at hand: [n_runs] searches,
    assembled into one table. *)
Definition run (self : OptimisationController) (opt : optimiser)
    (n_max_iterations : nat) : outcome (list result_row) :=
  run_loop self opt n_max_iterations (seq 0 (_n_runs self)) [].




(** [pandas.Series.unique]: the values in the order of their first
    appearance. *)
Fixpoint unique {A : Type} (eqb : A -> A -> bool) (l : list A) : list A :=
  match l with
  | [] => []
  | x :: l' => x :: filter (fun y => negb (eqb x y)) (unique eqb l')
  end.


End Optimisation.

(** ** Sequences of calls of a [ReducedLogPDF] *)

Module LogPDFsHistory.

Import Numpy LogPDFs.

Section History.

Variables R Score : Type.

(** The adapter after it has been called on the inputs [xs], one after
    the other; a call that raises leaves it as it was. *)
Definition after_calls (self : ReducedLogPDF R Score) (xs : list (list R))
  : ReducedLogPDF R Score :=
  fold_left (fun a x => self_after (__call__ a x)) xs self.

(** [log_pdf(x)] for a wrapped log-pdf, with the call it takes. *)
Definition direct_call (log_pdf : LogPDF R Score) (x : list R)
  : list (list R) * outcome Score :=
  ([x], Returned (pdf_call log_pdf x)).

(** Two adapters with the same wrapped log-pdf, the same free positions
    and the same content at the fixed positions. *)
Definition same_fixing (a b : ReducedLogPDF R Score) : Prop :=
  _log_pdf a = _log_pdf b /\
  _mask a = _mask b /\
  _n_parameters a = _n_parameters b /\
  length (_parameters a) = length (_parameters b) /\
  getitem_mask (_parameters a) (invert (_mask a))
  = getitem_mask (_parameters b) (invert (_mask b)).

End History.

End LogPDFsHistory.

(** ** [DataDrivenPredictiveModel], the base class of
    [PriorPredictiveModel] *)

Module DataDriven.

Import PredictiveModels.

(** The seeds [np.random.seed] was called with, in a trace. *)
Definition random_seed_calls (tr : list event) : list Z :=
  flat_map (fun ev =>
    match ev with
    | ev_random_seed seed => [seed]
    | _ => []
    end) tr.

Section Methods.

Context {MM EM LP : Type} `{MechanisticModel MM}.

Implicit Types
  (self : PriorPredictiveModel (MM := MM) (EM := EM) (LP := LP)).

(** [DataDrivenPredictiveModel.get_dosing_regimen(self)]: the regimen of
    the predictive model, asked for without a final time. *)
Definition get_dosing_regimen self : outcome (option (list dose_row)) :=
  PredictiveModels.get_dosing_regimen (_predictive_model self) None.

(** [DataDrivenPredictiveModel.get_n_outputs(self)] and
    [get_output_names(self)] *)
Definition get_n_outputs self : nat :=
  PredictiveModels.get_n_outputs (_predictive_model self).

Definition get_output_names self : list string :=
  PredictiveModels.get_output_names (_predictive_model self).

(** [DataDrivenPredictiveModel.set_dosing_regimen(self, dose, start,
    period, duration=0.01, num=0)]. The body is
    [self._predictive_model.set_dosing_regimen(dose, start, period,
    duration, num)], and the parameters of
    [PredictiveModel.set_dosing_regimen] are [(dose, start, duration,
    period, num)]: the third argument binds to [duration], the fourth to
    [period]. *)
Definition set_dosing_regimen self (dose start period : Q) (duration : Q)
    (num : Z) : outcome PriorPredictiveModel :=
  match PredictiveModels.set_dosing_regimen (_predictive_model self)
          dose start period (Some duration) (Some num) with
  | Raised e => Raised e
  | Returned predictive_model =>
      Returned {| _predictive_model := predictive_model;
                  _log_prior := _log_prior self |}
  end.

End Methods.

End DataDriven.

(** ** Arrays of samples and tables of samples *)

Module LongFormat.

Import PredictiveModels.

(** An array of the shape [(n_times, n_samples)]. *)
Definition shaped (n_times n_samples : nat) (a : list (list Q)) : Prop :=
  length a = n_times /\ Forall (fun cells => length cells = n_samples) a.

(** The entries of an array of shape [(n_outputs, n_times, n_samples)] as
    rows of a table, one row per output, time and sample id, in the order
    of the array: the outputs one after the other, for each output the
    times, for each time the sample ids. *)
Definition long_format (names : list string) (times : list Q)
    (ids : list Z) (c : list (list (list Q))) : list sample_row :=
  flat_map (fun '(name, output) =>
    flat_map (fun '(time, cells) =>
      map (fun '(id, cell) => mk_sample_row id name time cell)
          (combine ids cells))
      (combine times output))
    (combine names c).

(** The keys of a table with one row per output, time and sample id. *)
Definition long_keys (names : list string) (times : list Q) (ids : list Z)
  : list (string * Q * Z) :=
  flat_map (fun name =>
    flat_map (fun time => map (fun id => (name, time, id)) ids) times)
    names.

Definition row_key (row : sample_row) : string * Q * Z :=
  (Biomarker row, Sample_Time row, Sample_ID row).

End LongFormat.

(** ** [erlotinib/plots/_optimisation.py] *)

Module Plots.

Section ParameterEstimatePlot.

(** The entries of a table, with the comparison [==] of [pandas]; the
    tables here have no [nan] entries. *)
Variable cell : Type.
Variable cell_eqb : cell -> cell -> bool.

(** ['%d' % x] and ['%.2f' % x] raise for an entry [x] they do not take
    (a string, say): [format_d x] and [format_f x] are the error then,
    and [None] for an entry that is formatted. *)
Variable format_d : cell -> option exn.
Variable format_f : cell -> option exn.

(** [plotly.colors.qualitative.Plotly], a list of colours. *)
Variable color : Type.
Variable Plotly : list color.

(** A [pandas.DataFrame]: its keys, and its rows, each of which gives the
    entry under a key. *)
Record DataFrame : Type := mk_DataFrame {
  keys : list string;
  rows : list (string -> cell)
}.

(** [data[key]] *)
Definition column (data : DataFrame) (key : string) : list cell :=
  map (fun row => row key) (rows data).

(** [series.unique()]: the values in the order of their first
    appearance. *)
Fixpoint unique (l : list cell) : list cell :=
  match l with
  | [] => []
  | x :: l' => x :: filter (fun y => negb (cell_eqb x y)) (unique l')
  end.

(** [data[data[key] == value]] *)
Definition where_eq (data : DataFrame) (key : string) (value : cell)
  : DataFrame :=
  mk_DataFrame (keys data)
    (filter (fun row => cell_eqb (row key) value) (rows data)).

(** [data[selection]] for a list of keys *)
Definition select (data : DataFrame) (selection : list string) : DataFrame :=
  mk_DataFrame selection (rows data).

(** A [go.Box]: the estimates, the individual the name is formatted from,
    the run and the score each line of the hover text is formatted from,
    and the colour of markers and lines. *)
Record Box : Type := mk_Box {
  y : list cell;
  name : cell;
  text : list (cell * cell);
  marker_color : color
}.

(** A figure is the calls made on it since it was copied from the
    template figure [self._fig]. *)
Inductive fig_call : Type :=
| update_layout (yaxis_title : cell)
| add_trace (box : Box).

Definition figure : Type := list fig_call.

(** The attributes of a [ParameterEstimatePlot] that [add_data] sets;
    [None] is an attribute that is not set. The keys are used for tables
    in which they name different columns. *)
Record ParameterEstimatePlot : Type := mk_ParameterEstimatePlot {
  _figs : list figure;
  _id_key : option string;
  _est_key : option string;
  _score_key : option string;
  _run_key : option string
}.

Definition with_figs (self : ParameterEstimatePlot) (figs : list figure)
  : ParameterEstimatePlot :=
  mk_ParameterEstimatePlot figs (_id_key self) (_est_key self)
    (_score_key self) (_run_key self).

(** A call on the figure [self._figs[fig_id]]. *)
Definition call_figure (self : ParameterEstimatePlot) (fig_id : nat)
    (call : fig_call) : ParameterEstimatePlot * outcome unit :=
  match nth_error (_figs self) fig_id with
  | None => (self, Raised (IndexError "list index out of range"))
  | Some fig =>
      (with_figs self
         (PredictiveModels.set_nth (_figs self) fig_id (fig ++ [call])),
       Returned tt)
  end.

(** A loop over [enumerate(l)] that changes [self] and stops where a step
    raises. *)
Fixpoint for_each {A : Type}
    (step : ParameterEstimatePlot -> nat -> A ->
            ParameterEstimatePlot * outcome unit)
    (self : ParameterEstimatePlot) (index : nat) (l : list A)
  : ParameterEstimatePlot * outcome unit :=
  match l with
  | [] => (self, Returned tt)
  | a :: l' =>
      match step self index a with
      | (self, Raised e) => (self, Raised e)
      | (self, Returned _) => for_each step self (S index) l'
      end
  end.

(** An attribute of [self], once it is set. *)
Definition attribute (a : option string) : outcome string :=
  match a with
  | Some key => Returned key
  | None => Raised (AttributeError "object has no attribute")
  end.

(** The hover text of a box,
    [['Run: %d <br>Log-posterior score: %.2f' % (runs[i], scores[i])
      for i in range(n_runs)]]: the run and the score of every line, or
    the first error of an index or a format. *)
Fixpoint text_lines (runs scores : list cell) : outcome (list (cell * cell)) :=
  match runs with
  | [] => Returned []
  | run :: runs' =>
      match scores with
      | [] => Raised (IndexError "index out of bounds")
      | score :: scores' =>
          match format_d run, format_f score with
          | Some e, _ | None, Some e => Raised e
          | None, None =>
              match text_lines runs' scores' with
              | Raised e => Raised e
              | Returned lines => Returned ((run, score) :: lines)
              end
          end
      end
  end.

(** [ParameterEstimatePlot._add_trace(self, fig_id, individual,
    estimates, scores, runs, color)]: the arguments of [go.Box] are
    evaluated in their order, the name before the text. *)
Definition _add_trace (self : ParameterEstimatePlot) (fig_id : nat)
    (individual : cell) (estimates scores runs : list cell) (c : color)
  : ParameterEstimatePlot * outcome unit :=
  match nth_error (_figs self) fig_id with
  | None => (self, Raised (IndexError "list index out of range"))
  | Some _ =>
      match format_d individual with
      | Some e => (self, Raised e)
      | None =>
          match text_lines runs scores with
          | Raised e => (self, Raised e)
          | Returned lines =>
              call_figure self fig_id
                (add_trace (mk_Box estimates individual lines c))
          end
      end
  end.

(** The step of the loop over the individuals in [_add_box_plots]. *)
Definition box_step (fig_id : nat) (data : DataFrame) (colors : list color)
    (self : ParameterEstimatePlot) (index : nat) (individual : cell)
  : ParameterEstimatePlot * outcome unit :=
  match attribute (_id_key self), attribute (_est_key self),
        attribute (_score_key self), attribute (_run_key self) with
  | Returned id_key, Returned est_key, Returned score_key,
    Returned run_key =>
      let individual_data := where_eq data id_key individual in
      let estimates := column individual_data est_key in
      let scores := column individual_data score_key in
      let runs := column individual_data run_key in
      match nth_error colors index with
      | None => (self, Raised (IndexError "list index out of range"))
      | Some c => _add_trace self fig_id individual estimates scores runs c
      end
  | Raised e, _, _, _ | _, Raised e, _, _
  | _, _, Raised e, _ | _, _, _, Raised e => (self, Raised e)
  end.

(** [ParameterEstimatePlot._add_box_plots(self, fig_id, parameter, data,
    colors)] *)
Definition _add_box_plots (self : ParameterEstimatePlot) (fig_id : nat)
    (parameter : cell) (data : DataFrame) (colors : list color)
  : ParameterEstimatePlot * outcome unit :=
  match call_figure self fig_id (update_layout parameter) with
  | (self, Raised e) => (self, Raised e)
  | (self, Returned _) =>
      match attribute (_id_key self) with
      | Raised e => (self, Raised e)
      | Returned id_key =>
          let ids := unique (column data id_key) in
          for_each (box_step fig_id data colors) self 0 ids
      end
  end.

(** The first of the keys that the table does not have. *)
Definition missing_key (data : DataFrame) (wanted : list string)
  : option string :=
  find (fun key => negb (existsb (String.eqb key) (keys data))) wanted.

(** [ParameterEstimatePlot.add_data(self, data, id_key, param_key,
    est_key, score_key, run_key)]; [data] is [None] for an argument that
    is no [pandas.DataFrame]. *)
Definition add_data (self : ParameterEstimatePlot) (data : option DataFrame)
    (id_key param_key est_key score_key run_key : string)
  : ParameterEstimatePlot * outcome unit :=
  match data with
  | None => (self, Raised (ValueError "Data has to be pandas.DataFrame."))
  | Some data =>
      match missing_key data
              [id_key; param_key; est_key; score_key; run_key] with
      | Some key =>
          (self, Raised (ValueError
             ("Data does not have the key <" ++ key ++ ">.")))
      | None =>
          let self :=
            mk_ParameterEstimatePlot (_figs self) (Some id_key)
              (Some est_key) (Some score_key) (Some run_key) in
          let ids := unique (column data id_key) in
          let n_ids := length ids in
          let colors := firstn n_ids Plotly in
          let parameters := unique (column data param_key) in
          let self := with_figs self (map (fun _ => []) parameters) in
          for_each (fun self index parameter =>
            let estimates :=
              select (where_eq data param_key parameter)
                [id_key; est_key; score_key; run_key] in
            _add_box_plots self index parameter estimates colors)
            self 0 parameters
      end
  end.

(** [ParameterEstimatePlot.__init__(self)], after [MultiFigure.__init__]
    has run: no figure has been copied yet and no key is set. *)
Definition ParameterEstimatePlot__init__ : ParameterEstimatePlot :=
  mk_ParameterEstimatePlot [] None None None None.


Definition titles (fig : figure) : list cell :=
  flat_map (fun call =>
    match call with
    | update_layout title => [title]
    | add_trace _ => []
    end) fig.


(** The box of one individual in a table: its estimates, and run and
    score of each of them. *)
Definition individual_box (data : DataFrame)
    (id_key est_key score_key run_key : string) (individual : cell)
    (c : color) : Box :=
  let individual_data := where_eq data id_key individual in
  mk_Box (column individual_data est_key) individual
    (combine (column individual_data run_key)
       (column individual_data score_key)) c.

(** The figure of one parameter: its name as the title of the axis, and
    one box for each individual that has an estimate of the parameter, in
    the order in which the individuals appear in the rows of the
    parameter, coloured in the order of [colors]. *)
Definition parameter_figure (data : DataFrame)
    (id_key param_key est_key score_key run_key : string)
    (colors : list color) (parameter : cell) : figure :=
  let estimates := where_eq data param_key parameter in
  update_layout parameter
  :: map (fun '(individual, c) =>
            add_trace (individual_box estimates id_key est_key score_key
                         run_key individual c))
         (combine (unique (column estimates id_key)) colors).

(** The tables whose individuals, runs and scores are entries that the
    formats of [_add_trace] take. *)
Definition formatted (data : DataFrame) (id_key score_key run_key : string)
  : Prop :=
  forall row,
    In row (rows data) ->
    format_d (row id_key) = None /\
    format_d (row run_key) = None /\
    format_f (row score_key) = None.

(** The figures of the parameters of a table. *)
Definition figures_of (data : DataFrame)
    (id_key param_key est_key score_key run_key : string)
    (colors : list color) (parameters : list cell) : list figure :=
  map (parameter_figure data id_key param_key est_key score_key run_key
         colors) parameters.

End ParameterEstimatePlot.

End Plots.

(** ** Concrete models, for running the definitions *)

Module Examples.

Import Numpy.

(** A log-pdf of six parameters whose value shows every entry of its
    argument: [x0 + 10 x1 + 100 x2 + ...]. *)
Definition digits (x : list Z) : Z :=
  fold_right (fun v acc => v + 10 * acc)%Z 0%Z x.

Definition log_pdf6 : LogPDFs.LogPDF Z Z :=
  {| LogPDFs.pdf_n_parameters := 6; LogPDFs.pdf_call := digits |}.

(** [[False, True, True, False, True, True]] *)
Definition mask6 : array_like :=
  PyList [PyBool false; PyBool true; PyBool true;
          PyBool false; PyBool true; PyBool true].

(** [[False] * 6] *)
Definition unfix6 : array_like := PyList (repeat (PyBool false) 6).

Definition values4 : list Z := [1; 1; 1; 1]%Z.

(** Memory in which an allocation finds [-1] everywhere. *)
Definition stale : memory Z := fun _ => (-1)%Z.

(** A mechanistic model with two parameters: whether it knows dosing
    regimens, the regimen that is set, and its outputs. Its solution is
    [p0 + p1 * t] for every output. *)
Record toy_model : Type := mk_toy {
  toy_dosing : bool;
  toy_regimen : option PredictiveModels.Protocol;
  toy_outputs : list string
}.

Definition toy_solution (parameters times : list Q) : list Q :=
  map (fun t => (nth 0 parameters 0 + nth 1 parameters 0 * t)%Q) times.

Definition toy_schedule (dose start duration : Q) (period : option Q)
    (num : option Z) : PredictiveModels.ProtocolEvent :=
  let period := match period with Some p => p | None => 0%Q end in
  let num := match num with Some n => n | None => 0%Z end in
  PredictiveModels.mk_event (dose / duration)%Q start duration period num.

#[export] Instance toy_mechanistic
  : PredictiveModels.MechanisticModel toy_model :=
  {| PredictiveModels.mm_n_parameters := fun _ => 2;
     PredictiveModels.mm_n_outputs := fun m => length (toy_outputs m);
     PredictiveModels.mm_outputs := toy_outputs;
     PredictiveModels.mm_parameters :=
       fun _ => ["amount"%string; "rate"%string];
     PredictiveModels.mm_set_outputs :=
       fun names m =>
         Returned (mk_toy (toy_dosing m) (toy_regimen m) names);
     PredictiveModels.mm_simulate :=
       fun m parameters times =>
         map (fun _ => toy_solution parameters times) (toy_outputs m);
     PredictiveModels.mm_dosing_regimen :=
       fun m =>
         if toy_dosing m then Returned (toy_regimen m)
         else Raised (AttributeError "no attribute dosing_regimen");
     PredictiveModels.mm_set_dosing_regimen :=
       fun dose start duration period num m =>
         if toy_dosing m then
           Returned (mk_toy true
             (Some [toy_schedule dose start duration period num])
             (toy_outputs m))
         else Raised (AttributeError "no attribute set_dosing_regimen") |}.

(** The world of the examples counts the random draws made so far. *)
Definition counter : Type := nat.

(** An error model with one parameter [sigma]: the [k]-th sample at a time
    point is the model output plus [sigma * (k + draws so far)]. *)
Record toy_error : Type := mk_toy_error { toy_sigma_name : string }.

#[export] Instance toy_error_model
  : PredictiveModels.ErrorModel counter toy_error :=
  {| PredictiveModels.em_n_parameters := fun _ => 1;
     PredictiveModels.em_get_parameter_names := fun e => [toy_sigma_name e];
     PredictiveModels.em_sample :=
       fun _ parameters model_output n_samples seed w =>
         (map (fun y =>
            map (fun k =>
              (y + nth 0 parameters 0 * inject_Z (Z.of_nat (k + w)))%Q)
              (seq 0 (Z.to_nat n_samples)))
            model_output,
          S w) |}.

(** A log-prior of three parameters whose draws are [[w, 1, 1]] for the
    number [w] of draws made so far. *)
Record toy_prior : Type := mk_toy_prior { toy_dimension : nat }.

#[export] Instance toy_log_prior
  : PredictiveModels.LogPrior counter toy_prior :=
  {| PredictiveModels.lp_n_parameters := toy_dimension;
     PredictiveModels.lp_sample :=
       fun _ w => ([inject_Z (Z.of_nat w); 1%Q; 1%Q], S w) |}.

(** [np.random.seed] and uninitialised cells in the examples. *)
Definition toy_seed (seed : Z) (w : counter) : counter := 0.

Definition toy_garbage (w : counter) (i : nat) : Q := (-1)%Q.

(** A pharmacodynamic model (no dosing), a pharmacokinetic model with no
    regimen set, and pharmacokinetic models with a dose of 1 every 2 time
    units for ever, starting at time 0. *)
Definition pd_model : toy_model := mk_toy false None ["volume"%string].

Definition pk_model : toy_model := mk_toy true None ["concentration"%string].

Definition pk_model_dosed : toy_model :=
  mk_toy true (Some [toy_schedule 1 0 (1 # 100) (Some 2%Q) None])
         ["concentration"%string].

Definition predictive (m : toy_model)
  : PredictiveModels.PredictiveModel (MM := toy_model) (EM := toy_error) :=
  {| PredictiveModels._mechanistic_model := m;
     PredictiveModels._error_models := [mk_toy_error "sigma"];
     PredictiveModels._parameter_names :=
       ["amount"%string; "rate"%string; "sigma"%string];
     PredictiveModels._n_parameters := 3 |}.

Definition prior_predictive
  : PredictiveModels.PriorPredictiveModel (MM := toy_model) (EM := toy_error)
      (LP := toy_prior) :=
  {| PredictiveModels._predictive_model := predictive pk_model;
     PredictiveModels._log_prior := mk_toy_prior 3 |}.

(** A controller with one free parameter and three runs, an optimiser
    whose second run returns a score that is not finite and whose other
    runs return the starting point with score [-run_id], and an optimiser
    whose numerical routine raises in every run. *)
Definition controller3 : Optimisation.OptimisationController :=
  {| Optimisation._parameters := ["noise 1"%string];
     Optimisation._n_runs := 3;
     Optimisation._initial_params := [[1%Q]; [2%Q]; [3%Q]] |}.

Definition second_run_fails : Optimisation.optimiser :=
  fun run_id initial _ =>
    if run_id =? 1 then Returned (initial, Optimisation.non_finite)
    else Returned (initial, Optimisation.finite (- inject_Z (Z.of_nat run_id))).

Definition every_run_raises : Optimisation.optimiser :=
  fun _ _ _ => Raised (ValueError "optimisation in 1-D is not supported").


(** The entries of a table of parameter estimates, numbers and names,
    and their comparison. *)
Inductive entry : Type :=
| Num (z : Z)
| Str (s : string).

Definition entry_eqb (a b : entry) : bool :=
  match a, b with
  | Num x, Num y => Z.eqb x y
  | Str s, Str t => String.eqb s t
  | _, _ => false
  end.

(** The formats [%d] and [%.2f] take the numbers and raise a [TypeError]
    for a name. *)
Definition entry_format_d (a : entry) : option exn :=
  match a with
  | Num _ => None
  | Str _ => Some (TypeError "%d format: a number is required, not str")
  end.

Definition entry_format_f (a : entry) : option exn :=
  match a with
  | Num _ => None
  | Str _ => Some (TypeError "must be real number, not str")
  end.

(** The ten colours of [plotly.colors.qualitative.Plotly]. *)
Definition palette : list string :=
  ["#636EFA"; "#EF553B"; "#00CC96"; "#AB63FA"; "#FFA15A"; "#19D3F3";
   "#FF6692"; "#B6E880"; "#FF97FF"; "#FECB52"]%string.

(** A row of a table with the keys of [OptimisationController.run]. *)
Definition estimate_row (id : Z) (parameter : string)
    (estimate score run : Z) : string -> entry :=
  fun key =>
    if String.eqb key "ID" then Num id
    else if String.eqb key "Parameter" then Str parameter
    else if String.eqb key "Estimate" then Num estimate
    else if String.eqb key "Score" then Num score
    else Num run.

(** Two runs for two individuals: the first has estimates of two
    parameters, the second of one. *)
Definition estimate_rows : list (string -> entry) :=
  [estimate_row 1 "rate" 2 (-5) 1;
   estimate_row 2 "amount" 12 (-7) 1;
   estimate_row 1 "amount" 10 (-5) 1;
   estimate_row 1 "rate" 3 (-4) 2;
   estimate_row 2 "amount" 13 (-6) 2;
   estimate_row 1 "amount" 11 (-4) 2].

Definition estimates : Plots.DataFrame entry :=
  Plots.mk_DataFrame
    ["ID"; "Parameter"; "Estimate"; "Score"; "Run"]%string estimate_rows.

(** A table whose individuals are names. *)
Definition estimates_of_names : Plots.DataFrame entry :=
  Plots.mk_DataFrame
    ["ID"; "Parameter"; "Estimate"; "Score"; "Run"]%string
    [fun key =>
       if String.eqb key "ID" then Str "mouse 1"
       else estimate_row 1 "rate" 2 (-5) 1 key].

(** The same rows in a table without scores. *)
Definition estimates_without_scores : Plots.DataFrame entry :=
  Plots.mk_DataFrame ["ID"; "Parameter"; "Estimate"; "Run"]%string
    estimate_rows.

End Examples.

(** * Properties *)

(** ** Masks and masked assignment *)

Module NumpyFacts.

Import Numpy.

Lemma count_true_cons (b : bool) (mask : list bool) :
  count_true (b :: mask) = (if b then 1 else 0) + count_true mask.
Proof. destruct b; reflexivity. Qed.

Lemma invert_involutive (mask : list bool) : invert (invert mask) = mask.
Proof.
  unfold invert. rewrite map_map.
  rewrite <- (map_id mask) at 2.
  apply map_ext. intros b. apply negb_involutive.
Qed.

Lemma length_invert (mask : list bool) : length (invert mask) = length mask.
Proof. apply length_map. Qed.

Lemma count_true_invert (mask : list bool) :
  count_true (invert mask) + count_true mask = length mask.
Proof.
  induction mask as [|b mask IH]; [reflexivity|].
  change (invert (b :: mask)) with (negb b :: invert mask).
  rewrite !count_true_cons. destruct b; simpl; lia.
Qed.

Lemma count_true_le (mask : list bool) : count_true mask <= length mask.
Proof. pose proof (count_true_invert mask). lia. Qed.

(** The positions [where_from i mask] lists start at [i] ... *)
Lemma where_from_ge (mask : list bool) :
  forall i p, In p (where_from i mask) -> i <= p.
Proof.
  induction mask as [|b mask IH]; intros i p Hin; [contradiction|].
  destruct b; simpl in Hin.
  - destruct Hin as [<- | Hin]; [lia|]. apply IH in Hin. lia.
  - apply IH in Hin. lia.
Qed.

(** ... are exactly the positions of its true entries ... *)
Lemma in_where_from (mask : list bool) :
  forall i p,
    In p (where_from i mask) <-> i <= p /\ nth_error mask (p - i) = Some true.
Proof.
  induction mask as [|b mask IH]; intros i p.
  - simpl. split; [contradiction|]. intros [_ Hn].
    destruct (p - i); discriminate.
  - assert (Hrec : In p (where_from (S i) mask) <->
                   i < p /\ nth_error (b :: mask) (p - i) = Some true).
    { rewrite IH. split; intros [Hle Hn]; (split; [lia|]).
      - replace (p - i) with (S (p - S i)) by lia. exact Hn.
      - replace (p - i) with (S (p - S i)) in Hn by lia. exact Hn. }
    destruct b; simpl where_from.
    + simpl In. rewrite Hrec. split.
      * intros [<- | [Hlt Hn]]; [|split; [lia|exact Hn]].
        split; [lia|]. rewrite Nat.sub_diag. reflexivity.
      * intros [Hle Hn]. destruct (Nat.eq_dec i p) as [->|Hne]; [now left|].
        right. split; [lia|exact Hn].
    + rewrite Hrec. split; intros [Hle Hn]; (split; [|exact Hn]); [lia|].
      destruct (Nat.eq_dec i p) as [->|Hne]; [|lia].
      rewrite Nat.sub_diag in Hn. discriminate.
Qed.

Lemma in_where_true (mask : list bool) (p : nat) :
  In p (where_true mask) <-> nth_error mask p = Some true.
Proof.
  unfold where_true. rewrite in_where_from, Nat.sub_0_r.
  split; [intros [_ Hn]; exact Hn | intros Hn; split; [lia|exact Hn]].
Qed.

(** ... and come in ascending order. *)
Lemma where_from_sorted (mask : list bool) :
  forall i, StronglySorted lt (where_from i mask).
Proof.
  induction mask as [|b mask IH]; intros i; [constructor|].
  destruct b; simpl; [|apply IH].
  constructor; [apply IH|].
  apply Forall_forall. intros p Hin. apply where_from_ge in Hin. lia.
Qed.

Lemma where_true_sorted (mask : list bool) :
  StronglySorted lt (where_true mask).
Proof. apply where_from_sorted. Qed.

Lemma length_where_from (mask : list bool) :
  forall i, length (where_from i mask) = count_true mask.
Proof.
  induction mask as [|b mask IH]; intros i; [reflexivity|].
  rewrite count_true_cons. destruct b; simpl; rewrite IH; reflexivity.
Qed.

Section Arrays.

Variable R : Type.
Implicit Types (a v : list R) (mask : list bool).

Lemma length_empty (mem : memory R) (n : nat) :
  length (fst (empty mem n)) = n.
Proof. simpl. rewrite length_map, length_seq. reflexivity. Qed.

Lemma length_scatter a : forall mask v, length (scatter a mask v) = length a.
Proof.
  induction a as [|x a IH]; intros mask v; [reflexivity|].
  destruct mask as [|[] mask]; [reflexivity| |]; simpl.
  - destruct v; simpl; rewrite IH; reflexivity.
  - rewrite IH. reflexivity.
Qed.

(** Reading back what was written. *)
Lemma getitem_scatter a :
  forall mask v,
    length mask = length a -> length v = count_true mask ->
    getitem_mask (scatter a mask v) mask = v.
Proof.
  induction a as [|x a IH]; intros mask v Hlen Hv.
  - destruct mask; [|discriminate]. destruct v; [reflexivity|discriminate].
  - destruct mask as [|b mask]; [discriminate|].
    injection Hlen as Hlen. rewrite count_true_cons in Hv.
    destruct b; simpl.
    + destruct v as [|y v]; [discriminate|]. simpl.
      rewrite IH; [reflexivity|exact Hlen|simpl in Hv; lia].
    + apply IH; [exact Hlen|exact Hv].
Qed.

(** The other positions keep their content. *)
Lemma getitem_scatter_invert a :
  forall mask v,
    getitem_mask (scatter a mask v) (invert mask)
    = getitem_mask a (invert mask).
Proof.
  induction a as [|x a IH]; intros mask v; [reflexivity|].
  destruct mask as [|[] mask]; [reflexivity| |]; simpl.
  - destruct v; simpl; apply IH.
  - rewrite IH. reflexivity.
Qed.

(** [a[mask]] entry by entry: its [i]-th entry is the entry of [a] at the
    [i]-th true position of the mask. *)
Lemma nth_error_getitem a :
  forall mask k i p,
    nth_error (where_from k mask) i = Some p ->
    nth_error (getitem_mask a mask) i = nth_error a (p - k).
Proof.
  induction a as [|x a IH]; intros mask k i p Hp.
  - destruct mask as [|b mask].
    + destruct i; discriminate.
    + simpl. destruct (p - k); destruct i; reflexivity.
  - destruct mask as [|b mask]; [destruct i; discriminate|].
    destruct b; simpl in Hp |- *.
    + destruct i as [|i].
      * injection Hp as <-. rewrite Nat.sub_diag. reflexivity.
      * simpl in Hp. pose proof (nth_error_In _ _ Hp) as Hin.
        apply where_from_ge in Hin.
        replace (p - k) with (S (p - S k)) by lia. simpl.
        apply IH with (mask := mask). exact Hp.
    + pose proof (nth_error_In _ _ Hp) as Hin.
      apply where_from_ge in Hin.
      replace (p - k) with (S (p - S k)) by lia. simpl.
      apply IH with (mask := mask). exact Hp.
Qed.

Lemma nth_error_where_true a mask i p :
  nth_error (where_true mask) i = Some p ->
  nth_error a p = nth_error (getitem_mask a mask) i.
Proof.
  intros Hp. rewrite (nth_error_getitem a mask 0 i Hp), Nat.sub_0_r.
  reflexivity.
Qed.

(** Once the fixed and the free positions are both written, nothing of the
    initial content of the array is left. *)
Lemma scatter_twice_any (mask : list bool) :
  forall a b fixed free,
    length a = length mask -> length b = length mask ->
    length fixed = count_true mask ->
    length free = count_true (invert mask) ->
    scatter (scatter a mask fixed) (invert mask) free
    = scatter (scatter b mask fixed) (invert mask) free.
Proof.
  induction mask as [|m mask IH]; intros a b fixed free Ha Hb Hfixed Hfree.
  - destruct a; [|discriminate]. destruct b; [|discriminate]. reflexivity.
  - destruct a as [|x a]; [discriminate|].
    destruct b as [|y b]; [discriminate|].
    injection Ha as Ha. injection Hb as Hb.
    change (invert (m :: mask)) with (negb m :: invert mask) in *.
    rewrite count_true_cons in Hfixed, Hfree.
    destruct m; simpl in Hfixed, Hfree |- *.
    + destruct fixed as [|f fixed]; [discriminate|]. simpl.
      f_equal. apply IH; auto.
    + destruct free as [|f free]; [discriminate|].
      f_equal. apply IH; auto.
Qed.

Lemma setitem_mask_fits a mask v :
  length mask = length a -> length v = count_true mask ->
  setitem_mask a mask v = Returned (scatter a mask v).
Proof.
  intros Hlen Hv. unfold setitem_mask.
  rewrite (proj2 (Nat.eqb_eq _ _) Hlen), (proj2 (Nat.eqb_eq _ _) Hv).
  reflexivity.
Qed.

Lemma setitem_twice_any mask a b fixed x :
  length a = length mask -> length b = length mask ->
  length fixed = count_true mask ->
  setitem_mask (scatter a mask fixed) (invert mask) x
  = setitem_mask (scatter b mask fixed) (invert mask) x.
Proof.
  intros Ha Hb Hfixed. unfold setitem_mask.
  rewrite !length_scatter, Ha, Hb.
  destruct (negb (length (invert mask) =? length mask)); [reflexivity|].
  destruct (Nat.eqb_spec (length x) (count_true (invert mask))) as [Hx|Hx].
  - f_equal. apply scatter_twice_any; assumption.
  - destruct x as [|y [|? ?]]; try reflexivity.
    f_equal. apply scatter_twice_any; try assumption.
    apply repeat_length.
Qed.

End Arrays.

End NumpyFacts.

(** ** [ReducedLogPDF] *)

Module LogPDFsFacts.

Import Numpy NumpyFacts LogPDFs.

Lemma items_asarray (x : array_like) :
  length (items_of (asarray x)) = len x.
Proof. destruct x as [[|o os]|dt items]; reflexivity. Qed.

Lemma length_bools_asarray (x : array_like) :
  length (bools (asarray x)) = len x.
Proof. unfold bools. rewrite length_map. apply items_asarray. Qed.

Lemma dtype_eqb_eq (a b : dtype) : dtype_eqb a b = true <-> a = b.
Proof. destruct a, b; simpl; split; congruence. Qed.

(** A list of Python scalars is a boolean array exactly when it is not
    empty and holds booleans only. *)
Lemma promote_bool (a b : dtype) :
  promote a b = dt_bool <-> a = dt_bool /\ b = dt_bool.
Proof. destruct a, b; simpl; split; intros; intuition congruence. Qed.

Lemma fold_promote_bool (ds : list dtype) :
  forall d,
    fold_left promote ds d = dt_bool <->
    d = dt_bool /\ Forall (fun d' => d' = dt_bool) ds.
Proof.
  induction ds as [|d' ds IH]; intros d; simpl.
  - split; [intros ->; split; [reflexivity|constructor] | intros [-> _]; reflexivity].
  - rewrite IH, promote_bool. split.
    + intros [[-> ->] Hds]. split; [reflexivity|]. constructor; [reflexivity|exact Hds].
    + intros [-> Hds]. inversion Hds; subst. auto.
Qed.

Lemma asarray_list_bool (items : list pyobj) :
  dtype_of (asarray (PyList items)) = dt_bool <->
  items <> [] /\ Forall (fun o => scalar_dtype o = dt_bool) items.
Proof.
  destruct items as [|o os]; simpl.
  - split; [discriminate | intros [Hne _]; contradiction].
  - rewrite fold_promote_bool, Forall_map. split.
    + intros [Ho Hos]. split; [discriminate|]. constructor; assumption.
    + intros [_ Hall]. inversion Hall; subst. auto.
Qed.

Section ReducedLogPDF.

Variables R Score : Type.
Implicit Types (log_pdf : LogPDF R Score) (mask : array_like)
  (values x : list R) (mem : memory R).

(** What [__init__] builds from valid arguments. *)
Lemma init_valid log_pdf mask values mem :
  valid_fixing log_pdf mask values ->
  __init__ log_pdf mask values mem
  = (Returned
       {| _log_pdf := log_pdf;
          _parameters :=
            scatter (fst (empty mem (len mask))) (bools (asarray mask)) values;
          _mask := invert (bools (asarray mask));
          _n_parameters := count_true (invert (bools (asarray mask))) |},
     snd (empty mem (len mask))).
Proof.
  intros (Hlen & Hdt & Hvalues). unfold __init__.
  rewrite (proj2 (Nat.eqb_eq _ _) Hlen). simpl negb.
  rewrite (proj2 (dtype_eqb_eq _ _) Hdt). simpl negb.
  rewrite (proj2 (Nat.eqb_eq _ _) (eq_sym Hvalues)). simpl negb.
  rewrite length_bools_asarray. unfold empty at 1.
  rewrite setitem_mask_fits.
  - reflexivity.
  - rewrite length_map, length_seq. apply length_bools_asarray.
  - exact Hvalues.
Qed.

(** What [__init__] answers to arguments that are not valid. *)
Lemma init_invalid log_pdf mask values mem :
  ~ valid_fixing log_pdf mask values ->
  exists msg, __init__ log_pdf mask values mem = (Raised (ValueError msg), mem).
Proof.
  intros Hinvalid. unfold __init__.
  destruct (Nat.eqb_spec (len mask) (pdf_n_parameters log_pdf)) as [Hlen|Hlen];
    simpl negb; [|eexists; reflexivity].
  destruct (dtype_eqb (dtype_of (asarray mask)) dt_bool) eqn:Hdt;
    simpl negb; [|eexists; reflexivity].
  apply dtype_eqb_eq in Hdt.
  destruct (Nat.eqb_spec (count_true (bools (asarray mask))) (length values))
    as [Hvalues|Hvalues]; simpl negb; [|eexists; reflexivity].
  exfalso. apply Hinvalid. repeat split; auto.
Qed.

Lemma valid_fixing_dec log_pdf mask values :
  valid_fixing log_pdf mask values \/ ~ valid_fixing log_pdf mask values.
Proof.
  unfold valid_fixing.
  destruct (Nat.eq_dec (len mask) (pdf_n_parameters log_pdf));
    [|right; tauto].
  destruct (dtype_eqb (dtype_of (asarray mask)) dt_bool) eqn:Hdt.
  - apply dtype_eqb_eq in Hdt.
    destruct (Nat.eq_dec (length values) (count_true (bools (asarray mask))));
      [left|right]; tauto.
  - right. intros (_ & Hdt' & _). apply dtype_eqb_eq in Hdt'. congruence.
Qed.

(** The array a call passes on, whatever the memory held. *)
Lemma call_fits (self : ReducedLogPDF R Score) x :
  length (_mask self) = length (_parameters self) ->
  length x = count_true (_mask self) ->
  let full := scatter (_parameters self) (_mask self) x in
  log_pdf_calls (__call__ self x) = [full] /\
  result (__call__ self x) = Returned (pdf_call (_log_pdf self) full).
Proof.
  intros Hlen Hx. unfold __call__.
  rewrite setitem_mask_fits by assumption. split; reflexivity.
Qed.

(** C1. For a log-pdf of [n] parameters, a boolean mask of length [n] and
    as many fixed values as the mask has true entries, calling the
    constructed [ReducedLogPDF] on [n - count(mask)] free values calls the
    wrapped log-pdf exactly once, with the array of length [n] whose
    [i]-th non-fixed position (in ascending order) holds the [i]-th free
    value and whose [j]-th fixed position holds the [j]-th fixed value,
    and returns what the wrapped log-pdf returns. *)
Theorem call_fills_free_positions log_pdf mask values x mem :
  len mask = pdf_n_parameters log_pdf ->
  dtype_of (asarray mask) = dt_bool ->
  length values = count_true (bools (asarray mask)) ->
  length x = pdf_n_parameters log_pdf - count_true (bools (asarray mask)) ->
  exists self full,
    fst (__init__ log_pdf mask values mem) = Returned self /\
    log_pdf_calls (__call__ self x) = [full] /\
    result (__call__ self x) = Returned (pdf_call log_pdf full) /\
    length full = pdf_n_parameters log_pdf /\
    (forall i p,
        nth_error (where_true (invert (bools (asarray mask)))) i = Some p ->
        nth_error full p = nth_error x i) /\
    (forall j p,
        nth_error (where_true (bools (asarray mask))) j = Some p ->
        nth_error full p = nth_error values j).
Proof.
  intros Hlen Hdt Hvalues Hx.
  set (m := bools (asarray mask)) in *.
  assert (Hm : length m = len mask) by apply length_bools_asarray.
  assert (Hfree : length x = count_true (invert m)).
  { pose proof (count_true_invert m). lia. }
  rewrite (init_valid mem (conj Hlen (conj Hdt Hvalues))). fold m.
  set (buffer := scatter (fst (empty mem (len mask))) m values).
  assert (Hbuffer : length buffer = length m).
  { unfold buffer. rewrite length_scatter, length_empty. congruence. }
  eexists. exists (scatter buffer (invert m) x).
  split; [reflexivity|].
  match goal with
  | |- context [__call__ ?a x] =>
      destruct (@call_fits a x) as [Hcalls Hresult]
  end.
  { simpl. rewrite length_invert. congruence. }
  { exact Hfree. }
  simpl in Hcalls, Hresult.
  split; [exact Hcalls|]. split; [exact Hresult|].
  split; [rewrite length_scatter; congruence|]. split.
  - intros i p Hp. rewrite (nth_error_where_true _ _ _ Hp).
    rewrite getitem_scatter; [reflexivity| |exact Hfree].
    rewrite length_invert. congruence.
  - intros j p Hp. rewrite (nth_error_where_true _ _ _ Hp).
    rewrite <- (invert_involutive m) at 2.
    rewrite getitem_scatter_invert, invert_involutive.
    unfold buffer. rewrite getitem_scatter; [reflexivity| |exact Hvalues].
    rewrite length_empty. exact Hm.
Qed.

(** C6. Constructing a [ReducedLogPDF] raises, and then a [ValueError],
    exactly when the mask is not as long as the log-pdf has parameters, or
    the mask is not a boolean array, or the number of values is not the
    number of true entries of the mask; otherwise it returns the
    adapter. *)
Theorem init_raises_iff_invalid log_pdf mask values mem :
  (raises (fst (__init__ log_pdf mask values mem)) <->
     len mask <> pdf_n_parameters log_pdf \/
     dtype_of (asarray mask) <> dt_bool \/
     length values <> count_true (bools (asarray mask))) /\
  (raises (fst (__init__ log_pdf mask values mem)) ->
     is_ValueError (fst (__init__ log_pdf mask values mem))) /\
  (~ raises (fst (__init__ log_pdf mask values mem)) ->
     exists self, fst (__init__ log_pdf mask values mem) = Returned self).
Proof.
  destruct (valid_fixing_dec log_pdf mask values) as [Hvalid|Hinvalid].
  - rewrite (init_valid mem Hvalid). simpl.
    destruct Hvalid as (Hlen & Hdt & Hvalues).
    split; [split|split].
    + intros [e He]. discriminate.
    + intros [H|[H|H]]; contradiction.
    + intros [e He]. discriminate.
    + intros _. eexists. reflexivity.
  - destruct (init_invalid mem Hinvalid) as [msg Hmsg]. rewrite Hmsg. simpl.
    split; [split|split].
    + intros _. unfold valid_fixing in Hinvalid.
      destruct (Nat.eq_dec (len mask) (pdf_n_parameters log_pdf));
        [|left; assumption].
      destruct (dtype_eqb (dtype_of (asarray mask)) dt_bool) eqn:Hdt.
      * apply dtype_eqb_eq in Hdt. right. right. intros Hvalues.
        apply Hinvalid. auto.
      * right. left. intros Hdt'. apply dtype_eqb_eq in Hdt'. congruence.
    + intros _. eexists. reflexivity.
    + intros _. eexists. reflexivity.
    + intros Hnot. exfalso. apply Hnot. eexists. reflexivity.
Qed.

(** C8. A constructed [ReducedLogPDF] over a log-pdf of [n] parameters
    and a mask with [k] true entries reports [n - k] parameters. *)
Theorem n_parameters_is_reduced_count log_pdf mask values mem
    (self : ReducedLogPDF R Score) :
  fst (__init__ log_pdf mask values mem) = Returned self ->
  n_parameters self
  = pdf_n_parameters log_pdf - count_true (bools (asarray mask)).
Proof.
  intros Hinit.
  destruct (valid_fixing_dec log_pdf mask values) as [Hvalid|Hinvalid].
  - rewrite (init_valid mem Hvalid) in Hinit. simpl in Hinit.
    injection Hinit as <-. unfold n_parameters. simpl.
    destruct Hvalid as (Hlen & _ & _).
    pose proof (count_true_invert (bools (asarray mask))) as Hcount.
    rewrite length_bools_asarray in Hcount. lia.
  - destruct (init_invalid mem Hinvalid) as [msg Hmsg].
    rewrite Hmsg in Hinit. discriminate.
Qed.

(** The result of a call does not depend on what the memory held when the
    adapter was constructed. *)
Lemma fixed_call_any_memory log_pdf mask values mem mem' x :
  fixed_call log_pdf mask values mem x
  = fixed_call log_pdf mask values mem' x.
Proof.
  unfold fixed_call.
  destruct (valid_fixing_dec log_pdf mask values) as [Hvalid|Hinvalid].
  - rewrite !(init_valid _ Hvalid). simpl.
    destruct Hvalid as (Hlen & Hdt & Hvalues).
    set (m := bools (asarray mask)).
    assert (Hm : length m = len mask) by apply length_bools_asarray.
    unfold __call__. cbn [fst _parameters _mask _log_pdf]. fold m.
    rewrite (setitem_twice_any m (map mem (seq 0 (len mask)))
               (map mem' (seq 0 (len mask))) values x);
      rewrite ?length_map, ?length_seq; auto.
    destruct (setitem_mask _ _ x); reflexivity.
  - unfold __init__.
    destruct (Nat.eqb_spec (len mask) (pdf_n_parameters log_pdf)) as [Hlen|Hlen];
      simpl negb; [|reflexivity].
    destruct (dtype_eqb (dtype_of (asarray mask)) dt_bool) eqn:Hdt;
      simpl negb; [|reflexivity].
    destruct (Nat.eqb_spec (count_true (bools (asarray mask))) (length values))
      as [Hvalues|Hvalues]; simpl negb; [|reflexivity].
    exfalso. apply Hinvalid. apply dtype_eqb_eq in Hdt. repeat split; auto.
Qed.

Lemma count_true_all_false (mask : list bool) :
  Forall (fun b => b = false) mask -> count_true mask = 0.
Proof.
  induction 1 as [|b mask Hb _ IH]; [reflexivity|].
  rewrite count_true_cons, Hb, IH. reflexivity.
Qed.

(** C7. Fixing parameters with mask [M] and values [V], then fixing none
    (a boolean mask of the right length that is false everywhere, and no
    values), then fixing with [M] and [V] again gives a reduced log-pdf
    whose result at any free parameters is the result of the one that
    fixing with [M] and [V] gives straight away, whatever the memory the
    arrays are allocated from. *)
Theorem refixing_gives_same_outputs log_pdf mask unfix values mem mem' x :
  len unfix = pdf_n_parameters log_pdf ->
  dtype_of (asarray unfix) = dt_bool ->
  Forall (fun b => b = false) (bools (asarray unfix)) ->
  refixed_call log_pdf mask unfix values mem x
  = fixed_call log_pdf mask values mem' x.
Proof.
  intros Hlen Hdt Hfalse.
  assert (Hunfix : valid_fixing log_pdf unfix []).
  { repeat split; auto. rewrite count_true_all_false; auto. }
  unfold refixed_call.
  destruct (__init__ log_pdf mask values mem) as [first mem1] eqn:Hfirst.
  destruct first as [self1|e].
  - rewrite (init_valid mem1 Hunfix).
    rewrite (fixed_call_any_memory log_pdf mask values mem'
               (snd (empty mem1 (len unfix))) x).
    unfold fixed_call.
    destruct (__init__ log_pdf mask values (snd (empty mem1 (len unfix))))
      as [again mem3].
    reflexivity.
  - rewrite (fixed_call_any_memory log_pdf mask values mem' mem x).
    unfold fixed_call. rewrite Hfirst. reflexivity.
Qed.

End ReducedLogPDF.

(** The conditions of the theorems above are met by the mask
    [[False, True, True, False, True, True]] with the values
    [[1, 1, 1, 1]] on a log-pdf of six parameters. *)

Lemma call_fills_free_positions_example :
  exists self full,
    fst (__init__ Examples.log_pdf6 Examples.mask6 Examples.values4
           Examples.stale) = Returned self /\
    log_pdf_calls (__call__ self [7; 8]%Z) = [full] /\
    result (__call__ self [7; 8]%Z)
    = Returned (LogPDFs.pdf_call Examples.log_pdf6 full) /\
    length full = 6 /\
    (forall i p,
        nth_error (where_true (invert (bools (asarray Examples.mask6)))) i
        = Some p ->
        nth_error full p = nth_error [7; 8]%Z i) /\
    (forall j p,
        nth_error (where_true (bools (asarray Examples.mask6))) j = Some p ->
        nth_error full p = nth_error Examples.values4 j).
Proof.
  apply (@call_fills_free_positions Z Z Examples.log_pdf6 Examples.mask6
           Examples.values4 [7; 8]%Z Examples.stale); reflexivity.
Defined.

Lemma n_parameters_is_reduced_count_example :
  exists self,
    fst (__init__ Examples.log_pdf6 Examples.mask6 Examples.values4
           Examples.stale) = Returned self /\
    n_parameters self = 2.
Proof.
  eexists. split; [reflexivity|].
  apply (@n_parameters_is_reduced_count Z Z Examples.log_pdf6 Examples.mask6
           Examples.values4 Examples.stale).
  reflexivity.
Defined.

Lemma refixing_gives_same_outputs_example :
  refixed_call Examples.log_pdf6 Examples.mask6 Examples.unfix6
    Examples.values4 Examples.stale [7; 8]%Z
  = fixed_call Examples.log_pdf6 Examples.mask6 Examples.values4
      (fun _ => 0%Z) [7; 8]%Z.
Proof.
  apply (@refixing_gives_same_outputs Z Z Examples.log_pdf6 Examples.mask6
           Examples.unfix6 Examples.values4 Examples.stale (fun _ => 0%Z)
           [7; 8]%Z).
  - reflexivity.
  - reflexivity.
  - repeat constructor.
Defined.

(** The call above passes [[7, 1, 1, 8, 1, 1]] on. *)
Example fixed_call_example :
  fixed_call Examples.log_pdf6 Examples.mask6 Examples.values4
    Examples.stale [7; 8]%Z
  = Returned (Examples.digits [7; 1; 1; 8; 1; 1]%Z).
Proof. reflexivity. Qed.

(** A Python list without entries is not a boolean array for [numpy]: a
    mask given as [[]] is turned down, a mask given as an empty array of
    booleans is accepted. *)
Example init_empty_list :
  fst (__init__ (mk_LogPDF 0 Examples.digits) (PyList []) [] Examples.stale)
  = Raised (ValueError "Mask has to be a boolean array.").
Proof. reflexivity. Qed.

Example init_empty_bool_array :
  exists self,
    fst (__init__ (mk_LogPDF 0 Examples.digits) (NdArray dt_bool []) []
           Examples.stale) = Returned self.
Proof. eexists. reflexivity. Qed.

End LogPDFsFacts.

(** ** Dosing regimens *)

Module DosingFacts.

Import PredictiveModels.

Lemma Qlt_bool_iff (a b : Q) : Qlt_bool a b = true <-> (a < b)%Q.
Proof.
  unfold Qlt_bool. rewrite negb_true_iff.
  split.
  - intros Hle. apply Qnot_le_lt. intros Hba.
    apply Qle_bool_iff in Hba. congruence.
  - intros Hlt. destruct (Qle_bool b a) eqn:Hle; [|reflexivity].
    apply Qle_bool_iff in Hle. exfalso. exact (Qlt_not_le _ _ Hlt Hle).
Qed.

Lemma gt_ext_finite_iff (a f : Q) : gt_ext a (Finite f) = true <-> (f < a)%Q.
Proof. apply (Qlt_bool_iff f a). Qed.

(** An event that starts after the final time contributes no row. *)
Lemma event_rows_late (final_time : ext) (dose_event : ProtocolEvent) :
  gt_ext (start dose_event) final_time = true ->
  event_rows final_time dose_event = [].
Proof. intros Hlate. unfold event_rows. rewrite Hlate. reflexivity. Qed.

Lemma flat_map_event_rows_late (final_time : ext) (regimen : Protocol) :
  Forall (fun ev => gt_ext (start ev) final_time = true) regimen ->
  flat_map (event_rows final_time) regimen = [].
Proof.
  induction 1 as [|ev regimen Hev _ IH]; [reflexivity|].
  simpl. rewrite (event_rows_late _ _ Hev), IH. reflexivity.
Qed.

(** Without a final time, an event with period 2 that repeats for ever
    contributes its first dose only. *)
Lemma event_rows_unbounded_no_final_time (dose_event : ProtocolEvent) :
  period dose_event = 2%Q -> multiplier dose_event = 0%Z ->
  event_rows Inf dose_event
  = [mk_dose_row (start dose_event + 0 * 2)%Q (duration dose_event)
       (level dose_event * duration dose_event)%Q].
Proof.
  intros Hperiod Hnum. unfold event_rows. rewrite Hperiod, Hnum. reflexivity.
Qed.

(** With the final time 7, such an event contributes the doses at
    [start], [start + 2] and [start + 4] that are not after 7: the number
    of doses is [int(7 // 2) = 3], counted from the start of the event. *)
Lemma event_rows_unbounded_until_7 (dose_event : ProtocolEvent) :
  period dose_event = 2%Q -> multiplier dose_event = 0%Z ->
  (start dose_event <= 7)%Q ->
  event_rows (Finite 7) dose_event
  = map (fun t => mk_dose_row t (duration dose_event)
                    (level dose_event * duration dose_event)%Q)
        (filter (fun t => Qle_bool t 7)
           [(start dose_event + 0 * 2)%Q; (start dose_event + 1 * 2)%Q;
            (start dose_event + 2 * 2)%Q]).
Proof.
  intros Hperiod Hnum Hstart. unfold event_rows.
  assert (Hnot_late : gt_ext (start dose_event) (Finite 7) = false).
  { unfold gt_ext. simpl. apply negb_false_iff. apply Qle_bool_iff.
    exact Hstart. }
  rewrite Hnot_late, Hperiod, Hnum. reflexivity.
Qed.

Section GetDosingRegimen.

Context {MM EM : Type} `{MechanisticModel MM}.
Implicit Types (self : PredictiveModel (MM := MM) (EM := EM)).

(** C9, as the code has it. For every negative [final_time],
    [get_dosing_regimen] raises a [ValueError] when the mechanistic model
    supports dosing regimens and one is set. *)
Theorem negative_final_time_raises self (regimen : Protocol) (final_time : Q) :
  mm_dosing_regimen (_mechanistic_model self) = Returned (Some regimen) ->
  (final_time < 0)%Q ->
  is_ValueError (get_dosing_regimen self (Some final_time)).
Proof.
  intros Hregimen Hneg. unfold get_dosing_regimen. rewrite Hregimen.
  simpl. rewrite (proj2 (Qlt_bool_iff final_time 0) Hneg).
  eexists. reflexivity.
Qed.

(** C10, as the code has it. [get_dosing_regimen] returns [None] and does
    not raise when the mechanistic model does not support dosing regimens,
    when no regimen is set (in both cases whatever the final time is, a
    negative one too), and when a regimen is set, the final time is not
    negative and no dose event starts at or before it. *)
Theorem get_dosing_regimen_none self (final_time : option Q) :
  (exists msg,
      mm_dosing_regimen (_mechanistic_model self)
      = Raised (AttributeError msg)) \/
  mm_dosing_regimen (_mechanistic_model self) = Returned None \/
  (exists regimen ft,
      mm_dosing_regimen (_mechanistic_model self) = Returned (Some regimen) /\
      final_time = Some ft /\ (0 <= ft)%Q /\
      Forall (fun ev => (ft < start ev)%Q) regimen) ->
  get_dosing_regimen self final_time = Returned None.
Proof.
  intros [[msg Hmodel] | [Hmodel | (regimen & ft & Hmodel & -> & Hpos & Hlate)]];
    unfold get_dosing_regimen; rewrite Hmodel; try reflexivity.
  simpl.
  assert (Hnot_neg : Qlt_bool ft 0 = false).
  { destruct (Qlt_bool ft 0) eqn:Hlt; [|reflexivity].
    apply Qlt_bool_iff in Hlt. exfalso. exact (Qlt_not_le _ _ Hlt Hpos). }
  rewrite Hnot_neg, flat_map_event_rows_late; [reflexivity|].
  eapply Forall_impl; [|exact Hlate].
  intros ev Hev. apply gt_ext_finite_iff. exact Hev.
Qed.

(** Without a final time, a regimen of one event with period 2 that
    repeats for ever gives a table of one row, the first dose. *)
Lemma get_dosing_regimen_first_dose_only self (dose_event : ProtocolEvent) :
  mm_dosing_regimen (_mechanistic_model self) = Returned (Some [dose_event]) ->
  period dose_event = 2%Q -> multiplier dose_event = 0%Z ->
  exists row,
    get_dosing_regimen self None = Returned (Some [row]) /\
    (Time row == start dose_event)%Q /\
    Duration row = duration dose_event /\
    Dose row = (level dose_event * duration dose_event)%Q.
Proof.
  intros Hmodel Hperiod Hnum. unfold get_dosing_regimen. rewrite Hmodel.
  simpl. rewrite (event_rows_unbounded_no_final_time _ Hperiod Hnum).
  eexists. split; [reflexivity|]. simpl. repeat split. ring.
Qed.

End GetDosingRegimen.

Import Examples.

(** C3, second half, on the regimen "a dose every 2 time units for ever,
    from time 0": with the final time 7 the table has the doses at 0, 2
    and 4 only. The dose at 6 is not after the final time, but the table
    does not have it. *)
Theorem dosing_regimen_until_7_has_three_rows :
  exists rows,
    get_dosing_regimen (predictive pk_model_dosed) (Some 7%Q)
    = Returned (Some rows) /\
    map Time rows = [0 # 1; 2 # 1; 4 # 1]%Q /\
    (start (toy_schedule 1 0 (1 # 100) (Some 2%Q) None) + 6 <= 7)%Q /\
    ~ In (6 # 1)%Q (map Time rows).
Proof.
  eexists. split; [vm_compute; reflexivity|].
  split; [reflexivity|]. split; [vm_compute; discriminate|].
  simpl. intros [H0|[H0|[H0|[]]]]; discriminate.
Qed.

(** C3, first half, on the same regimen: without a final time the table
    has the first dose only. *)
Example dosing_regimen_without_final_time :
  get_dosing_regimen (predictive pk_model_dosed) None
  = Returned (Some [mk_dose_row (0 # 1) (1 # 100) (100 # 100)]).
Proof. vm_compute. reflexivity. Qed.

(** With a final time before the first period has passed, the table is
    missing altogether, although the first dose is not after it. *)
Example dosing_regimen_until_1 :
  get_dosing_regimen (predictive pk_model_dosed) (Some 1%Q) = Returned None.
Proof. vm_compute. reflexivity. Qed.

(** C9 does not hold as stated: a negative final time does not raise
    where the model has no dosing regimens. *)
Lemma negative_final_time_without_regimen :
  (-1 < 0)%Q /\
  get_dosing_regimen (predictive pd_model) (Some (-1)%Q) = Returned None /\
  ~ raises (get_dosing_regimen (predictive pd_model) (Some (-1)%Q)).
Proof.
  split; [reflexivity|]. split; [reflexivity|].
  intros [e He]. discriminate.
Qed.

Lemma negative_final_time_raises_example :
  (-1 < 0)%Q /\
  is_ValueError (get_dosing_regimen (predictive pk_model_dosed) (Some (-1)%Q)).
Proof.
  split; [reflexivity|].
  apply (@negative_final_time_raises toy_model toy_error toy_mechanistic
           (predictive pk_model_dosed)
           [toy_schedule 1 0 (1 # 100) (Some 2%Q) None] (-1)%Q).
  - reflexivity.
  - reflexivity.
Defined.

(** C10 does not hold as stated: with a regimen set, no dose event starts
    at or before the final time -1, and [get_dosing_regimen] raises. *)
Lemma no_event_before_negative_final_time :
  mm_dosing_regimen (_mechanistic_model (predictive pk_model_dosed))
  = Returned (Some [toy_schedule 1 0 (1 # 100) (Some 2%Q) None]) /\
  Forall (fun ev => (-1 < start ev)%Q)
    [toy_schedule 1 0 (1 # 100) (Some 2%Q) None] /\
  get_dosing_regimen (predictive pk_model_dosed) (Some (-1)%Q)
  <> Returned None /\
  is_ValueError (get_dosing_regimen (predictive pk_model_dosed) (Some (-1)%Q)).
Proof.
  split; [reflexivity|].
  split; [constructor; [reflexivity|constructor]|].
  split; [discriminate|]. eexists. reflexivity.
Qed.

(** The final time 7 on a regimen that starts at 8. *)
Lemma get_dosing_regimen_none_example :
  get_dosing_regimen
    (predictive (mk_toy true
       (Some [toy_schedule 1 8 (1 # 100) (Some 2%Q) None]) []))
    (Some 7%Q)
  = Returned None.
Proof.
  apply (@get_dosing_regimen_none toy_model toy_error toy_mechanistic).
  right. right.
  exists [toy_schedule 1 8 (1 # 100) (Some 2%Q) None], 7%Q.
  split; [reflexivity|]. split; [reflexivity|].
  split; [discriminate|].
  constructor; [reflexivity|constructor].
Defined.

End DosingFacts.

(** ** Sampling *)

Module SamplingFacts.

Import PredictiveModels.

(** *** [np.sort] *)

Lemma insert_sorted_perm (t : Q) (ts : list Q) :
  Permutation (t :: ts) (insert_sorted t ts).
Proof.
  induction ts as [|u ts IH]; simpl; [apply Permutation_refl|].
  destruct (Qle_bool t u); [apply Permutation_refl|].
  eapply Permutation_trans; [apply perm_swap|].
  apply perm_skip. exact IH.
Qed.

Lemma sort_perm (ts : list Q) : Permutation ts (sort ts).
Proof.
  induction ts as [|t ts IH]; simpl; [constructor|].
  eapply Permutation_trans; [|apply insert_sorted_perm].
  apply perm_skip. exact IH.
Qed.

Lemma length_sort (ts : list Q) : length (sort ts) = length ts.
Proof. symmetry. apply Permutation_length, sort_perm. Qed.

Lemma insert_sorted_sorted (t : Q) (ts : list Q) :
  Sorted Qle ts -> Sorted Qle (insert_sorted t ts).
Proof.
  induction 1 as [|u ts Hsorted IH Hhd]; simpl.
  - repeat constructor.
  - destruct (Qle_bool t u) eqn:Htu.
    + apply Qle_bool_iff in Htu. repeat constructor; assumption.
    + assert (Hut : (u <= t)%Q).
      { apply Qlt_le_weak, Qnot_le_lt. intros Hle.
        apply Qle_bool_iff in Hle. congruence. }
      constructor; [exact IH|].
      destruct ts as [|v ts]; simpl.
      * constructor. exact Hut.
      * inversion Hhd; subst.
        destruct (Qle_bool t v); constructor; assumption.
Qed.

Lemma sort_sorted (ts : list Q) : Sorted Qle (sort ts).
Proof.
  induction ts as [|t ts IH]; simpl; [constructor|].
  apply insert_sorted_sorted. exact IH.
Qed.

(** *** Slices *)

Lemma slice_from {A : Type} (l : list A) (a n : nat) :
  slice l a (a + n) = firstn n (skipn a l).
Proof. unfold slice. replace (a + n - a) with n by lia. reflexivity. Qed.

Lemma skipn_add {A : Type} (l : list A) (a n : nat) :
  skipn (a + n) l = skipn n (skipn a l).
Proof. rewrite Nat.add_comm. symmetry. apply skipn_skipn. Qed.

Lemma concat_split_by {A : Type} (sizes : list nat) :
  forall l : list A,
    length l = list_sum sizes -> concat (split_by sizes l) = l.
Proof.
  induction sizes as [|n sizes IH]; intros l Hlen; simpl in *.
  - destruct l; [reflexivity|discriminate].
  - rewrite IH; [apply firstn_skipn|].
    rewrite length_skipn. lia.
Qed.

Lemma length_split_by {A : Type} (sizes : list nat) :
  forall l : list A, length (split_by sizes l) = length sizes.
Proof.
  induction sizes as [|n sizes IH]; intros l; simpl; [|rewrite IH];
    reflexivity.
Qed.

(** *** Traces *)

Section Traces.

Variable world : Type.
Variable random_seed : Z -> world -> world.
Variable garbage : world -> nat -> Q.

Lemma trace_bind {A B : Type} (m : M world A) (f : A -> M world B)
    (w : world) :
  trace (bind m f w)
  = trace (m w)
    ++ match value (m w) with
       | Returned a => trace (f a (world_after (m w)))
       | Raised _ => []
       end.
Proof.
  unfold bind. destruct (value (m w)); simpl; [reflexivity|].
  symmetry. apply app_nil_r.
Qed.

Lemma value_bind {A B : Type} (m : M world A) (f : A -> M world B)
    (w : world) :
  value (bind m f w)
  = match value (m w) with
    | Returned a => value (f a (world_after (m w)))
    | Raised e => Raised e
    end.
Proof. unfold bind. destruct (value (m w)); reflexivity. Qed.

Lemma oracle_run {A : Type} (f : world -> A * world) (w : world) :
  oracle f w = mk_ran (Returned (fst (f w))) (snd (f w)) [].
Proof. unfold oracle. destruct (f w). reflexivity. Qed.

Lemma simulate_calls_app (tr tr' : list event) :
  simulate_calls (tr ++ tr') = simulate_calls tr ++ simulate_calls tr'.
Proof. apply flat_map_app. Qed.

Lemma error_sample_calls_app (tr tr' : list event) :
  error_sample_calls (tr ++ tr')
  = error_sample_calls tr ++ error_sample_calls tr'.
Proof. apply flat_map_app. Qed.

Lemma draws_and_samples_app (tr tr' : list event) :
  draws_and_samples (tr ++ tr')
  = draws_and_samples tr ++ draws_and_samples tr'.
Proof. apply filter_app. Qed.

Context {MM EM LP : Type}.
Context `{MechanisticModel MM} `{ErrorModel world EM} `{LogPrior world LP}.

(** The loop over the error models calls nothing but the error models,
    one after the other, each with its slice of the error parameters. *)
Lemma sample_errors_calls (error_models : list EM) :
  forall output_id start_index error_params outputs n_samples seed
         container w,
    let r := sample_errors error_models output_id start_index error_params
               outputs n_samples seed container w in
    simulate_calls (trace r) = [] /\
    draws_and_samples (trace r) = [] /\
    (output_id + length error_models <= length outputs ->
     (exists c, value r = Returned c) /\
     error_sample_calls (trace r)
     = combine (seq output_id (length error_models))
         (split_by (map em_n_parameters error_models)
            (skipn start_index error_params))).
Proof.
  induction error_models as [|error_model error_models IH];
    intros output_id start_index error_params outputs n_samples seed
           container w r.
  - subst r. simpl. repeat split; eauto.
  - subst r. simpl sample_errors.
    destruct (nth_error outputs output_id) as [model_output|] eqn:Houtput.
    + repeat (progress (rewrite ?trace_bind, ?value_bind, ?oracle_run;
                        cbn [log value trace world_after app])).
      match goal with
      | |- context [em_sample error_model ?ps model_output n_samples seed w] =>
          set (drawn := fst (em_sample error_model ps model_output n_samples
                               seed w));
          set (w' := snd (em_sample error_model ps model_output n_samples
                            seed w))
      end.
      destruct (IH (S output_id)
                  (start_index + em_n_parameters error_model)
                  error_params outputs n_samples seed
                  (set_nth container output_id drawn) w')
        as (IHsim & IHdraws & IHcalls).
      split; [exact IHsim|]. split; [exact IHdraws|].
      intros Hlen. simpl in Hlen.
      assert (Hrest : S output_id + length error_models <= length outputs)
        by lia.
      destruct (IHcalls Hrest) as [IHvalue IHrest].
      split; [exact IHvalue|].
      change (error_sample_calls (?ev :: ?tr))
        with (match ev with
              | ev_error_sample o ps _ _ _ => [(o, ps)]
              | _ => []
              end ++ error_sample_calls tr).
      rewrite IHrest, slice_from, skipn_add. reflexivity.
    + simpl. split; [reflexivity|]. split; [reflexivity|].
      intros Hlen. simpl in Hlen. apply nth_error_None in Houtput. lia.
Qed.

Ltac run_binds :=
  repeat (progress (rewrite ?trace_bind, ?value_bind, ?oracle_run;
                    cbn [log raise ret lift get_world value trace
                         world_after app])).

Implicit Types (self : PredictiveModel (MM := MM) (EM := EM)).

(** A call of [sample] is one call of [PredictiveModel.sample], whatever
    comes of it. *)
Lemma sample_is_one_call self parameters times n_samples seed return_df w :
  draws_and_samples
    (trace (sample garbage self parameters times n_samples seed return_df w))
  = [ev_predictive_sample parameters times n_samples seed return_df].
Proof.
  unfold sample. run_binds.
  destruct (negb (length parameters =? _n_parameters self)); run_binds;
    [reflexivity|].
  destruct (Z.ltb _ 0); run_binds; [reflexivity|].
  match goal with
  | |- context [sample_errors ?ems ?o ?s ?ep ?outs ?n ?sd ?c ?w0] =>
      destruct (sample_errors_calls ems o s ep outs n sd c w0)
        as (_ & Hdraws & _);
      destruct (value (sample_errors ems o s ep outs n sd c w0))
  end.
  - destruct return_df; cbn [negb]; run_binds;
      [destruct (collect _ _); run_binds|];
      rewrite ?app_nil_r;
      change (draws_and_samples (?a :: ?b :: ?tr))
        with (a :: draws_and_samples tr);
      rewrite Hdraws; reflexivity.
  - rewrite ?app_nil_r.
    change (draws_and_samples (?a :: ?b :: ?tr))
      with (a :: draws_and_samples tr).
    rewrite Hdraws. reflexivity.
Qed.

(** With parameters of the right length, [sample] solves the mechanistic
    model exactly once, with the first [n_parameters()] parameters and the
    sorted times. *)
Lemma sample_simulates_once self parameters times n_samples seed return_df w :
  length parameters = _n_parameters self ->
  simulate_calls
    (trace (sample garbage self parameters times n_samples seed return_df w))
  = [(firstn (mm_n_parameters (_mechanistic_model self)) parameters,
      sort times)].
Proof.
  intros Hlen. unfold sample. run_binds.
  rewrite (proj2 (Nat.eqb_eq _ _) Hlen). cbn [negb]. run_binds.
  destruct (Z.ltb _ 0); run_binds; [reflexivity|].
  match goal with
  | |- context [sample_errors ?ems ?o ?s ?ep ?outs ?n ?sd ?c ?w0] =>
      destruct (sample_errors_calls ems o s ep outs n sd c w0)
        as (Hsim & _ & _);
      destruct (value (sample_errors ems o s ep outs n sd c w0))
  end.
  - destruct return_df; cbn [negb]; run_binds;
      [destruct (collect _ _); run_binds|];
      rewrite ?app_nil_r;
      change (simulate_calls (?a :: ev_simulate ?p ?t :: ?tr))
        with ((p, t) :: simulate_calls tr);
      rewrite Hsim; reflexivity.
  - rewrite ?app_nil_r.
    change (simulate_calls (?a :: ev_simulate ?p ?t :: ?tr))
      with ((p, t) :: simulate_calls tr).
    rewrite Hsim. reflexivity.
Qed.

(** When the mechanistic model returns one row per error model and the
    number of samples is not negative, every error model is called, in
    order, with its piece of the error parameters. *)
Lemma sample_error_slices self parameters times n_samples seed return_df w :
  length parameters = _n_parameters self ->
  length (mm_simulate (_mechanistic_model self)
            (firstn (mm_n_parameters (_mechanistic_model self)) parameters)
            (sort times))
  = length (_error_models self) ->
  (0 <= match n_samples with Some n => n | None => 1 end)%Z ->
  error_sample_calls
    (trace (sample garbage self parameters times n_samples seed return_df w))
  = combine (seq 0 (length (_error_models self)))
      (split_by (map em_n_parameters (_error_models self))
         (skipn (mm_n_parameters (_mechanistic_model self)) parameters)).
Proof.
  intros Hlen Houtputs Hn. unfold sample. run_binds.
  rewrite (proj2 (Nat.eqb_eq _ _) Hlen). cbn [negb]. run_binds.
  rewrite (proj2 (Z.ltb_ge _ _) Hn). run_binds.
  match goal with
  | |- context [sample_errors ?ems ?o ?s ?ep ?outs ?n ?sd ?c ?w0] =>
      destruct (sample_errors_calls ems o s ep outs n sd c w0)
        as (_ & _ & Hcalls);
      destruct Hcalls as [[c' Hvalue] Hcalls]; [simpl; lia|];
      rewrite Hvalue
  end.
  destruct return_df; cbn [negb]; run_binds;
    [destruct (collect _ _); run_binds|];
    rewrite ?app_nil_r;
    change (error_sample_calls (?a :: ev_simulate ?p ?t :: ?tr))
      with (error_sample_calls tr);
    exact Hcalls.
Qed.

(** C5, as the code has it. For parameters of the right total length and
    any times, [sample] takes the first [n_parameters()] entries for the
    mechanistic model and cuts the rest into one piece per error model, in
    the order of the outputs, and it solves the mechanistic model exactly
    once, over the sorted times; times that occur more than once are
    kept. *)
Theorem sample_splits_parameters_and_simulates_once
    self parameters times n_samples seed return_df w :
  length parameters = _n_parameters self ->
  _n_parameters self
  = mm_n_parameters (_mechanistic_model self)
    + list_sum (map em_n_parameters (_error_models self)) ->
  length (mm_simulate (_mechanistic_model self)
            (firstn (mm_n_parameters (_mechanistic_model self)) parameters)
            (sort times))
  = length (_error_models self) ->
  (0 <= match n_samples with Some n => n | None => 1 end)%Z ->
  let r := sample garbage self parameters times n_samples seed return_df w in
  let mechanistic_params :=
    firstn (mm_n_parameters (_mechanistic_model self)) parameters in
  let error_params :=
    split_by (map em_n_parameters (_error_models self))
      (skipn (mm_n_parameters (_mechanistic_model self)) parameters) in
  simulate_calls (trace r) = [(mechanistic_params, sort times)] /\
  Sorted Qle (sort times) /\
  Permutation times (sort times) /\
  error_sample_calls (trace r)
  = combine (seq 0 (length (_error_models self))) error_params /\
  mechanistic_params ++ concat error_params = parameters.
Proof.
  intros Hlen Htotal Houtputs Hn r mechanistic_params error_params.
  split; [apply sample_simulates_once; exact Hlen|].
  split; [apply sort_sorted|].
  split; [apply sort_perm|].
  split; [apply sample_error_slices; assumption|].
  unfold mechanistic_params, error_params.
  rewrite concat_split_by; [apply firstn_skipn|].
  rewrite length_skipn. lia.
Qed.

(** What [PredictiveModel.__init__] establishes, for sub-models that
    report as many parameters as they have parameter names: one error model
    per output, and a parameter count that is the sum of the sub-models'
    counts. *)
Lemma length_concat_names (error_models : list EM) :
  (forall e : EM, em_n_parameters e = length (em_get_parameter_names e)) ->
  length (concat (map em_get_parameter_names error_models))
  = list_sum (map em_n_parameters error_models).
Proof.
  intros Hnames. induction error_models as [|e error_models IH];
    [reflexivity|].
  simpl. rewrite length_app, IH, Hnames. reflexivity.
Qed.

Lemma init_parameter_count (mechanistic_model : MM) (error_models : list EM)
    (outputs : option (list string)) self :
  (forall m : MM, mm_n_parameters m = length (mm_parameters m)) ->
  (forall e : EM, em_n_parameters e = length (em_get_parameter_names e)) ->
  PredictiveModel__init__ mechanistic_model error_models outputs
  = Returned self ->
  length (_error_models self) = mm_n_outputs (_mechanistic_model self) /\
  _n_parameters self
  = mm_n_parameters (_mechanistic_model self)
    + list_sum (map em_n_parameters (_error_models self)).
Proof.
  intros Hmech Herror. unfold PredictiveModel__init__.
  destruct (match outputs with
            | Some names => mm_set_outputs names mechanistic_model
            | None => Returned mechanistic_model
            end) as [configured|e]; [|discriminate].
  destruct (Nat.eqb_spec (length error_models) (mm_n_outputs configured))
    as [Houtputs|Houtputs]; simpl negb; [|discriminate].
  intros Hself. injection Hself as <-. simpl.
  split; [exact Houtputs|].
  rewrite length_app, length_concat_names, Hmech by exact Herror.
  reflexivity.
Qed.

(** *** [PriorPredictiveModel.sample] *)

Implicit Types (prior : PriorPredictiveModel (MM := MM) (EM := EM) (LP := LP)).


Lemma length_sample_ids (n : Z) : length (sample_ids n) = Z.to_nat n.
Proof. unfold sample_ids. rewrite length_map, length_seq. reflexivity. Qed.

(** The sample ids are [1, 2, ..., n]. *)
Lemma nth_error_sample_ids (n : Z) (i : nat) :
  i < Z.to_nat n -> nth_error (sample_ids n) i = Some (Z.of_nat i + 1)%Z.
Proof.
  intros Hi. unfold sample_ids.
  rewrite nth_error_map, nth_error_seq.
  destruct (Nat.ltb_spec i (Z.to_nat n)) as [_|Hge]; [|lia].
  simpl. f_equal. lia.
Qed.


End Traces.

Import Examples.

(** The predictive model of the examples is the one
    [PredictiveModel.__init__] builds. *)
Example predictive_init :
  PredictiveModel__init__ pk_model [mk_toy_error "sigma"] None
  = Returned (predictive pk_model).
Proof. reflexivity. Qed.

Lemma sample_splits_parameters_and_simulates_once_example :
  let r := sample toy_garbage (predictive pk_model) [1; 2; 3]%Q [1; 1; 0]%Q
             (Some 2%Z) (Some 5%Z) true 0 in
  simulate_calls (trace r) = [([1; 2]%Q, [0; 1; 1]%Q)] /\
  Sorted Qle [0; 1; 1]%Q /\
  Permutation [1; 1; 0]%Q [0; 1; 1]%Q /\
  error_sample_calls (trace r) = [(0, [3]%Q)] /\
  [1; 2]%Q ++ concat [[3]%Q] = [1; 2; 3]%Q.
Proof.
  apply (@sample_splits_parameters_and_simulates_once counter toy_garbage
           toy_model toy_error toy_mechanistic toy_error_model
           (predictive pk_model) [1; 2; 3]%Q [1; 1; 0]%Q
           (Some 2%Z) (Some 5%Z) true 0).
  - reflexivity.
  - reflexivity.
  - reflexivity.
  - simpl. lia.
Defined.

(** C5 does not hold as stated: the times [[1, 1]] reach the mechanistic
    model as they are, with the time 1 twice. *)
Lemma sample_keeps_duplicate_times :
  simulate_calls
    (trace (sample toy_garbage (predictive pk_model) [1; 2; 3]%Q [1; 1]%Q
              None None true 0))
  = [([1; 2]%Q, [1; 1]%Q)] /\
  ~ NoDup [1; 1]%Q.
Proof.
  split; [reflexivity|].
  intros Hnodup. inversion Hnodup as [|t ts Hnotin _]; subst.
  apply Hnotin. left. reflexivity.
Qed.


(** What the two draws of the example are, and the calls that follow
    them. *)
Example prior_predictive_sample_trace :
  draws_and_samples
    (trace (prior_predictive_sample toy_seed toy_garbage prior_predictive
              [1; 1; 0]%Q (Some 2%Z) (Some 5%Z) 7))
  = [ev_prior_sample [0; 1; 1]%Q;
     ev_predictive_sample [0; 1; 1]%Q [0; 1; 1]%Q (Some 2%Z) (Some 6%Z) false;
     ev_prior_sample [2; 1; 1]%Q;
     ev_predictive_sample [2; 1; 1]%Q [0; 1; 1]%Q (Some 2%Z) (Some 7%Z) false].
Proof. reflexivity. Qed.


End SamplingFacts.

(** ** Optimisation runs *)

Module OptimisationFacts.

Import Optimisation.



Lemma length_run_rows (names : list string) (run_id : nat)
    (estimates : list number) (s : score) :
  length estimates = length names ->
  length (run_rows names run_id estimates s) = length names.
Proof.
  intros Hlen. unfold run_rows.
  rewrite length_map, length_combine. lia.
Qed.



Section Run.

Variable self : OptimisationController.
Variable opt : optimiser.
Variable n_max_iterations : nat.


Hypothesis one_start_per_run : length (_initial_params self) = _n_runs self.

Hypothesis one_estimate_per_parameter :
  forall run_id initial estimates s,
    nth_error (_initial_params self) run_id = Some initial ->
    opt run_id initial n_max_iterations = Returned (estimates, s) ->
    length estimates = length (_parameters self).






End Run.

Import Examples.


(** The table of the example: the second run has failed and is in the
    table. *)
Example run_second_fails :
  run controller3 second_run_fails 10
  = Returned
      [mk_result_row "noise 1" (finite 1) (finite (- 0)) 1;
       mk_result_row "noise 1" (finite 2) non_finite 2;
       mk_result_row "noise 1" (finite 3) (finite (- inject_Z 2)) 3].
Proof. reflexivity. Qed.


(** An optimiser that raises in every run leaves the three runs in the
    table as well. *)
Example run_every_run_raises :
  run controller3 every_run_raises 10
  = Returned
      [mk_result_row "noise 1" non_finite non_finite 1;
       mk_result_row "noise 1" non_finite non_finite 2;
       mk_result_row "noise 1" non_finite non_finite 3].
Proof. reflexivity. Qed.

End OptimisationFacts.

(** ** More on [ReducedLogPDF]: inputs of the wrong size, sequences of
    calls, masks that fix nothing or everything *)

Module LogPDFsMore.

Import Numpy NumpyFacts LogPDFs LogPDFsFacts LogPDFsHistory.

Section Arrays.

Variable R : Type.
Implicit Types (a b v : list R) (mask : list bool).

(** Two arrays that agree off the mask are equal once the mask is
    written. *)
Lemma scatter_agree mask :
  forall a b v,
    length a = length mask -> length b = length mask ->
    length v = count_true mask ->
    getitem_mask a (invert mask) = getitem_mask b (invert mask) ->
    scatter a mask v = scatter b mask v.
Proof.
  induction mask as [|m mask IH]; intros a b v Ha Hb Hv Hoff.
  - destruct a; [|discriminate]. destruct b; [|discriminate]. reflexivity.
  - destruct a as [|x a]; [discriminate|].
    destruct b as [|y b]; [discriminate|].
    injection Ha as Ha. injection Hb as Hb.
    rewrite count_true_cons in Hv.
    destruct m; simpl in Hv, Hoff |- *.
    + destruct v as [|z v]; [discriminate|].
      f_equal. apply IH; auto.
    + injection Hoff as -> Hoff. f_equal. apply IH; auto.
Qed.

Lemma setitem_agree mask a b v :
  length a = length mask -> length b = length mask ->
  getitem_mask a (invert mask) = getitem_mask b (invert mask) ->
  setitem_mask a mask v = setitem_mask b mask v.
Proof.
  intros Ha Hb Hoff. unfold setitem_mask. rewrite Ha, Hb.
  destruct (negb (length mask =? length mask)); [reflexivity|].
  destruct (Nat.eqb_spec (length v) (count_true mask)) as [Hv|Hv].
  - f_equal. apply scatter_agree; assumption.
  - destruct v as [|y [|? ?]]; try reflexivity.
    f_equal. apply scatter_agree; try assumption. apply repeat_length.
Qed.

Lemma setitem_length mask a v full :
  setitem_mask a mask v = Returned full -> length full = length a.
Proof.
  unfold setitem_mask.
  destruct (negb (length mask =? length a)); [discriminate|].
  destruct (length v =? count_true mask).
  - intros Hfull. injection Hfull as <-. apply length_scatter.
  - destruct v as [|y [|? ?]]; try discriminate.
    intros Hfull. injection Hfull as <-. apply length_scatter.
Qed.

Lemma setitem_keeps_rest mask a v full :
  setitem_mask a mask v = Returned full ->
  getitem_mask full (invert mask) = getitem_mask a (invert mask).
Proof.
  unfold setitem_mask.
  destruct (negb (length mask =? length a)); [discriminate|].
  destruct (length v =? count_true mask).
  - intros Hfull. injection Hfull as <-. apply getitem_scatter_invert.
  - destruct v as [|y [|? ?]]; try discriminate.
    intros Hfull. injection Hfull as <-. apply getitem_scatter_invert.
Qed.

(** A mask that is true everywhere replaces the whole array, a mask that
    is false everywhere leaves it alone. *)
Lemma scatter_all_true mask :
  forall a v,
    Forall (fun m => m = true) mask ->
    length a = length mask -> length v = length mask ->
    scatter a mask v = v.
Proof.
  induction mask as [|m mask IH]; intros a v Hall Ha Hv.
  - destruct a; [|discriminate]. destruct v; [|discriminate]. reflexivity.
  - inversion Hall as [|? ? Hm Hall']; subst.
    destruct a as [|x a]; [discriminate|].
    destruct v as [|y v]; [discriminate|].
    simpl. f_equal. apply IH; auto.
Qed.

Lemma scatter_all_false mask :
  forall a v, Forall (fun m => m = false) mask -> scatter a mask v = a.
Proof.
  induction mask as [|m mask IH]; intros a v Hall.
  - destruct a; reflexivity.
  - inversion Hall as [|? ? Hm Hall']; subst.
    destruct a as [|x a]; [reflexivity|].
    simpl. f_equal. apply IH. exact Hall'.
Qed.

Lemma count_true_all_true mask :
  Forall (fun m => m = true) mask -> count_true mask = length mask.
Proof.
  induction 1 as [|m mask Hm _ IH]; [reflexivity|].
  rewrite count_true_cons, Hm, IH. reflexivity.
Qed.

Lemma invert_all_false mask :
  Forall (fun m => m = false) mask -> Forall (fun m => m = true) (invert mask).
Proof.
  induction 1 as [|m mask Hm _ IH]; [constructor|].
  subst. constructor; [reflexivity|exact IH].
Qed.

Lemma invert_all_true mask :
  Forall (fun m => m = true) mask -> Forall (fun m => m = false) (invert mask).
Proof.
  induction 1 as [|m mask Hm _ IH]; [constructor|].
  subst. constructor; [reflexivity|exact IH].
Qed.

(** Every entry that a written array has at a true position of the mask
    is one of the values written. *)
Lemma getitem_scatter_repeat mask :
  forall a y,
    length a = length mask ->
    getitem_mask (scatter a mask (repeat y (count_true mask))) mask
    = repeat y (count_true mask).
Proof.
  intros a y Ha. apply getitem_scatter; [congruence|apply repeat_length].
Qed.

End Arrays.

Section Adapter.

Variables R Score : Type.
Implicit Types (log_pdf : LogPDF R Score) (mask : array_like)
  (values x : list R) (mem : memory R) (self a : ReducedLogPDF R Score).

(** What a constructed adapter holds. *)
Lemma constructed_fields log_pdf mask values mem self :
  fst (__init__ log_pdf mask values mem) = Returned self ->
  valid_fixing log_pdf mask values /\
  _log_pdf self = log_pdf /\
  _mask self = invert (bools (asarray mask)) /\
  _n_parameters self = count_true (invert (bools (asarray mask))) /\
  length (_parameters self) = length (bools (asarray mask)) /\
  getitem_mask (_parameters self) (bools (asarray mask)) = values.
Proof.
  intros Hinit.
  destruct (valid_fixing_dec log_pdf mask values) as [Hvalid|Hinvalid].
  - rewrite (init_valid mem Hvalid) in Hinit. cbn [fst] in Hinit.
    injection Hinit as <-. cbn [_log_pdf _mask _n_parameters _parameters].
    destruct Hvalid as (Hlen & Hdt & Hvalues).
    assert (Hbuffer : length (fst (empty mem (len mask)))
                      = length (bools (asarray mask))).
    { rewrite length_empty, length_bools_asarray. reflexivity. }
    repeat split; auto.
    + rewrite length_scatter. exact Hbuffer.
    + apply getitem_scatter; [symmetry; exact Hbuffer|exact Hvalues].
  - destruct (init_invalid mem Hinvalid) as [msg Hmsg].
    rewrite Hmsg in Hinit. discriminate.
Qed.

Lemma same_fixing_refl self : same_fixing self self.
Proof. repeat split. Qed.

(** A call keeps the wrapped log-pdf, the free positions and the content
    of the fixed positions. *)
Lemma call_same_fixing a x : same_fixing (self_after (__call__ a x)) a.
Proof.
  unfold __call__.
  destruct (setitem_mask (_parameters a) (_mask a) x) as [full|e] eqn:Hset;
    cbn [self_after]; [|apply same_fixing_refl].
  repeat split; cbn [_log_pdf _mask _n_parameters _parameters].
  - eapply setitem_length. exact Hset.
  - eapply setitem_keeps_rest. exact Hset.
Qed.

Lemma same_fixing_trans a b self :
  same_fixing a b -> same_fixing b self -> same_fixing a self.
Proof.
  intros (H1 & H2 & H3 & H4 & H5) (H1' & H2' & H3' & H4' & H5').
  repeat split; congruence.
Qed.

Lemma after_calls_same_fixing (xs : list (list R)) :
  forall self, same_fixing (after_calls self xs) self.
Proof.
  induction xs as [|x xs IH]; intros self; [apply same_fixing_refl|].
  unfold after_calls in *. cbn [fold_left].
  eapply same_fixing_trans; [apply IH|apply call_same_fixing].
Qed.

(** Adapters with the same fixing answer a call alike. *)
Lemma same_fixing_call a self x :
  same_fixing a self ->
  length (_parameters self) = length (_mask self) ->
  log_pdf_calls (__call__ a x) = log_pdf_calls (__call__ self x) /\
  result (__call__ a x) = result (__call__ self x).
Proof.
  intros (Hpdf & Hmask & _ & Hlen & Hfixed) Hself. unfold __call__.
  rewrite Hmask in Hfixed |- *.
  rewrite (setitem_agree (_mask self) (_parameters a) (_parameters self) x)
    by congruence.
  destruct (setitem_mask (_parameters self) (_mask self) x);
    cbn [log_pdf_calls result]; rewrite ?Hpdf; split; reflexivity.
Qed.

(** X1. A constructed adapter, called on an input whose length is neither
    its number of free parameters nor 1, raises a [ValueError], does not
    call the wrapped log-pdf and stays as it was. *)
Theorem call_wrong_size_raises log_pdf mask values mem self x :
  fst (__init__ log_pdf mask values mem) = Returned self ->
  length x <> n_parameters self ->
  length x <> 1 ->
  is_ValueError (result (__call__ self x)) /\
  log_pdf_calls (__call__ self x) = [] /\
  self_after (__call__ self x) = self.
Proof.
  intros Hinit Hsize Hone.
  destruct (constructed_fields _ _ _ _ Hinit)
    as (_ & _ & Hmask & Hn & Hlen & _).
  unfold n_parameters in Hsize. rewrite Hn, <- Hmask in Hsize.
  unfold __call__, setitem_mask.
  rewrite Hlen, Hmask, length_invert, Nat.eqb_refl. cbn [negb].
  rewrite <- Hmask.
  destruct (Nat.eqb_spec (length x) (count_true (_mask self)));
    [contradiction|].
  destruct x as [|y [|z x]]; cbn [result log_pdf_calls self_after];
    try (split; [eexists; reflexivity|split; reflexivity]).
  exfalso. apply Hone. reflexivity.
Qed.

(** X2. A constructed adapter, called on a single value, writes the value
    to every free position, however many there are (none too), calls the
    wrapped log-pdf once on the result and returns its score. *)
Theorem call_single_value_broadcasts log_pdf mask values mem self (y : R) :
  fst (__init__ log_pdf mask values mem) = Returned self ->
  exists full,
    log_pdf_calls (__call__ self [y]) = [full] /\
    result (__call__ self [y]) = Returned (pdf_call log_pdf full) /\
    getitem_mask full (invert (bools (asarray mask)))
    = repeat y (n_parameters self) /\
    getitem_mask full (bools (asarray mask)) = values.
Proof.
  intros Hinit.
  destruct (constructed_fields _ _ _ _ Hinit)
    as (_ & Hpdf & Hmask & Hn & Hlen & Hvalues).
  set (m := bools (asarray mask)) in *.
  exists (scatter (_parameters self) (invert m)
            (repeat y (count_true (invert m)))).
  assert (Hcall : setitem_mask (_parameters self) (_mask self) [y]
                  = Returned (scatter (_parameters self) (invert m)
                                (repeat y (count_true (invert m))))).
  { unfold setitem_mask.
    rewrite Hlen, Hmask, length_invert, Nat.eqb_refl. cbn [negb].
    destruct (Nat.eqb_spec (length [y]) (count_true (invert m))) as [Hone|_];
      [|reflexivity].
    rewrite <- Hone. reflexivity. }
  unfold __call__. rewrite Hcall. cbn [log_pdf_calls result]. rewrite Hpdf.
  split; [reflexivity|]. split; [reflexivity|]. split.
  - unfold n_parameters. rewrite Hn.
    apply getitem_scatter_repeat. rewrite length_invert. exact Hlen.
  - pose proof (getitem_scatter_invert (_parameters self) (invert m)
                  (repeat y (count_true (invert m)))) as Hkept.
    rewrite invert_involutive in Hkept. rewrite Hkept. exact Hvalues.
Qed.

(** X3. The result of a call, and the array the wrapped log-pdf is called
    with, do not depend on the calls made before, whether they returned or
    raised: the array that is written in place carries nothing from one
    call to the next. *)
Theorem call_after_calls log_pdf mask values mem self
    (xs : list (list R)) x :
  fst (__init__ log_pdf mask values mem) = Returned self ->
  log_pdf_calls (__call__ (after_calls self xs) x)
  = log_pdf_calls (__call__ self x) /\
  result (__call__ (after_calls self xs) x) = result (__call__ self x).
Proof.
  intros Hinit.
  destruct (constructed_fields _ _ _ _ Hinit)
    as (_ & _ & Hmask & _ & Hlen & _).
  apply same_fixing_call; [apply after_calls_same_fixing|].
  rewrite Hmask, length_invert. exact Hlen.
Qed.

(** X4. Whatever calls are made, the fixed positions of the parameter
    array hold the fixed values, in order, and the adapter reports the
    same number of free parameters. *)
Theorem fixed_values_stay log_pdf mask values mem self
    (xs : list (list R)) :
  fst (__init__ log_pdf mask values mem) = Returned self ->
  getitem_mask (_parameters (after_calls self xs)) (bools (asarray mask))
  = values /\
  n_parameters (after_calls self xs) = n_parameters self /\
  length (_parameters (after_calls self xs)) = pdf_n_parameters log_pdf.
Proof.
  intros Hinit.
  destruct (constructed_fields _ _ _ _ Hinit)
    as ((Hn & _ & _) & _ & Hmask & _ & Hlen & Hvalues).
  destruct (after_calls_same_fixing xs self)
    as (_ & Hmask' & Hn' & Hlen' & Hfixed).
  rewrite Hmask', Hmask, invert_involutive in Hfixed.
  split; [congruence|]. split; [exact Hn'|].
  rewrite Hlen', Hlen, length_bools_asarray. exact Hn.
Qed.

(** X5. With a mask that fixes nothing and no values, the adapter is the
    wrapped log-pdf: it has all its parameters, and a call on an input of
    that length is a call of the wrapped log-pdf on the same input. *)
Theorem nothing_fixed_is_wrapped_log_pdf log_pdf mask mem :
  len mask = pdf_n_parameters log_pdf ->
  dtype_of (asarray mask) = dt_bool ->
  Forall (fun b => b = false) (bools (asarray mask)) ->
  exists self,
    fst (__init__ log_pdf mask [] mem) = Returned self /\
    n_parameters self = pdf_n_parameters log_pdf /\
    forall x,
      length x = pdf_n_parameters log_pdf ->
      (log_pdf_calls (__call__ self x), result (__call__ self x))
      = direct_call log_pdf x.
Proof.
  intros Hlen Hdt Hfalse.
  set (m := bools (asarray mask)) in *.
  assert (Hm : length m = len mask) by apply length_bools_asarray.
  assert (Hvalid : valid_fixing log_pdf mask []).
  { repeat split; auto. fold m. rewrite count_true_all_false; auto. }
  pose proof (invert_all_false Hfalse) as Htrue.
  rewrite (init_valid mem Hvalid). fold m. eexists.
  split; [reflexivity|]. split.
  - unfold n_parameters. cbn [_n_parameters].
    rewrite (count_true_all_true Htrue), length_invert. congruence.
  - intros x Hx. unfold __call__, direct_call.
    cbn [_parameters _mask _log_pdf].
    rewrite setitem_mask_fits.
    + cbn [log_pdf_calls result].
      rewrite (scatter_all_true _ _ Htrue); [reflexivity| |].
      * rewrite length_scatter, length_empty, length_invert. congruence.
      * rewrite length_invert. congruence.
    + rewrite length_scatter, length_empty, length_invert. congruence.
    + rewrite (count_true_all_true Htrue), length_invert. congruence.
Qed.

(** X6. With a mask that fixes everything, the adapter has no free
    parameter, and a call on the empty input is a call of the wrapped
    log-pdf on the fixed values. *)
Theorem everything_fixed_is_constant log_pdf mask values mem :
  len mask = pdf_n_parameters log_pdf ->
  dtype_of (asarray mask) = dt_bool ->
  Forall (fun b => b = true) (bools (asarray mask)) ->
  length values = pdf_n_parameters log_pdf ->
  exists self,
    fst (__init__ log_pdf mask values mem) = Returned self /\
    n_parameters self = 0 /\
    (log_pdf_calls (__call__ self []), result (__call__ self []))
    = direct_call log_pdf values.
Proof.
  intros Hlen Hdt Htrue Hvalues.
  set (m := bools (asarray mask)) in *.
  assert (Hm : length m = len mask) by apply length_bools_asarray.
  assert (Hvalid : valid_fixing log_pdf mask values).
  { repeat split; auto. fold m. rewrite (count_true_all_true Htrue).
    congruence. }
  pose proof (invert_all_true Htrue) as Hfalse.
  rewrite (init_valid mem Hvalid). fold m. eexists.
  split; [reflexivity|]. split.
  - unfold n_parameters. cbn [_n_parameters].
    apply count_true_all_false. exact Hfalse.
  - unfold __call__, direct_call. cbn [_parameters _mask _log_pdf].
    rewrite setitem_mask_fits.
    + cbn [log_pdf_calls result].
      rewrite (scatter_all_false _ _ Hfalse).
      rewrite (scatter_all_true _ _ Htrue); [reflexivity| |congruence].
      rewrite length_empty. congruence.
    + rewrite length_scatter, length_empty, length_invert. congruence.
    + rewrite (count_true_all_false Hfalse). reflexivity.
Qed.

(** X7. A mask given as a Python list of Python scalars ([bool], [int],
    [float] or [str] objects) is accepted exactly when the list is not
    empty, is as long as the log-pdf has parameters, holds [bool] objects
    only (the integers 0 and 1 will not do), and there are as many values
    as [True] entries. *)
Theorem init_list_mask log_pdf (items : list pyobj) values mem :
  (exists self,
      fst (__init__ log_pdf (PyList items) values mem) = Returned self) <->
  items <> [] /\
  length items = pdf_n_parameters log_pdf /\
  Forall (fun o => exists b, o = PyBool b) items /\
  length values = count_true (map truth items).
Proof.
  assert (Hbool : forall os : list pyobj,
             Forall (fun o => scalar_dtype o = dt_bool) os <->
             Forall (fun o => exists b, o = PyBool b) os).
  { intros os. split; intros Hall; (eapply Forall_impl; [|exact Hall]).
    - intros [b| | |]; simpl; try discriminate. intros _. eexists. reflexivity.
    - intros o [b ->]. reflexivity. }
  assert (Hitems : bools (asarray (PyList items)) = map truth items).
  { destruct items; reflexivity. }
  split.
  - intros [self Hinit].
    destruct (constructed_fields _ _ _ _ Hinit)
      as ((Hlen & Hdt & Hvalues) & _).
    apply asarray_list_bool in Hdt. destruct Hdt as [Hne Hall].
    rewrite Hitems in Hvalues.
    repeat split; auto. apply Hbool. exact Hall.
  - intros (Hne & Hlen & Hall & Hvalues).
    assert (Hvalid : valid_fixing log_pdf (PyList items) values).
    { repeat split.
      - exact Hlen.
      - apply asarray_list_bool. split; [exact Hne|]. apply Hbool. exact Hall.
      - rewrite Hitems. exact Hvalues. }
    rewrite (init_valid mem Hvalid). eexists. reflexivity.
Qed.

End Adapter.

Import Examples.

(** The adapter of the examples: six parameters, four of them fixed. *)
Lemma adapter6 :
  exists self,
    fst (__init__ log_pdf6 mask6 values4 stale) = Returned self.
Proof. eexists. reflexivity. Qed.

Lemma call_wrong_size_raises_example :
  exists self,
    fst (__init__ log_pdf6 mask6 values4 stale) = Returned self /\
    is_ValueError (result (__call__ self [7; 8; 9]%Z)) /\
    log_pdf_calls (__call__ self [7; 8; 9]%Z) = [] /\
    self_after (__call__ self [7; 8; 9]%Z) = self.
Proof.
  eexists. split; [reflexivity|].
  apply (@call_wrong_size_raises Z Z log_pdf6 mask6 values4 stale _
           [7; 8; 9]%Z).
  - reflexivity.
  - discriminate.
  - discriminate.
Defined.

Lemma call_single_value_broadcasts_example :
  exists self full,
    fst (__init__ log_pdf6 mask6 values4 stale) = Returned self /\
    log_pdf_calls (__call__ self [7]%Z) = [full] /\
    result (__call__ self [7]%Z) = Returned (digits full) /\
    getitem_mask full (invert (bools (asarray mask6)))
    = repeat 7%Z (n_parameters self) /\
    getitem_mask full (bools (asarray mask6)) = values4.
Proof.
  eexists.
  destruct (@call_single_value_broadcasts Z Z log_pdf6 mask6 values4 stale _
              7%Z eq_refl) as [full Hfull].
  exists full. split; [reflexivity|exact Hfull].
Defined.

(** The single value 7 gives [[7, 1, 1, 7, 1, 1]]. *)
Example call_single_value :
  fixed_call log_pdf6 mask6 values4 stale [7]%Z
  = Returned (digits [7; 1; 1; 7; 1; 1]%Z).
Proof. reflexivity. Qed.

Lemma call_after_calls_example :
  exists self,
    fst (__init__ log_pdf6 mask6 values4 stale) = Returned self /\
    log_pdf_calls (__call__ (after_calls self [[3; 4]; [5]; []]%Z) [7; 8]%Z)
    = log_pdf_calls (__call__ self [7; 8]%Z) /\
    result (__call__ (after_calls self [[3; 4]; [5]; []]%Z) [7; 8]%Z)
    = result (__call__ self [7; 8]%Z).
Proof.
  eexists. split; [reflexivity|].
  apply (@call_after_calls Z Z log_pdf6 mask6 values4 stale _
           [[3; 4]; [5]; []]%Z [7; 8]%Z).
  reflexivity.
Defined.

Lemma fixed_values_stay_example :
  exists self,
    fst (__init__ log_pdf6 mask6 values4 stale) = Returned self /\
    getitem_mask (_parameters (after_calls self [[3; 4]; [5]; []]%Z))
      (bools (asarray mask6)) = values4 /\
    n_parameters (after_calls self [[3; 4]; [5]; []]%Z) = n_parameters self /\
    length (_parameters (after_calls self [[3; 4]; [5]; []]%Z)) = 6.
Proof.
  eexists. split; [reflexivity|].
  apply (@fixed_values_stay Z Z log_pdf6 mask6 values4 stale _
           [[3; 4]; [5]; []]%Z).
  reflexivity.
Defined.

Lemma nothing_fixed_is_wrapped_log_pdf_example :
  exists self,
    fst (__init__ log_pdf6 unfix6 [] stale) = Returned self /\
    n_parameters self = 6 /\
    forall x,
      length x = 6 ->
      (log_pdf_calls (__call__ self x), result (__call__ self x))
      = direct_call log_pdf6 x.
Proof.
  apply (@nothing_fixed_is_wrapped_log_pdf Z Z log_pdf6 unfix6 stale).
  - reflexivity.
  - reflexivity.
  - repeat constructor.
Defined.

Lemma everything_fixed_is_constant_example :
  exists self,
    fst (__init__ log_pdf6 (PyList (repeat (PyBool true) 6))
           [1; 2; 3; 4; 5; 6]%Z stale) = Returned self /\
    n_parameters self = 0 /\
    (log_pdf_calls (__call__ self []), result (__call__ self []))
    = direct_call log_pdf6 [1; 2; 3; 4; 5; 6]%Z.
Proof.
  apply (@everything_fixed_is_constant Z Z log_pdf6
           (PyList (repeat (PyBool true) 6)) [1; 2; 3; 4; 5; 6]%Z stale).
  - reflexivity.
  - reflexivity.
  - repeat constructor.
  - reflexivity.
Defined.

(** Masks of integers, and the empty list, are turned down. *)
Example init_integer_mask :
  fst (__init__ log_pdf6
         (PyList [PyInt 0; PyInt 1; PyInt 1; PyInt 0; PyInt 1; PyInt 1])
         values4 stale)
  = Raised (ValueError "Mask has to be a boolean array.").
Proof. reflexivity. Qed.

End LogPDFsMore.

(** ** More on dosing regimens: what the table holds *)

Module DosingMore.

Import PredictiveModels DosingFacts.

(** Every row of a dose event repeats the duration of the event, has the
    dose rate times the duration as its dose, and lies a whole number of
    periods after the start of the event. *)
Lemma event_rows_origin (final_time : ext) (dose_event : ProtocolEvent)
    (row : dose_row) :
  In row (event_rows final_time dose_event) ->
  Duration row = duration dose_event /\
  Dose row = (level dose_event * duration dose_event)%Q /\
  exists k : nat,
    (Time row == start dose_event + inject_Z (Z.of_nat k) * period dose_event)%Q.
Proof.
  unfold event_rows.
  destruct (gt_ext (start dose_event) final_time); [contradiction|].
  destruct (Qeq_bool (period dose_event) 0).
  - intros [<- | []]. simpl. repeat split. exists 0. simpl. ring.
  - rewrite in_map_iff. intros (t & <- & Ht).
    apply filter_In in Ht. destruct Ht as [Ht _].
    apply in_map_iff in Ht. destruct Ht as (n & <- & Hn).
    unfold range in Hn. apply in_map_iff in Hn.
    destruct Hn as (k & <- & _).
    simpl. repeat split. exists k. reflexivity.
Qed.

(** No row of a dose event is after the final time. *)
Lemma event_rows_in_time (final_time : ext) (dose_event : ProtocolEvent)
    (row : dose_row) :
  In row (event_rows final_time dose_event) ->
  le_ext (Time row) final_time = true.
Proof.
  unfold event_rows.
  destruct (gt_ext (start dose_event) final_time) eqn:Hlate; [contradiction|].
  destruct (Qeq_bool (period dose_event) 0).
  - intros [<- | []]. simpl. unfold gt_ext in Hlate.
    apply negb_false_iff. exact Hlate.
  - rewrite in_map_iff. intros (t & <- & Ht).
    apply filter_In in Ht. destruct Ht as [_ Ht]. exact Ht.
Qed.

(** A dose that is given once is registered when it does not start after
    the final time. *)
Lemma event_rows_single (final_time : ext) (dose_event : ProtocolEvent) :
  Qeq_bool (period dose_event) 0 = true ->
  event_rows final_time dose_event
  = if le_ext (start dose_event) final_time then
      [mk_dose_row (start dose_event) (duration dose_event)
         (level dose_event * duration dose_event)%Q]
    else [].
Proof.
  intros Hsingle. unfold event_rows, gt_ext. rewrite Hsingle.
  destruct (le_ext (start dose_event) final_time); reflexivity.
Qed.

Lemma flat_map_event_rows_single (final_time : ext) (regimen : Protocol) :
  Forall (fun ev => Qeq_bool (period ev) 0 = true) regimen ->
  flat_map (event_rows final_time) regimen
  = map (fun ev => mk_dose_row (start ev) (duration ev)
                     (level ev * duration ev)%Q)
        (filter (fun ev => le_ext (start ev) final_time) regimen).
Proof.
  induction 1 as [|ev regimen Hev _ IH]; [reflexivity|].
  cbn [flat_map filter]. rewrite IH, (event_rows_single _ _ Hev).
  destruct (le_ext (start ev) final_time); reflexivity.
Qed.

Section GetDosingRegimen.

Context {MM EM : Type} `{MechanisticModel MM}.
Implicit Types (self : PredictiveModel (MM := MM) (EM := EM)).

Lemma get_dosing_regimen_rows self (final_time : option Q)
    (rows : list dose_row) :
  get_dosing_regimen self final_time = Returned (Some rows) ->
  exists regimen,
    mm_dosing_regimen (_mechanistic_model self) = Returned (Some regimen) /\
    rows <> [] /\
    rows = flat_map (event_rows match final_time with
                                | Some f => Finite f
                                | None => Inf
                                end) regimen.
Proof.
  unfold get_dosing_regimen.
  destruct (mm_dosing_regimen (_mechanistic_model self))
    as [[regimen|]|[]]; try discriminate.
  destruct (negative _); [discriminate|].
  destruct (flat_map _ regimen) as [|row rows'] eqn:Hrows; [discriminate|].
  intros Hreturned. injection Hreturned as <-.
  exists regimen. split; [reflexivity|]. split; [discriminate|].
  symmetry. exact Hrows.
Qed.

(** X8. A table that [get_dosing_regimen] returns is never empty, and
    with a final time none of its rows is after the final time. *)
Theorem dosing_table_within_final_time self (final_time : Q)
    (rows : list dose_row) :
  get_dosing_regimen self (Some final_time) = Returned (Some rows) ->
  rows <> [] /\ Forall (fun row => (Time row <= final_time)%Q) rows.
Proof.
  intros Hreturned.
  destruct (get_dosing_regimen_rows _ _ Hreturned)
    as (regimen & _ & Hne & ->).
  split; [exact Hne|]. apply Forall_forall. intros row Hin.
  apply in_flat_map in Hin. destruct Hin as (ev & _ & Hin).
  apply event_rows_in_time in Hin. apply Qle_bool_iff. exact Hin.
Qed.

(** X9. Every row of a table that [get_dosing_regimen] returns stems from
    a dose event of the regimen: it has the duration of the event, its
    dose is the dose rate times the duration, and its time is the start of
    the event plus a whole number of periods. *)
Theorem dosing_table_rows_stem_from_events self (final_time : option Q)
    (rows : list dose_row) :
  get_dosing_regimen self final_time = Returned (Some rows) ->
  exists regimen,
    mm_dosing_regimen (_mechanistic_model self) = Returned (Some regimen) /\
    Forall (fun row =>
      exists ev (k : nat),
        In ev regimen /\
        Duration row = duration ev /\
        Dose row = (level ev * duration ev)%Q /\
        (Time row == start ev + inject_Z (Z.of_nat k) * period ev)%Q) rows.
Proof.
  intros Hreturned.
  destruct (get_dosing_regimen_rows _ _ Hreturned)
    as (regimen & Hregimen & _ & ->).
  exists regimen. split; [exact Hregimen|].
  apply Forall_forall. intros row Hin.
  apply in_flat_map in Hin. destruct Hin as (ev & Hev & Hin).
  destruct (event_rows_origin _ _ _ Hin) as (Hduration & Hdose & k & Htime).
  exists ev, k. auto.
Qed.

(** X10. For a regimen of doses that are given once each (period 0) and a
    final time that is not negative, or none, the table has one row for
    every dose that does not start after the final time, in the order of
    the regimen, with the start, the duration and the amount of the dose;
    there is no table when no dose is left. *)
Theorem dosing_table_of_single_doses self (regimen : Protocol)
    (final_time : option Q) :
  mm_dosing_regimen (_mechanistic_model self) = Returned (Some regimen) ->
  Forall (fun ev => Qeq_bool (period ev) 0 = true) regimen ->
  (forall f, final_time = Some f -> (0 <= f)%Q) ->
  let registered :=
    filter (fun ev => match final_time with
                      | Some f => Qle_bool (start ev) f
                      | None => true
                      end) regimen in
  get_dosing_regimen self final_time
  = Returned
      match registered with
      | [] => None
      | _ :: _ =>
          Some (map (fun ev => mk_dose_row (start ev) (duration ev)
                                 (level ev * duration ev)%Q) registered)
      end.
Proof.
  intros Hregimen Hsingle Hpos registered.
  unfold get_dosing_regimen. rewrite Hregimen.
  assert (Hnot_neg : negative match final_time with
                              | Some f => Finite f
                              | None => Inf
                              end = false).
  { destruct final_time as [f|]; [|reflexivity]. simpl.
    destruct (Qlt_bool f 0) eqn:Hlt; [|reflexivity].
    apply Qlt_bool_iff in Hlt. exfalso.
    exact (Qlt_not_le _ _ Hlt (Hpos f eq_refl)). }
  rewrite Hnot_neg, (flat_map_event_rows_single _ Hsingle).
  assert (Hfilter : filter (fun ev => le_ext (start ev)
                              match final_time with
                              | Some f => Finite f
                              | None => Inf
                              end) regimen = registered).
  { unfold registered. apply filter_ext. intros ev.
    destruct final_time; reflexivity. }
  rewrite Hfilter. destruct registered; reflexivity.
Qed.

(** X11. Without a final time, a regimen of one periodic dose event with
    a number [n > 0] of doses gives a table of [n] rows, at the start of
    the event and every period after it. *)
Theorem dosing_table_of_finite_periodic_event self
    (dose_event : ProtocolEvent) :
  mm_dosing_regimen (_mechanistic_model self)
  = Returned (Some [dose_event]) ->
  Qeq_bool (period dose_event) 0 = false ->
  (0 < multiplier dose_event)%Z ->
  get_dosing_regimen self None
  = Returned (Some
      (map (fun k =>
              mk_dose_row
                (start dose_event
                 + inject_Z (Z.of_nat k) * period dose_event)%Q
                (duration dose_event)
                (level dose_event * duration dose_event)%Q)
           (seq 0 (Z.to_nat (multiplier dose_event))))).
Proof.
  intros Hregimen Hperiodic Hdoses.
  unfold get_dosing_regimen. rewrite Hregimen. cbn [negative flat_map].
  rewrite app_nil_r. unfold event_rows. cbn [gt_ext le_ext negb].
  rewrite Hperiodic.
  destruct (Z.eqb_spec (multiplier dose_event) 0) as [Hzero|_]; [lia|].
  rewrite forallb_filter_id by (apply forallb_forall; reflexivity).
  unfold range. rewrite !map_map.
  destruct (Z.to_nat (multiplier dose_event)) as [|n] eqn:Hn; [lia|].
  reflexivity.
Qed.

End GetDosingRegimen.

Import Examples.

Lemma dosing_table_within_final_time_example :
  exists rows,
    get_dosing_regimen (predictive pk_model_dosed) (Some 7%Q)
    = Returned (Some rows) /\
    rows <> [] /\ Forall (fun row => (Time row <= 7)%Q) rows.
Proof.
  eexists. split; [vm_compute; reflexivity|].
  apply (@dosing_table_within_final_time toy_model toy_error toy_mechanistic
           (predictive pk_model_dosed) 7%Q).
  vm_compute. reflexivity.
Defined.

Lemma dosing_table_rows_stem_from_events_example :
  exists rows regimen,
    get_dosing_regimen (predictive pk_model_dosed) (Some 7%Q)
    = Returned (Some rows) /\
    mm_dosing_regimen (_mechanistic_model (predictive pk_model_dosed))
    = Returned (Some regimen) /\
    Forall (fun row =>
      exists ev (k : nat),
        In ev regimen /\
        Duration row = duration ev /\
        Dose row = (level ev * duration ev)%Q /\
        (Time row == start ev + inject_Z (Z.of_nat k) * period ev)%Q) rows.
Proof.
  eexists.
  destruct (@dosing_table_rows_stem_from_events toy_model toy_error
              toy_mechanistic (predictive pk_model_dosed) (Some 7%Q) _
              eq_refl) as (regimen & Hregimen & Hrows).
  exists regimen. split; [reflexivity|]. split; assumption.
Defined.

Lemma dosing_table_of_single_doses_example :
  get_dosing_regimen
    (predictive (mk_toy true
       (Some [toy_schedule 1 0 (1 # 100) None None;
              toy_schedule 2 9 (1 # 100) None None;
              toy_schedule 3 5 (1 # 100) None None]) []))
    (Some 7%Q)
  = Returned (Some
      [mk_dose_row 0 (1 # 100) (1 / (1 # 100) * (1 # 100));
       mk_dose_row 5 (1 # 100) (3 / (1 # 100) * (1 # 100))]).
Proof.
  apply (@dosing_table_of_single_doses toy_model toy_error toy_mechanistic
           (predictive (mk_toy true
              (Some [toy_schedule 1 0 (1 # 100) None None;
                     toy_schedule 2 9 (1 # 100) None None;
                     toy_schedule 3 5 (1 # 100) None None]) []))
           [toy_schedule 1 0 (1 # 100) None None;
            toy_schedule 2 9 (1 # 100) None None;
            toy_schedule 3 5 (1 # 100) None None]
           (Some 7%Q)).
  - reflexivity.
  - repeat constructor.
  - intros f Hf. injection Hf as <-. discriminate.
Defined.

Lemma dosing_table_of_finite_periodic_event_example :
  get_dosing_regimen
    (predictive (mk_toy true
       (Some [toy_schedule 1 4 (1 # 100) (Some 2%Q) (Some 3%Z)]) []))
    None
  = Returned (Some
      (map (fun k =>
              mk_dose_row (4 + inject_Z (Z.of_nat k) * 2)%Q (1 # 100)
                (1 / (1 # 100) * (1 # 100))%Q)
           [0; 1; 2])).
Proof.
  apply (@dosing_table_of_finite_periodic_event toy_model toy_error
           toy_mechanistic
           (predictive (mk_toy true
              (Some [toy_schedule 1 4 (1 # 100) (Some 2%Q) (Some 3%Z)]) []))
           (toy_schedule 1 4 (1 # 100) (Some 2%Q) (Some 3%Z))).
  - reflexivity.
  - reflexivity.
  - reflexivity.
Defined.

End DosingMore.

(** ** More on sampling: invalid input, uninitialised memory, the layout
    of the table *)

Module SamplingMore.

Import PredictiveModels SamplingFacts DataDriven.

Lemma firstn_set_nth {A : Type} (l : list A) :
  forall i x, i < length l -> firstn (S i) (set_nth l i x) = firstn i l ++ [x].
Proof.
  induction l as [|y l IH]; intros i x Hi; [simpl in Hi; lia|].
  destruct i as [|i]; [reflexivity|].
  simpl in Hi. cbn [set_nth]. rewrite !firstn_cons, IH by lia. reflexivity.
Qed.

Lemma length_set_nth {A : Type} (l : list A) :
  forall i x, length (set_nth l i x) = length l.
Proof.
  induction l as [|y l IH]; intros i x; [reflexivity|].
  destruct i; simpl; [|rewrite IH]; reflexivity.
Qed.

Section Sampling.

Variable world : Type.
Variable random_seed : Z -> world -> world.

Context {MM EM LP : Type}.
Context `{MechanisticModel MM} `{ErrorModel world EM} `{LogPrior world LP}.

Implicit Types (self : PredictiveModel (MM := MM) (EM := EM))
  (garbage : world -> nat -> Q).

Ltac run_binds :=
  repeat (progress (rewrite ?trace_bind, ?value_bind, ?oracle_run;
                    cbn [log raise ret lift get_world value trace
                         world_after app])).

(** When every row of the array is written by an error model, what the
    array held before does not matter. *)
Lemma sample_errors_overwrites (error_models : list EM) :
  forall output_id start_index error_params outputs n_samples seed
         (c1 c2 : list (list (list Q))) w,
    length c1 = length c2 ->
    output_id + length error_models = length c1 ->
    firstn output_id c1 = firstn output_id c2 ->
    sample_errors error_models output_id start_index error_params outputs
      n_samples seed c1 w
    = sample_errors error_models output_id start_index error_params outputs
        n_samples seed c2 w.
Proof.
  induction error_models as [|error_model error_models IH];
    intros output_id start_index error_params outputs n_samples seed c1 c2 w
           Hlen Hall Hfirst.
  - simpl in Hall. rewrite Nat.add_0_r in Hall. subst output_id.
    rewrite firstn_all in Hfirst. rewrite Hlen, firstn_all in Hfirst.
    subst c2. reflexivity.
  - cbn [sample_errors]. simpl in Hall.
    destruct (nth_error outputs output_id) as [model_output|]; [|reflexivity].
    unfold bind. cbn [log value world_after trace].
    rewrite oracle_run. cbn [value world_after trace].
    match goal with
    | |- context [sample_errors _ _ ?s _ _ _ _ (set_nth c1 output_id ?d) ?w']
      => rewrite (IH (S output_id) s error_params outputs n_samples seed
                    (set_nth c1 output_id d) (set_nth c2 output_id d) w')
    end.
    + reflexivity.
    + rewrite !length_set_nth. exact Hlen.
    + rewrite length_set_nth. lia.
    + rewrite !firstn_set_nth by lia. rewrite Hfirst. reflexivity.
Qed.

(** X12. With parameters of the wrong length, [sample] raises a
    [ValueError] at once: the mechanistic model is not solved, no error
    model is called and no random number is drawn. *)
Theorem sample_wrong_length garbage self parameters times n_samples seed
    return_df w :
  length parameters <> _n_parameters self ->
  let r := sample garbage self parameters times n_samples seed return_df w in
  is_ValueError (value r) /\
  simulate_calls (trace r) = [] /\
  error_sample_calls (trace r) = [] /\
  world_after r = w.
Proof.
  intros Hlen r. subst r. unfold sample, bind.
  cbn [log value world_after trace].
  destruct (Nat.eqb_spec (length parameters) (_n_parameters self));
    [contradiction|].
  cbn [negb raise value world_after trace].
  split; [eexists; reflexivity|]. repeat split.
Qed.

(** X13. With a negative number of samples, [sample] raises a
    [ValueError], and not before it has solved the mechanistic model: the
    one call of [simulate] is made, the error models are not called. *)
Theorem sample_negative_n_samples garbage self parameters times
    (n_samples : Z) seed return_df w :
  length parameters = _n_parameters self ->
  (n_samples < 0)%Z ->
  let r := sample garbage self parameters times (Some n_samples) seed
             return_df w in
  is_ValueError (value r) /\
  simulate_calls (trace r)
  = [(firstn (mm_n_parameters (_mechanistic_model self)) parameters,
      sort times)] /\
  error_sample_calls (trace r) = [] /\
  world_after r = w.
Proof.
  intros Hlen Hneg r. subst r. unfold sample, bind.
  cbn [log value world_after trace].
  rewrite (proj2 (Nat.eqb_eq _ _) Hlen).
  cbn [negb log value world_after trace].
  rewrite (proj2 (Z.ltb_lt _ _) Hneg).
  cbn [raise value world_after trace].
  split; [eexists; reflexivity|]. repeat split.
Qed.

(** X14. When the mechanistic model returns as many rows as there are
    error models, nothing of the uninitialised array that [sample]
    allocates is left in what it returns: the value, the calls and the
    random state after the call are the same whatever the memory held. *)
Theorem sample_leaves_no_garbage garbage garbage' self parameters times
    n_samples seed return_df w :
  length (mm_simulate (_mechanistic_model self)
            (firstn (mm_n_parameters (_mechanistic_model self)) parameters)
            (sort times))
  = length (_error_models self) ->
  sample garbage self parameters times n_samples seed return_df w
  = sample garbage' self parameters times n_samples seed return_df w.
Proof.
  intros Houtputs. unfold sample, bind.
  cbn [log value world_after trace].
  destruct (negb (length parameters =? _n_parameters self)); [reflexivity|].
  cbn [log value world_after trace].
  destruct (Z.ltb _ 0); [reflexivity|].
  cbn [get_world value world_after trace].
  match goal with
  | |- context [sample_errors ?ems 0 0 ?ep ?outs ?n seed
                  (empty3 garbage w ?a ?b ?c) w] =>
      rewrite (sample_errors_overwrites ems 0 0 ep outs n seed
                 (empty3 garbage w a b c) (empty3 garbage' w a b c) w)
  end.
  - reflexivity.
  - unfold empty3. rewrite !length_map. reflexivity.
  - unfold empty3. rewrite length_map, length_seq. simpl. congruence.
  - reflexivity.
Qed.

(** *** The layout of the table *)

(** A loop over [enumerate(l)] none of whose steps raises. *)
Lemma collect_enumerate {A B C : Type} (f : nat * A -> outcome (list C))
    (g : A * B -> list C) (l : list A) :
  forall (c : list B) (k : nat),
    length l = length c ->
    (forall i a b,
        nth_error l i = Some a -> nth_error c i = Some b ->
        f (k + i, a) = Returned (g (a, b))) ->
    collect f (combine (seq k (length l)) l)
    = Returned (flat_map g (combine l c)).
Proof.
  induction l as [|a l IH]; intros c k Hlen Hstep; [reflexivity|].
  destruct c as [|b c]; [discriminate|]. injection Hlen as Hlen.
  cbn [length seq combine collect flat_map].
  rewrite <- (Nat.add_0_r k) at 1. rewrite (Hstep 0 a b eq_refl eq_refl).
  rewrite (IH c (S k) Hlen); [reflexivity|].
  intros i a' b' Ha Hb. replace (S k + i) with (k + S i) by lia.
  apply Hstep; assumption.
Qed.

Import LongFormat.

Lemma frame_at_shaped (c : list (list (list Q))) (ids : list Z)
    (output_id : nat) (name : string)
    (output : list (list Q)) (times : list Q) :
  nth_error c output_id = Some output ->
  shaped (length times) (length ids) output ->
  collect (fun '(time_id, time) =>
             frame_at c ids output_id name time_id time)
          (enumerate times)
  = Returned
      (flat_map (fun '(time, cells) =>
         map (fun '(id, cell) => mk_sample_row id name time cell)
             (combine ids cells))
         (combine times output)).
Proof.
  intros Houtput [Hlen Hcells]. unfold enumerate.
  apply (collect_enumerate
           (fun '(time_id, time) => frame_at c ids output_id name time_id time)
           (fun '(time, cells) =>
              map (fun '(id, cell) => mk_sample_row id name time cell)
                  (combine ids cells))
           times output 0).
  - symmetry. exact Hlen.
  - intros i time cells _ Hcell. cbn [Nat.add]. unfold frame_at.
    rewrite Houtput, Hcell.
    rewrite Forall_forall in Hcells.
    rewrite (Hcells cells (nth_error_In _ _ Hcell)), Nat.eqb_refl.
    reflexivity.
Qed.

Lemma frame_shaped (c : list (list (list Q))) (ids : list Z)
    (names : list string) (times : list Q) :
  length names = length c ->
  Forall (shaped (length times) (length ids)) c ->
  collect (fun '(output_id, name) =>
             collect (fun '(time_id, time) =>
                        frame_at c ids output_id name time_id time)
                     (enumerate times))
          (enumerate names)
  = Returned (long_format names times ids c).
Proof.
  intros Hlen Hshaped. unfold enumerate, long_format.
  apply (collect_enumerate
           (fun '(output_id, name) =>
              collect (fun '(time_id, time) =>
                         frame_at c ids output_id name time_id time)
                      (combine (seq 0 (length times)) times))
           (fun '(name, output) =>
              flat_map (fun '(time, cells) =>
                map (fun '(id, cell) => mk_sample_row id name time cell)
                    (combine ids cells))
                (combine times output))
           names c 0 Hlen).
  intros i name output _ Houtput. cbn [Nat.add].
  eapply frame_at_shaped; [exact Houtput|].
  rewrite Forall_forall in Hshaped.
  apply Hshaped. eapply nth_error_In. exact Houtput.
Qed.

Lemma map_key_combine (name : string) (time : Q) (ids : list Z) :
  forall cells : list Q,
    length cells = length ids ->
    map row_key
      (map (fun '(id, cell) => mk_sample_row id name time cell)
           (combine ids cells))
    = map (fun id => (name, time, id)) ids.
Proof.
  induction ids as [|id ids IH]; intros cells Hlen; [reflexivity|].
  destruct cells as [|cell cells]; [discriminate|].
  injection Hlen as Hlen. cbn [combine map]. rewrite IH by exact Hlen.
  reflexivity.
Qed.

Lemma long_format_keys (names : list string) (times : list Q) (ids : list Z) :
  forall c : list (list (list Q)),
    length names = length c ->
    Forall (shaped (length times) (length ids)) c ->
    map row_key (long_format names times ids c) = long_keys names times ids.
Proof.
  unfold long_format, long_keys.
  induction names as [|name names IH]; intros c Hlen Hshaped; [reflexivity|].
  destruct c as [|output c]; [discriminate|]. injection Hlen as Hlen.
  inversion Hshaped as [|? ? [Houtput Hcells] Hshaped']; subst.
  cbn [combine flat_map]. rewrite map_app, IH by assumption. f_equal.
  clear IH Hshaped Hshaped' Hlen.
  revert output Houtput Hcells.
  induction times as [|time times IHt]; intros output Houtput Hcells;
    [reflexivity|].
  destruct output as [|cells output]; [discriminate|].
  injection Houtput as Houtput.
  inversion Hcells as [|? ? Hcell Hcells']; subst.
  cbn [combine flat_map]. rewrite map_app, map_key_combine by exact Hcell.
  f_equal. apply IHt; assumption.
Qed.

Lemma length_long_keys (names : list string) (times : list Q) (ids : list Z) :
  length (long_keys names times ids)
  = length names * (length times * length ids).
Proof.
  unfold long_keys.
  assert (Hinner : forall name : string,
             length (flat_map (fun time : Q =>
                       map (fun id : Z => (name, time, id)) ids) times)
             = length times * length ids).
  { intros name. induction times as [|time times IHt]; [reflexivity|].
    cbn [flat_map length]. rewrite length_app, length_map, IHt.
    reflexivity. }
  induction names as [|name names IH]; [reflexivity|].
  cbn [flat_map length]. rewrite length_app, IH, Hinner. reflexivity.
Qed.

(** When the error models return arrays of the shape
    [(n_times, n_samples)], the loop over the error models leaves an
    array of that shape for every output. *)
Lemma sample_errors_shaped (n_times : nat) (error_models : list EM) :
  forall output_id start_index error_params outputs n_samples seed
         container w,
    (forall (e : EM) ps mo n sd w',
        shaped (length mo) (Z.to_nat n) (fst (em_sample e ps mo n sd w'))) ->
    Forall (fun row => length row = n_times) outputs ->
    output_id + length error_models <= length outputs ->
    output_id + length error_models <= length container ->
    Forall (shaped n_times (Z.to_nat n_samples))
      (firstn output_id container) ->
    exists c,
      value (sample_errors error_models output_id start_index error_params
               outputs n_samples seed container w) = Returned c /\
      length c = length container /\
      Forall (shaped n_times (Z.to_nat n_samples))
        (firstn (output_id + length error_models) c).
Proof.
  induction error_models as [|error_model error_models IH];
    intros output_id start_index error_params outputs n_samples seed
           container w Hem Houtputs Hlen Hcontainer Hfirst.
  - exists container. cbn [sample_errors ret value length].
    rewrite Nat.add_0_r. auto.
  - cbn [sample_errors]. cbn [length] in Hlen, Hcontainer.
    destruct (nth_error outputs output_id) as [model_output|] eqn:Houtput.
    + run_binds.
      match goal with
      | |- context [sample_errors _ _ ?s _ _ _ _ (set_nth container _ ?d) ?w']
        => destruct (IH (S output_id) s error_params outputs n_samples seed
                       (set_nth container output_id d) w')
             as (c & Hvalue & Hc & Hshaped)
      end; auto.
      * lia.
      * rewrite length_set_nth. lia.
      * rewrite firstn_set_nth by lia. apply Forall_app. split; [exact Hfirst|].
        constructor; [|constructor].
        rewrite Forall_forall in Houtputs.
        rewrite <- (Houtputs model_output (nth_error_In _ _ Houtput)).
        apply Hem.
      * exists c. split; [exact Hvalue|].
        rewrite length_set_nth in Hc. split; [exact Hc|].
        cbn [length]. rewrite Nat.add_succ_r. exact Hshaped.
    + apply nth_error_None in Houtput. lia.
Qed.

(** What [sample] returns when its collaborators keep to their
    interfaces: the mechanistic model returns one row per error model and
    one entry per time, there is one output name per error model, and the
    error models return arrays of the shape [(n_times, n_samples)]. *)
Lemma sample_values garbage self parameters times n_samples seed w :
  let n := match n_samples with Some n => n | None => 1%Z end in
  let outputs :=
    mm_simulate (_mechanistic_model self)
      (firstn (mm_n_parameters (_mechanistic_model self)) parameters)
      (sort times) in
  length parameters = _n_parameters self ->
  (0 <= n)%Z ->
  length outputs = length (_error_models self) ->
  Forall (fun row => length row = length times) outputs ->
  length (mm_outputs (_mechanistic_model self))
  = length (_error_models self) ->
  (forall (e : EM) ps mo m sd w',
      shaped (length mo) (Z.to_nat m) (fst (em_sample e ps mo m sd w'))) ->
  exists c,
    length c = length (_error_models self) /\
    Forall (shaped (length times) (Z.to_nat n)) c /\
    forall return_df,
      value (sample garbage self parameters times n_samples seed return_df w)
      = Returned
          (if return_df then
             Frame (long_format (mm_outputs (_mechanistic_model self))
                      (sort times) (sample_ids n) c)
           else Container c).
Proof.
  intros n outputs Hlen Hn Houtputs Hrows Hnames Hem.
  destruct (@sample_errors_shaped (length times) (_error_models self) 0 0
              (skipn (mm_n_parameters (_mechanistic_model self)) parameters)
              outputs n seed
              (empty3 garbage w (length outputs) (length (sort times))
                 (Z.to_nat n))
              w Hem Hrows)
    as (c & Hvalue & Hc & Hshaped).
  { simpl. lia. }
  { unfold empty3. rewrite length_map, length_seq. simpl. lia. }
  { constructor. }
  assert (Hc' : length c = length (_error_models self)).
  { rewrite Hc. unfold empty3. rewrite length_map, length_seq. exact Houtputs. }
  simpl Nat.add in Hshaped. rewrite <- Hc', firstn_all in Hshaped.
  exists c. split; [exact Hc'|]. split; [exact Hshaped|].
  intros return_df. unfold sample. run_binds.
  rewrite (proj2 (Nat.eqb_eq _ _) Hlen). cbn [negb]. run_binds.
  fold n. rewrite (proj2 (Z.ltb_ge _ _) Hn). run_binds.
  fold outputs. rewrite Hvalue.
  destruct return_df; cbn [negb]; run_binds; [|reflexivity].
  rewrite frame_shaped; [reflexivity|congruence|].
  rewrite length_sort, length_sample_ids. exact Hshaped.
Qed.

(** X15. When the collaborators keep to their interfaces, the table that
    [sample] returns is the array it returns with [return_df=False],
    entry by entry: one row for every output, time (sorted) and sample
    id, in the order of the array, and the array has one entry of the
    shape [(n_times, n_samples)] for every error model. *)
Theorem sample_table_is_array_in_long_format garbage self parameters times
    n_samples seed w :
  let n := match n_samples with Some n => n | None => 1%Z end in
  let outputs :=
    mm_simulate (_mechanistic_model self)
      (firstn (mm_n_parameters (_mechanistic_model self)) parameters)
      (sort times) in
  length parameters = _n_parameters self ->
  (0 <= n)%Z ->
  length outputs = length (_error_models self) ->
  Forall (fun row => length row = length times) outputs ->
  length (mm_outputs (_mechanistic_model self))
  = length (_error_models self) ->
  (forall (e : EM) ps mo m sd w',
      shaped (length mo) (Z.to_nat m) (fst (em_sample e ps mo m sd w'))) ->
  exists c,
    value (sample garbage self parameters times n_samples seed false w)
    = Returned (Container c) /\
    value (sample garbage self parameters times n_samples seed true w)
    = Returned (Frame (long_format (mm_outputs (_mechanistic_model self))
                         (sort times) (sample_ids n) c)) /\
    length c = length (_error_models self) /\
    Forall (shaped (length times) (Z.to_nat n)) c.
Proof.
  intros n outputs Hlen Hn Houtputs Hrows Hnames Hem.
  destruct (sample_values garbage self parameters times n_samples seed w
              Hlen Hn Houtputs Hrows Hnames Hem)
    as (c & Hc & Hshaped & Hvalue).
  exists c. split; [apply (Hvalue false)|]. split; [apply (Hvalue true)|].
  split; assumption.
Qed.

(** X16. When the collaborators keep to their interfaces, the table that
    [sample] returns has exactly one row for every output name, every
    time and every sample id [1, ..., n_samples]: the output names in
    their order, for each of them the times in ascending order, for each
    time the sample ids in ascending order. *)
Theorem sample_table_layout garbage self parameters times n_samples seed w :
  let n := match n_samples with Some n => n | None => 1%Z end in
  let outputs :=
    mm_simulate (_mechanistic_model self)
      (firstn (mm_n_parameters (_mechanistic_model self)) parameters)
      (sort times) in
  length parameters = _n_parameters self ->
  (0 <= n)%Z ->
  length outputs = length (_error_models self) ->
  Forall (fun row => length row = length times) outputs ->
  length (mm_outputs (_mechanistic_model self))
  = length (_error_models self) ->
  (forall (e : EM) ps mo m sd w',
      shaped (length mo) (Z.to_nat m) (fst (em_sample e ps mo m sd w'))) ->
  exists rows,
    value (sample garbage self parameters times n_samples seed true w)
    = Returned (Frame rows) /\
    map row_key rows
    = long_keys (mm_outputs (_mechanistic_model self)) (sort times)
        (sample_ids n) /\
    length rows
    = length (_error_models self) * (length times * Z.to_nat n).
Proof.
  intros n outputs Hlen Hn Houtputs Hrows Hnames Hem.
  destruct (sample_values garbage self parameters times n_samples seed w
              Hlen Hn Houtputs Hrows Hnames Hem)
    as (c & Hc & Hshaped & Hvalue).
  assert (Hkeys : map row_key
                    (long_format (mm_outputs (_mechanistic_model self))
                       (sort times) (sample_ids n) c)
                  = long_keys (mm_outputs (_mechanistic_model self))
                      (sort times) (sample_ids n)).
  { apply long_format_keys; [congruence|].
    rewrite length_sort, length_sample_ids. exact Hshaped. }
  exists (long_format (mm_outputs (_mechanistic_model self)) (sort times)
            (sample_ids n) c).
  split; [apply (Hvalue true)|]. split; [exact Hkeys|].
  rewrite <- (length_map row_key
                (long_format (mm_outputs (_mechanistic_model self))
                   (sort times) (sample_ids n) c)).
  rewrite Hkeys, length_long_keys.
  rewrite Hnames, length_sort, length_sample_ids. reflexivity.
Qed.

(** *** [PriorPredictiveModel.sample]: seeds and solves *)

Implicit Types (prior : PriorPredictiveModel (MM := MM) (EM := EM) (LP := LP)).

Lemma random_seed_calls_app (tr tr' : list event) :
  random_seed_calls (tr ++ tr')
  = random_seed_calls tr ++ random_seed_calls tr'.
Proof. apply flat_map_app. Qed.

Lemma sample_errors_no_seed (error_models : list EM) :
  forall output_id start_index error_params outputs n_samples seed
         container w,
    random_seed_calls
      (trace (sample_errors error_models output_id start_index error_params
                outputs n_samples seed container w)) = [].
Proof.
  induction error_models as [|error_model error_models IH];
    intros output_id start_index error_params outputs n_samples seed
           container w; [reflexivity|].
  cbn [sample_errors].
  destruct (nth_error outputs output_id) as [model_output|]; [|reflexivity].
  run_binds.
  change (random_seed_calls (ev_error_sample ?o ?ps ?mo ?n ?sd :: ?tr))
    with (random_seed_calls tr).
  apply IH.
Qed.

Lemma sample_no_seed garbage self parameters times n_samples seed
    return_df w :
  random_seed_calls
    (trace (sample garbage self parameters times n_samples seed return_df w))
  = [].
Proof.
  unfold sample. run_binds.
  destruct (negb (length parameters =? _n_parameters self)); run_binds;
    [reflexivity|].
  destruct (Z.ltb _ 0); run_binds; [reflexivity|].
  match goal with
  | |- context [sample_errors ?ems ?o ?s ?ep ?outs ?n ?sd ?c ?w0] =>
      pose proof (sample_errors_no_seed ems o s ep outs n sd c w0) as Hnone;
      destruct (value (sample_errors ems o s ep outs n sd c w0))
  end.
  - destruct return_df; cbn [negb]; run_binds;
      [destruct (collect _ _); run_binds|];
      rewrite ?app_nil_r;
      change (random_seed_calls (?a :: ev_simulate ?p ?t :: ?tr))
        with (random_seed_calls tr);
      exact Hnone.
  - rewrite ?app_nil_r.
    change (random_seed_calls (?a :: ev_simulate ?p ?t :: ?tr))
      with (random_seed_calls tr).
    exact Hnone.
Qed.

Lemma draw_samples_no_seed garbage prior (ids : list Z) :
  forall times n_samples seed base_seed outputs container w,
    random_seed_calls
      (trace (draw_samples garbage prior ids times n_samples seed base_seed
                outputs container w)) = [].
Proof.
  induction ids as [|sample_id ids IH];
    intros times n_samples seed base_seed outputs container w;
    [reflexivity|].
  cbn [draw_samples]. run_binds.
  change (random_seed_calls (ev_prior_sample ?p :: ?tr))
    with (random_seed_calls tr).
  rewrite random_seed_calls_app, sample_no_seed. cbn [app].
  destruct (value (sample _ _ _ _ _ _ _ _)); [|reflexivity].
  run_binds.
  destruct (draw_frame _ _ _ _); [|reflexivity].
  cbn [app]. apply IH.
Qed.

(** X17. When a seed is given, the first call that
    [PriorPredictiveModel.sample] makes is [np.random.seed] with that
    seed, and it seeds [np.random] at no later point, whether it returns
    or raises; for a seed that [np.random.seed] does not take this call is
    the only one, and its [ValueError] is raised. When no seed is given,
    [np.random] is never seeded. *)
Theorem prior_predictive_sample_seeds_once garbage prior times n_samples
    seed w :
  let r := prior_predictive_sample random_seed garbage prior times n_samples
             seed w in
  match seed with
  | Some s =>
      exists rest,
        trace r = ev_random_seed s :: rest /\
        random_seed_calls rest = [] /\
        (valid_seed s = false ->
         rest = [] /\ is_ValueError (value r) /\ world_after r = w)
  | None => random_seed_calls (trace r) = []
  end.
Proof.
  intros r. subst r. unfold prior_predictive_sample.
  destruct seed as [s|]; run_binds; [|apply draw_samples_no_seed].
  destruct (valid_seed s); run_binds.
  - eexists. split; [reflexivity|].
    split; [apply draw_samples_no_seed|discriminate].
  - exists []. split; [reflexivity|]. split; [reflexivity|].
    intros _. split; [reflexivity|]. split; [eexists|]; reflexivity.
Qed.

Lemma sample_returns_length garbage self parameters times n_samples seed
    return_df w result :
  value (sample garbage self parameters times n_samples seed return_df w)
  = Returned result ->
  length parameters = _n_parameters self.
Proof.
  unfold sample. run_binds.
  destruct (Nat.eqb_spec (length parameters) (_n_parameters self));
    [auto|]. cbn [negb]. run_binds. discriminate.
Qed.

Lemma sort_of_sorted (ts : list Q) : Sorted Qle ts -> sort ts = ts.
Proof.
  induction 1 as [|t ts Hsorted IH Hhd]; [reflexivity|].
  cbn [sort]. rewrite IH.
  destruct Hhd as [|u ts' Htu]; [reflexivity|].
  cbn [insert_sorted]. rewrite (proj2 (Qle_bool_iff t u) Htu). reflexivity.
Qed.

Lemma draw_samples_solves garbage prior (ids : list Z) :
  forall times n_samples seed base_seed outputs container w frame,
    value (draw_samples garbage prior ids times n_samples seed base_seed
             outputs container w) = Returned frame ->
    exists draws,
      length draws = length ids /\
      Forall (fun p => length p = _n_parameters (_predictive_model prior))
        draws /\
      draws_and_samples
        (trace (draw_samples garbage prior ids times n_samples seed base_seed
                  outputs container w))
      = flat_map (draw_and_sample times n_samples seed base_seed)
          (combine ids draws) /\
      simulate_calls
        (trace (draw_samples garbage prior ids times n_samples seed base_seed
                  outputs container w))
      = map (fun p =>
               (firstn (mm_n_parameters
                          (_mechanistic_model (_predictive_model prior))) p,
                sort times))
            draws.
Proof.
  induction ids as [|sample_id ids IH];
    intros times n_samples seed base_seed outputs container w frame Hvalue.
  - exists []. repeat split. constructor.
  - cbn [draw_samples] in Hvalue |- *.
    revert Hvalue. run_binds.
    set (parameters := fst (lp_sample (_log_prior prior) w)).
    set (w1 := snd (lp_sample (_log_prior prior) w)).
    set (seed' := match seed, base_seed with
                  | Some _, Some b => Some (b + sample_id)%Z
                  | _, _ => seed
                  end).
    pose proof (sample_is_one_call garbage (_predictive_model prior)
                  parameters times (Some n_samples) seed' false w1) as Hcall.
    pose proof (@sample_returns_length garbage (_predictive_model prior)
                  parameters times (Some n_samples) seed' false w1) as Hlen.
    pose proof (@sample_simulates_once world garbage MM EM _ _
                  (_predictive_model prior) parameters times
                  (Some n_samples) seed' false w1) as Hsim.
    destruct (value (sample garbage (_predictive_model prior) parameters
                       times (Some n_samples) seed' false w1))
      as [drawn|e]; [|discriminate].
    specialize (Hlen drawn eq_refl). specialize (Hsim Hlen).
    run_binds.
    destruct (draw_frame sample_id outputs times drawn) as [rows|e];
      [|discriminate].
    intros Hvalue.
    destruct (IH _ _ _ _ _ _ _ _ Hvalue)
      as (draws & Hdraws & Hlens & Htrace & Hsolves).
    exists (parameters :: draws).
    split; [simpl; congruence|].
    split; [constructor; assumption|].
    change (draws_and_samples (ev_prior_sample ?p :: ?tr))
      with (ev_prior_sample p :: draws_and_samples tr).
    change (simulate_calls (ev_prior_sample ?p :: ?tr))
      with (simulate_calls tr).
    rewrite !draws_and_samples_app, !simulate_calls_app.
    rewrite Hcall, Htrace, Hsim, Hsolves. split.
    + cbn [combine flat_map draw_and_sample app draws_and_samples filter].
      fold seed'. do 2 f_equal.
      apply flat_map_ext. intros [id p]. unfold draw_and_sample, seed'.
      destruct seed, base_seed; reflexivity.
    + reflexivity.
Qed.

(** The vectors drawn are those of the draws in a trace of draws and
    calls of [PredictiveModel.sample]. *)
Lemma prior_draws_of_draws_and_samples (tr : list event) :
  prior_draws (draws_and_samples tr) = prior_draws tr.
Proof.
  unfold prior_draws, draws_and_samples.
  induction tr as [|ev tr IH]; [reflexivity|].
  destruct ev; simpl; congruence.
Qed.

Lemma prior_draws_of_loop (ids : list Z) :
  forall (draws : list (list Q)) times n_samples seed base_seed,
    length draws = length ids ->
    prior_draws (flat_map (draw_and_sample times n_samples seed base_seed)
                   (combine ids draws))
    = draws.
Proof.
  induction ids as [|sample_id ids IH];
    intros [|p draws] times n_samples seed base_seed Hlen;
    try discriminate; [reflexivity|].
  cbn [combine flat_map draw_and_sample app prior_draws].
  f_equal. apply IH. simpl in Hlen. congruence.
Qed.

(** X18. When [PriorPredictiveModel.sample] returns, it has drawn one
    vector from the log-prior for every sample, each of the length of the
    predictive model's parameters, and the mechanistic model was solved
    exactly once for each of the vectors drawn, in the order in which they
    were drawn, with the first [n_parameters()] entries of the vector and
    the sorted times. *)
Theorem prior_predictive_sample_solves_once_per_draw garbage prior times
    n_samples seed w frame :
  let n := match n_samples with Some n => n | None => 1%Z end in
  let r := prior_predictive_sample random_seed garbage prior times n_samples
             seed w in
  value r = Returned frame ->
  length (prior_draws (trace r)) = Z.to_nat n /\
  Forall (fun p => length p = _n_parameters (_predictive_model prior))
    (prior_draws (trace r)) /\
  simulate_calls (trace r)
  = map (fun p =>
           (firstn (mm_n_parameters
                      (_mechanistic_model (_predictive_model prior))) p,
            sort times))
        (prior_draws (trace r)).
Proof.
  intros n r. subst r. unfold prior_predictive_sample. fold n.
  assert (Hloop : forall (tr : list event) (draws : list (list Q)) ts sd bs,
             length draws = length (sample_ids n) ->
             draws_and_samples tr
             = flat_map (draw_and_sample ts n sd bs)
                 (combine (sample_ids n) draws) ->
             prior_draws tr = draws).
  { intros tr draws ts sd bs Hlen Htrace.
    rewrite <- prior_draws_of_draws_and_samples, Htrace.
    apply prior_draws_of_loop. exact Hlen. }
  destruct seed as [s|]; run_binds;
    [destruct (valid_seed s); run_binds; [|discriminate]|];
    intros Hvalue;
    destruct (draw_samples_solves _ _ _ _ _ _ _ _ _ _ Hvalue)
      as (draws & Hdraws & Hlens & Htrace & Hsolves).
  - change (simulate_calls (ev_random_seed s :: ?tr))
      with (simulate_calls tr).
    change (prior_draws (ev_random_seed s :: ?tr)) with (prior_draws tr).
    rewrite (Hloop _ draws _ _ _ Hdraws Htrace).
    split; [rewrite Hdraws; apply length_sample_ids|].
    split; [exact Hlens|].
    rewrite Hsolves, (sort_of_sorted (sort_sorted times)). reflexivity.
  - rewrite (Hloop _ draws _ _ _ Hdraws Htrace).
    split; [rewrite Hdraws; apply length_sample_ids|].
    split; [exact Hlens|].
    rewrite Hsolves, (sort_of_sorted (sort_sorted times)). reflexivity.
Qed.

(** X19. Without a seed, when [PriorPredictiveModel.sample] returns,
    every call of [PredictiveModel.sample] it has made was without a
    seed too. *)
Theorem prior_predictive_sample_without_seed garbage prior times n_samples
    w frame :
  let n := match n_samples with Some n => n | None => 1%Z end in
  let r := prior_predictive_sample random_seed garbage prior times n_samples
             None w in
  value r = Returned frame ->
  exists draws,
    length draws = Z.to_nat n /\
    draws_and_samples (trace r)
    = flat_map (fun '(sample_id, parameters) =>
        [ev_prior_sample parameters;
         ev_predictive_sample parameters (sort times) (Some n) None false])
        (combine (sample_ids n) draws).
Proof.
  intros n r. subst r. unfold prior_predictive_sample. fold n.
  run_binds. intros Hvalue.
  destruct (draw_samples_solves _ _ _ _ _ _ _ _ _ _ Hvalue)
    as (draws & Hdraws & _ & Htrace & _).
  exists draws. split; [rewrite Hdraws; apply length_sample_ids|].
  rewrite Htrace. apply flat_map_ext. intros [id p]. reflexivity.
Qed.

(** X20. Asked for no sample, or for a negative number of samples,
    without a seed or with a seed that [np.random.seed] takes,
    [PriorPredictiveModel.sample] returns the empty table: it draws
    nothing from the log-prior and does not call the predictive model. *)
Theorem prior_predictive_sample_of_no_samples garbage prior times
    (n_samples : Z) seed w :
  (n_samples <= 0)%Z ->
  match seed with
  | Some s => valid_seed s = true
  | None => True
  end ->
  let r := prior_predictive_sample random_seed garbage prior times
             (Some n_samples) seed w in
  value r = Returned [] /\
  draws_and_samples (trace r) = [] /\
  simulate_calls (trace r) = [].
Proof.
  intros Hnone Hseed r. subst r. unfold prior_predictive_sample, sample_ids.
  replace (Z.to_nat n_samples) with 0 by lia.
  destruct seed; rewrite ?Hseed; run_binds; repeat split.
Qed.

End Sampling.

Import Examples LongFormat.

Lemma toy_error_shaped (e : toy_error) ps mo m sd (w' : counter) :
  shaped (length mo) (Z.to_nat m) (fst (em_sample e ps mo m sd w')).
Proof.
  split; simpl.
  - apply length_map.
  - apply Forall_forall. intros cells Hin. apply in_map_iff in Hin.
    destruct Hin as (y & <- & _). rewrite length_map, length_seq.
    reflexivity.
Qed.

Lemma sample_wrong_length_example :
  let r := sample toy_garbage (predictive pk_model) [1; 2]%Q [1; 1; 0]%Q
             (Some 2%Z) (Some 5%Z) true 0 in
  is_ValueError (value r) /\
  simulate_calls (trace r) = [] /\
  error_sample_calls (trace r) = [] /\
  world_after r = 0.
Proof.
  apply (@sample_wrong_length counter toy_model toy_error toy_mechanistic
           toy_error_model toy_garbage (predictive pk_model) [1; 2]%Q
           [1; 1; 0]%Q (Some 2%Z) (Some 5%Z) true 0).
  discriminate.
Defined.

Lemma sample_negative_n_samples_example :
  let r := sample toy_garbage (predictive pk_model) [1; 2; 3]%Q [1; 1; 0]%Q
             (Some (-1)%Z) (Some 5%Z) true 0 in
  is_ValueError (value r) /\
  simulate_calls (trace r) = [([1; 2]%Q, [0; 1; 1]%Q)] /\
  error_sample_calls (trace r) = [] /\
  world_after r = 0.
Proof.
  apply (@sample_negative_n_samples counter toy_model toy_error
           toy_mechanistic toy_error_model toy_garbage (predictive pk_model)
           [1; 2; 3]%Q [1; 1; 0]%Q (-1)%Z (Some 5%Z) true 0).
  - reflexivity.
  - reflexivity.
Defined.

Lemma sample_leaves_no_garbage_example :
  sample toy_garbage (predictive pk_model) [1; 2; 3]%Q [1; 1; 0]%Q
    (Some 2%Z) (Some 5%Z) true 0
  = sample (fun _ _ => 0%Q) (predictive pk_model) [1; 2; 3]%Q [1; 1; 0]%Q
      (Some 2%Z) (Some 5%Z) true 0.
Proof.
  apply (@sample_leaves_no_garbage counter toy_model toy_error
           toy_mechanistic toy_error_model toy_garbage (fun _ _ => 0%Q)
           (predictive pk_model) [1; 2; 3]%Q [1; 1; 0]%Q (Some 2%Z)
           (Some 5%Z) true 0).
  reflexivity.
Defined.

Lemma sample_table_is_array_in_long_format_example :
  exists c,
    value (sample toy_garbage (predictive pk_model) [1; 2; 3]%Q [1; 1; 0]%Q
             (Some 2%Z) (Some 5%Z) false 0)
    = Returned (Container c) /\
    value (sample toy_garbage (predictive pk_model) [1; 2; 3]%Q [1; 1; 0]%Q
             (Some 2%Z) (Some 5%Z) true 0)
    = Returned (Frame (long_format ["concentration"%string] [0; 1; 1]%Q
                         [1; 2]%Z c)) /\
    length c = 1 /\
    Forall (shaped 3 2) c.
Proof.
  apply (@sample_table_is_array_in_long_format counter toy_model toy_error
           toy_mechanistic toy_error_model toy_garbage (predictive pk_model)
           [1; 2; 3]%Q [1; 1; 0]%Q (Some 2%Z) (Some 5%Z) 0).
  - reflexivity.
  - discriminate.
  - reflexivity.
  - repeat constructor.
  - reflexivity.
  - apply toy_error_shaped.
Defined.

Lemma sample_table_layout_example :
  exists rows,
    value (sample toy_garbage (predictive pk_model) [1; 2; 3]%Q [1; 1; 0]%Q
             (Some 2%Z) (Some 5%Z) true 0)
    = Returned (Frame rows) /\
    map row_key rows
    = long_keys ["concentration"%string] [0; 1; 1]%Q [1; 2]%Z /\
    length rows = 1 * (3 * 2).
Proof.
  apply (@sample_table_layout counter toy_model toy_error toy_mechanistic
           toy_error_model toy_garbage (predictive pk_model) [1; 2; 3]%Q
           [1; 1; 0]%Q (Some 2%Z) (Some 5%Z) 0).
  - reflexivity.
  - discriminate.
  - reflexivity.
  - repeat constructor.
  - reflexivity.
  - apply toy_error_shaped.
Defined.

Lemma prior_predictive_sample_solves_once_per_draw_example :
  let r := prior_predictive_sample toy_seed toy_garbage prior_predictive
             [1; 1; 0]%Q (Some 2%Z) (Some 5%Z) 7 in
  length (prior_draws (trace r)) = 2 /\
  Forall (fun p => length p = 3) (prior_draws (trace r)) /\
  simulate_calls (trace r)
  = map (fun p => (firstn 2 p, [0; 1; 1]%Q)) (prior_draws (trace r)).
Proof.
  eapply (@prior_predictive_sample_solves_once_per_draw counter toy_seed
            toy_model toy_error toy_prior toy_mechanistic toy_error_model
            toy_log_prior toy_garbage prior_predictive [1; 1; 0]%Q
            (Some 2%Z) (Some 5%Z) 7).
  vm_compute. reflexivity.
Defined.

Lemma prior_predictive_sample_without_seed_example :
  let r := prior_predictive_sample toy_seed toy_garbage prior_predictive
             [1; 1; 0]%Q (Some 2%Z) None 7 in
  exists draws,
    length draws = 2 /\
    draws_and_samples (trace r)
    = flat_map (fun '(sample_id, parameters) =>
        [ev_prior_sample parameters;
         ev_predictive_sample parameters [0; 1; 1]%Q (Some 2%Z) None false])
        (combine [1; 2]%Z draws).
Proof.
  eapply (@prior_predictive_sample_without_seed counter toy_seed
            toy_model toy_error toy_prior toy_mechanistic toy_error_model
            toy_log_prior toy_garbage prior_predictive [1; 1; 0]%Q
            (Some 2%Z) 7).
  vm_compute. reflexivity.
Defined.

Lemma prior_predictive_sample_of_no_samples_example :
  let r := prior_predictive_sample toy_seed toy_garbage prior_predictive
             [1; 1; 0]%Q (Some 0%Z) (Some 5%Z) 7 in
  value r = Returned [] /\
  draws_and_samples (trace r) = [] /\
  simulate_calls (trace r) = [].
Proof.
  apply (@prior_predictive_sample_of_no_samples counter toy_seed
           toy_model toy_error toy_prior toy_mechanistic toy_error_model
           toy_log_prior toy_garbage prior_predictive [1; 1; 0]%Q 0%Z
           (Some 5%Z) 7).
  - discriminate.
  - reflexivity.
Defined.

(** The seed [-1] is none that [np.random.seed] takes. *)
Lemma prior_predictive_sample_seeds_once_example :
  let r := prior_predictive_sample toy_seed toy_garbage prior_predictive
             [1; 1; 0]%Q (Some 2%Z) (Some (-1)%Z) 7 in
  exists rest,
    trace r = ev_random_seed (-1) :: rest /\
    random_seed_calls rest = [] /\
    (valid_seed (-1) = false ->
     rest = [] /\ is_ValueError (value r) /\ world_after r = 7).
Proof.
  apply (@prior_predictive_sample_seeds_once counter toy_seed
           toy_model toy_error toy_prior toy_mechanistic toy_error_model
           toy_log_prior toy_garbage prior_predictive [1; 1; 0]%Q
           (Some 2%Z) (Some (-1)%Z) 7).
Defined.

End SamplingMore.

(** ** The data-driven models *)

Module DataDrivenFacts.

Import PredictiveModels DosingFacts DosingMore.

(** A dose that is given once, or for ever, shows as one row without a
    final time: the dose at the start of the event. *)
Lemma event_rows_first_dose (dose_event : ProtocolEvent) :
  Qeq_bool (period dose_event) 0 = true \/ multiplier dose_event = 0%Z ->
  exists row,
    event_rows Inf dose_event = [row] /\
    (Time row == start dose_event)%Q /\
    Duration row = duration dose_event /\
    Dose row = (level dose_event * duration dose_event)%Q.
Proof.
  intros Honce. unfold event_rows. cbn [gt_ext le_ext negb].
  destruct (Qeq_bool (period dose_event) 0) eqn:Hperiod.
  - eexists. split; [reflexivity|]. simpl.
    split; [apply Qeq_refl|]. split; reflexivity.
  - destruct Honce as [Hsingle|Hforever]; [discriminate|].
    rewrite Hforever. simpl. eexists. split; [reflexivity|].
    simpl. split; [ring|]. split; reflexivity.
Qed.

Section Methods.

Context {MM EM LP : Type} `{MechanisticModel MM}.
Implicit Types
  (self : PriorPredictiveModel (MM := MM) (EM := EM) (LP := LP)).

(** X21. [DataDrivenPredictiveModel.set_dosing_regimen(dose, start,
    period, duration, num)] hands its arguments on by position, so the
    mechanistic model receives the period as the duration of the dose and
    the duration as its period; the log-prior and the number of
    parameters stay as they are. *)
Theorem data_driven_set_dosing_regimen_by_position self
    (dose start period duration : Q) (num : Z) (mechanistic_model : MM) :
  mm_set_dosing_regimen dose start period (Some duration) (Some num)
    (_mechanistic_model (_predictive_model self))
  = Returned mechanistic_model ->
  exists self',
    DataDriven.set_dosing_regimen self dose start period duration num
    = Returned self' /\
    _mechanistic_model (_predictive_model self') = mechanistic_model /\
    _log_prior self' = _log_prior self /\
    n_parameters (_predictive_model self')
    = n_parameters (_predictive_model self) /\
    _error_models (_predictive_model self')
    = _error_models (_predictive_model self).
Proof.
  intros Hset.
  unfold DataDriven.set_dosing_regimen, PredictiveModels.set_dosing_regimen.
  rewrite Hset. eexists. split; [reflexivity|]. repeat split.
Qed.

(** X22. A data-driven model shows a regimen of doses that are given
    once or for ever as one row per dose event, the first dose of each:
    its [get_dosing_regimen] takes no final time. *)
Theorem data_driven_regimen_first_doses self (regimen : Protocol) :
  mm_dosing_regimen (_mechanistic_model (_predictive_model self))
  = Returned (Some regimen) ->
  regimen <> [] ->
  Forall (fun ev => Qeq_bool (period ev) 0 = true \/ multiplier ev = 0%Z)
    regimen ->
  exists rows,
    DataDriven.get_dosing_regimen self = Returned (Some rows) /\
    Forall2 (fun ev row =>
               (Time row == start ev)%Q /\
               Duration row = duration ev /\
               Dose row = (level ev * duration ev)%Q)
            regimen rows.
Proof.
  intros Hregimen Hne Honce.
  unfold DataDriven.get_dosing_regimen, PredictiveModels.get_dosing_regimen.
  rewrite Hregimen. cbn [negative].
  assert (Hrows : exists rows,
             flat_map (event_rows Inf) regimen = rows /\
             Forall2 (fun ev row =>
                        (Time row == start ev)%Q /\
                        Duration row = duration ev /\
                        Dose row = (level ev * duration ev)%Q)
                     regimen rows).
  { clear Hregimen Hne.
    induction Honce as [|ev regimen Hev _ IH].
    - exists []. split; [reflexivity|constructor].
    - destruct IH as (rows & Hrows & Hall).
      destruct (event_rows_first_dose ev Hev) as (row & Hrow & Hfields).
      exists (row :: rows). cbn [flat_map]. rewrite Hrow, Hrows.
      split; [reflexivity|]. constructor; assumption. }
  destruct Hrows as (rows & -> & Hall).
  exists rows. split; [|exact Hall].
  destruct Hall; [contradiction|reflexivity].
Qed.

End Methods.

Import Examples.

Lemma data_driven_set_dosing_regimen_by_position_example :
  exists self',
    DataDriven.set_dosing_regimen prior_predictive 1 0 2 (1 # 100)%Q 0
    = Returned self' /\
    _mechanistic_model (_predictive_model self')
    = mk_toy true (Some [toy_schedule 1 0 2 (Some (1 # 100)%Q) (Some 0%Z)])
        ["concentration"%string] /\
    _log_prior self' = _log_prior prior_predictive /\
    n_parameters (_predictive_model self')
    = n_parameters (_predictive_model prior_predictive) /\
    _error_models (_predictive_model self')
    = _error_models (_predictive_model prior_predictive).
Proof.
  apply (@data_driven_set_dosing_regimen_by_position toy_model toy_error
           toy_prior toy_mechanistic prior_predictive 1%Q 0%Q 2%Q (1 # 100)%Q
           0%Z).
  reflexivity.
Defined.

Lemma data_driven_regimen_first_doses_example :
  exists rows,
    DataDriven.get_dosing_regimen
      (mk_PriorPredictiveModel (predictive pk_model_dosed) (mk_toy_prior 3))
    = Returned (Some rows) /\
    Forall2 (fun ev row =>
               (Time row == start ev)%Q /\
               Duration row = duration ev /\
               Dose row = (level ev * duration ev)%Q)
            [toy_schedule 1 0 (1 # 100) (Some 2%Q) None] rows.
Proof.
  apply (@data_driven_regimen_first_doses toy_model toy_error toy_prior
           toy_mechanistic
           (mk_PriorPredictiveModel (predictive pk_model_dosed)
              (mk_toy_prior 3))
           [toy_schedule 1 0 (1 # 100) (Some 2%Q) None]).
  - reflexivity.
  - discriminate.
  - constructor; [right; reflexivity|constructor].
Defined.

End DataDrivenFacts.

(** ** Plots of parameter estimates *)

Module PlotsFacts.

Import Plots.

Lemma nth_error_middle {A : Type} (pre post : list A) (x : A) :
  nth_error (pre ++ x :: post) (length pre) = Some x.
Proof. rewrite nth_error_app2, Nat.sub_diag by lia. reflexivity. Qed.

Lemma set_nth_middle {A : Type} (pre post : list A) (x x' : A) :
  PredictiveModels.set_nth (pre ++ x :: post) (length pre) x'
  = pre ++ x' :: post.
Proof.
  induction pre as [|a pre IH]; [reflexivity|].
  simpl. rewrite IH. reflexivity.
Qed.


Section ParameterEstimatePlot.

Variable cell : Type.
Variable cell_eqb : cell -> cell -> bool.
Hypothesis cell_eqb_eq : forall a b, cell_eqb a b = true <-> a = b.

Variable format_d : cell -> option exn.
Variable format_f : cell -> option exn.

Variable color : Type.
Variable Plotly : list color.

Local Abbreviation unique := (Plots.unique cell_eqb).
Local Abbreviation where_eq := (Plots.where_eq cell_eqb).
Local Abbreviation add_data :=
  (Plots.add_data cell_eqb format_d format_f Plotly).
Local Abbreviation formatted := (Plots.formatted format_d format_f).

Lemma cell_eqb_refl (a : cell) : cell_eqb a a = true.
Proof. apply cell_eqb_eq. reflexivity. Qed.


(** [unique] keeps every value, once. *)
Lemma in_unique (l : list cell) (x : cell) : In x (unique l) <-> In x l.
Proof.
  induction l as [|a l IH]; [reflexivity|].
  cbn [Plots.unique]. simpl In. rewrite filter_In, IH. split.
  - intros [Ha | [Hin _]]; auto.
  - intros [Ha | Hin]; [left; exact Ha|].
    destruct (cell_eqb a x) eqn:Hax.
    + left. apply cell_eqb_eq. exact Hax.
    + right. split; [exact Hin|reflexivity].
Qed.

Lemma NoDup_unique (l : list cell) : NoDup (unique l).
Proof.
  induction l as [|a l IH]; [constructor|].
  cbn [Plots.unique]. constructor.
  - rewrite filter_In. intros [_ Hne].
    rewrite cell_eqb_refl in Hne. discriminate.
  - apply NoDup_filter. exact IH.
Qed.




(** A part of a table has no more values under a key than the table. *)
Lemma length_unique_where (data : DataFrame cell) (key key' : string)
    (value : cell) :
  length (unique (column (where_eq data key value) key'))
  <= length (unique (column data key')).
Proof.
  apply NoDup_incl_length; [apply NoDup_unique|].
  intros x Hx. rewrite in_unique in Hx. rewrite in_unique.
  unfold column, Plots.where_eq in *. cbn [rows] in Hx.
  apply in_map_iff in Hx. destruct Hx as (row & <- & Hrow).
  apply filter_In in Hrow. destruct Hrow as [Hrow _].
  apply (in_map (fun r : string -> cell => r key')). exact Hrow.
Qed.

(** *** The loops of [add_data] *)

Implicit Types (self : ParameterEstimatePlot cell color)
  (data : DataFrame cell).

(** A part of a table whose entries are formatted has such entries. *)
Lemma formatted_part data (id_key score_key run_key key : string)
    (value : cell) (selection : list string) :
  formatted data id_key score_key run_key ->
  formatted (select (where_eq data key value) selection) id_key score_key
    run_key.
Proof.
  intros Hformatted row Hrow. apply Hformatted.
  cbn [select Plots.where_eq rows] in Hrow.
  apply filter_In in Hrow. apply Hrow.
Qed.

Lemma formatted_individual data (id_key score_key run_key : string)
    (individual : cell) :
  formatted data id_key score_key run_key ->
  In individual (column data id_key) ->
  format_d individual = None.
Proof.
  intros Hformatted Hin. unfold column in Hin. apply in_map_iff in Hin.
  destruct Hin as (row & <- & Hrow). apply (Hformatted row Hrow).
Qed.

(** Runs and scores that are formatted, one score for every run, give
    the lines of the hover text. *)
Lemma text_lines_formatted (l : list (string -> cell))
    (score_key run_key : string) :
  (forall row, In row l ->
     format_d (row run_key) = None /\ format_f (row score_key) = None) ->
  text_lines format_d format_f (map (fun row => row run_key) l)
    (map (fun row => row score_key) l)
  = Returned (combine (map (fun row => row run_key) l)
                (map (fun row => row score_key) l)).
Proof.
  induction l as [|row l IH]; intros Hformatted; [reflexivity|].
  cbn [map text_lines combine].
  destruct (Hformatted row (or_introl eq_refl)) as [-> ->].
  rewrite IH; [reflexivity|].
  intros row' Hrow'. apply Hformatted. right. exact Hrow'.
Qed.

Lemma text_lines_of_individual data (id_key score_key run_key : string)
    (individual : cell) :
  formatted data id_key score_key run_key ->
  text_lines format_d format_f
    (column (where_eq data id_key individual) run_key)
    (column (where_eq data id_key individual) score_key)
  = Returned (combine (column (where_eq data id_key individual) run_key)
                (column (where_eq data id_key individual) score_key)).
Proof.
  intros Hformatted. unfold column. apply text_lines_formatted.
  intros row Hrow. cbn [Plots.where_eq rows] in Hrow.
  apply filter_In in Hrow. destruct Hrow as [Hrow _].
  destruct (Hformatted row Hrow) as (_ & Hrun & Hscore).
  split; assumption.
Qed.

Lemma box_step_adds (id_key est_key score_key run_key : string)
    data (colors : list color) (pre post : list (figure cell color))
    (fig : figure cell color) (index : nat) (individual : cell) (c : color) :
  formatted data id_key score_key run_key ->
  format_d individual = None ->
  nth_error colors index = Some c ->
  box_step cell_eqb format_d format_f (length pre) data colors
    (mk_ParameterEstimatePlot (pre ++ fig :: post) (Some id_key)
       (Some est_key) (Some score_key) (Some run_key))
    index individual
  = (mk_ParameterEstimatePlot
       (pre ++ (fig ++ [add_trace
                          (individual_box cell_eqb data id_key est_key
                             score_key run_key individual c)]) :: post)
       (Some id_key) (Some est_key) (Some score_key) (Some run_key),
     Returned tt).
Proof.
  intros Hformatted Hindividual Hcolor. unfold box_step.
  cbn [attribute _id_key _est_key _score_key _run_key].
  rewrite Hcolor. unfold _add_trace, call_figure. cbn [_figs].
  rewrite nth_error_middle, Hindividual.
  rewrite text_lines_of_individual by exact Hformatted.
  rewrite set_nth_middle. reflexivity.
Qed.

Lemma skipn_nth_error {A : Type} (l : list A) :
  forall (index : nat) (a : A),
    nth_error l index = Some a -> skipn index l = a :: skipn (S index) l.
Proof.
  induction l as [|a' l IH]; intros [|index] a Hnth; try discriminate.
  - injection Hnth as ->. reflexivity.
  - cbn [skipn]. apply IH. exact Hnth.
Qed.

Lemma boxes_loop (id_key est_key score_key run_key : string)
    data (colors : list color) (pre post : list (figure cell color))
    (ids : list cell) :
  formatted data id_key score_key run_key ->
  (forall individual, In individual ids -> format_d individual = None) ->
  forall (fig : figure cell color) (index : nat),
    index + length ids <= length colors ->
    for_each (box_step cell_eqb format_d format_f (length pre) data colors)
      (mk_ParameterEstimatePlot (pre ++ fig :: post) (Some id_key)
         (Some est_key) (Some score_key) (Some run_key))
      index ids
    = (mk_ParameterEstimatePlot
         (pre ++ (fig ++ map (fun '(individual, c) =>
                     add_trace (individual_box cell_eqb data id_key est_key
                                  score_key run_key individual c))
                   (combine ids (skipn index colors))) :: post)
         (Some id_key) (Some est_key) (Some score_key) (Some run_key),
       Returned tt).
Proof.
  intros Hformatted.
  induction ids as [|individual ids IH]; intros Hids fig index Hcolors.
  - cbn [for_each combine map]. rewrite app_nil_r. reflexivity.
  - cbn [length] in Hcolors.
    destruct (nth_error colors index) as [c|] eqn:Hcolor;
      [|apply nth_error_None in Hcolor; lia].
    cbn [for_each].
    rewrite (@box_step_adds id_key est_key score_key run_key data colors pre
               post fig index individual c Hformatted
               (Hids individual (or_introl eq_refl)) Hcolor).
    rewrite IH;
      [|intros i Hi; apply Hids; right; exact Hi|cbn [length] in *; lia].
    rewrite (skipn_nth_error colors index Hcolor).
    cbn [combine map]. rewrite <- app_assoc. reflexivity.
Qed.

(** With too few colours, the loop over the individuals raises an
    [IndexError] where the colours run out. *)
Lemma boxes_loop_index_error (id_key est_key score_key run_key : string)
    data (colors : list color) (pre post : list (figure cell color))
    (ids : list cell) :
  formatted data id_key score_key run_key ->
  (forall individual, In individual ids -> format_d individual = None) ->
  forall (fig : figure cell color) (index : nat),
    index <= length colors ->
    length colors < index + length ids ->
    exists msg,
      snd (for_each
             (box_step cell_eqb format_d format_f (length pre) data colors)
             (mk_ParameterEstimatePlot (pre ++ fig :: post) (Some id_key)
                (Some est_key) (Some score_key) (Some run_key)) index ids)
      = Raised (IndexError msg).
Proof.
  intros Hformatted.
  induction ids as [|individual ids IH];
    intros Hids fig index Hindex Hcolors.
  - cbn [length] in Hcolors. lia.
  - cbn [for_each length] in *.
    destruct (nth_error colors index) as [c|] eqn:Hcolor.
    + rewrite (@box_step_adds id_key est_key score_key run_key data colors
                 pre post fig index individual c Hformatted
                 (Hids individual (or_introl eq_refl)) Hcolor).
      apply IH.
      * intros i Hi. apply Hids. right. exact Hi.
      * apply nth_error_Some. congruence.
      * lia.
    + unfold box_step.
      cbn [attribute _id_key _est_key _score_key _run_key].
      rewrite Hcolor. eexists. reflexivity.
Qed.

(** The individuals of a part of a table whose entries are formatted. *)
Lemma formatted_individuals data
    (id_key param_key est_key score_key run_key : string) (parameter : cell) :
  formatted data id_key score_key run_key ->
  forall individual,
    In individual
      (unique (column (select (where_eq data param_key parameter)
                         [id_key; est_key; score_key; run_key])
                 id_key)) ->
    format_d individual = None.
Proof.
  intros Hformatted individual Hin. rewrite in_unique in Hin.
  apply (@formatted_individual
           (select (where_eq data param_key parameter)
              [id_key; est_key; score_key; run_key])
           id_key score_key run_key individual);
    [|exact Hin].
  apply formatted_part. exact Hformatted.
Qed.

Lemma figure_step (id_key param_key est_key score_key run_key : string)
    data (colors : list color) (done rest : list (figure cell color))
    (parameter : cell) :
  formatted data id_key score_key run_key ->
  length (unique (column (where_eq data param_key parameter) id_key))
  <= length colors ->
  _add_box_plots cell_eqb format_d format_f
    (mk_ParameterEstimatePlot (done ++ [] :: rest) (Some id_key)
       (Some est_key) (Some score_key) (Some run_key))
    (length done) parameter
    (select (where_eq data param_key parameter)
       [id_key; est_key; score_key; run_key])
    colors
  = (mk_ParameterEstimatePlot
       (done ++ parameter_figure cell_eqb data id_key param_key est_key
                  score_key run_key colors parameter :: rest)
       (Some id_key) (Some est_key) (Some score_key) (Some run_key),
     Returned tt).
Proof.
  intros Hformatted Hcolors. unfold _add_box_plots, call_figure. cbn [_figs].
  rewrite nth_error_middle, set_nth_middle. unfold with_figs.
  cbn [attribute _id_key _est_key _score_key _run_key app].
  rewrite (@boxes_loop id_key est_key score_key run_key
             (select (where_eq data param_key parameter)
                [id_key; est_key; score_key; run_key])
             colors done rest
             (unique (column (select (where_eq data param_key parameter)
                                [id_key; est_key; score_key; run_key])
                        id_key))
             (formatted_part param_key parameter
                [id_key; est_key; score_key; run_key] Hformatted)
             (formatted_individuals param_key est_key parameter Hformatted)
             [update_layout color parameter] 0).
  - reflexivity.
  - exact Hcolors.
Qed.

Lemma figures_loop (id_key param_key est_key score_key run_key : string)
    data (colors : list color) (parameters : list cell) :
  formatted data id_key score_key run_key ->
  forall done : list (figure cell color),
    (forall parameter,
        In parameter parameters ->
        length (unique (column (where_eq data param_key parameter) id_key))
        <= length colors) ->
    for_each (fun self index parameter =>
                _add_box_plots cell_eqb format_d format_f self index parameter
                  (select (where_eq data param_key parameter)
                     [id_key; est_key; score_key; run_key])
                  colors)
      (mk_ParameterEstimatePlot (done ++ map (fun _ => []) parameters)
         (Some id_key) (Some est_key) (Some score_key) (Some run_key))
      (length done) parameters
    = (mk_ParameterEstimatePlot
         (done ++ figures_of cell_eqb data id_key param_key est_key score_key
                    run_key colors parameters)
         (Some id_key) (Some est_key) (Some score_key) (Some run_key),
       Returned tt).
Proof.
  intros Hformatted.
  induction parameters as [|parameter parameters IH]; intros done Hcolors;
    [reflexivity|].
  cbn [for_each map figures_of].
  rewrite figure_step by (try exact Hformatted; apply Hcolors; left;
                          reflexivity).
  specialize (IH (done ++ [parameter_figure cell_eqb data id_key param_key
                             est_key score_key run_key colors parameter])).
  rewrite length_app, Nat.add_1_r, <- !app_assoc in IH. cbn [app] in IH.
  apply IH. intros p Hp. apply Hcolors. right. exact Hp.
Qed.

Lemma figures_loop_index_error
    (id_key param_key est_key score_key run_key : string)
    data (colors : list color) (parameters : list cell) :
  formatted data id_key score_key run_key ->
  forall done : list (figure cell color),
    (exists parameter,
        In parameter parameters /\
        length colors
        < length (unique (column (where_eq data param_key parameter)
                            id_key))) ->
    exists msg,
      snd (for_each (fun self index parameter =>
                       _add_box_plots cell_eqb format_d format_f self index
                         parameter
                         (select (where_eq data param_key parameter)
                            [id_key; est_key; score_key; run_key])
                         colors)
             (mk_ParameterEstimatePlot (done ++ map (fun _ => []) parameters)
                (Some id_key) (Some est_key) (Some score_key) (Some run_key))
             (length done) parameters)
      = Raised (IndexError msg).
Proof.
  intros Hformatted.
  induction parameters as [|parameter parameters IH]; intros done Hmany.
  - destruct Hmany as (p & [] & _).
  - cbn [for_each map].
    destruct (Nat.le_gt_cases
                (length (unique (column (where_eq data param_key parameter)
                                   id_key)))
                (length colors)) as [Hfew|Hthis].
    + rewrite figure_step by assumption.
      specialize (IH (done ++ [parameter_figure cell_eqb data id_key
                                 param_key est_key score_key run_key colors
                                 parameter])).
      rewrite length_app, Nat.add_1_r, <- !app_assoc in IH. cbn [app] in IH.
      apply IH. destruct Hmany as (p & [<- | Hp] & Hlong); [lia|].
      exists p. split; assumption.
    + unfold _add_box_plots, call_figure. cbn [_figs].
      rewrite nth_error_middle, set_nth_middle. unfold with_figs.
      cbn [attribute _id_key _est_key _score_key _run_key app].
      destruct (@boxes_loop_index_error id_key est_key score_key run_key
                  (select (where_eq data param_key parameter)
                     [id_key; est_key; score_key; run_key])
                  colors done (map (fun _ => []) parameters)
                  (unique (column (select (where_eq data param_key parameter)
                                     [id_key; est_key; score_key; run_key])
                             id_key))
                  (formatted_part param_key parameter
                     [id_key; est_key; score_key; run_key] Hformatted)
                  (formatted_individuals param_key est_key parameter
                     Hformatted)
                  [update_layout color parameter] 0)
        as [msg Hmsg]; [lia|exact Hthis|].
      destruct (for_each _ _ 0 _) as [self' result]. cbn [snd] in Hmsg.
      subst result. exists msg. reflexivity.
Qed.

(** *** The keys of the table *)

Lemma has_key (data : DataFrame cell) (key : string) :
  existsb (String.eqb key) (keys data) = true <-> In key (keys data).
Proof.
  rewrite existsb_exists. split.
  - intros (k & Hin & Heq). apply String.eqb_eq in Heq. subst k. exact Hin.
  - intros Hin. exists key. split; [exact Hin|apply String.eqb_refl].
Qed.

Lemma find_first {A : Type} (f : A -> bool) (l : list A) (x : A) :
  find f l = Some x ->
  exists pre post,
    l = pre ++ x :: post /\ f x = true /\ forall a, In a pre -> f a = false.
Proof.
  induction l as [|a l IH]; [discriminate|]. cbn [find].
  destruct (f a) eqn:Hfa.
  - intros [= ->]. exists [], l. repeat split; [exact Hfa|intros ? []].
  - intros Hfind. destruct (IH Hfind) as (pre & post & -> & Hfx & Hpre).
    exists (a :: pre), post. repeat split; [exact Hfx|].
    intros a' [<- | Hin]; [exact Hfa|apply Hpre; exact Hin].
Qed.

Lemma missing_key_none (data : DataFrame cell) (wanted : list string) :
  missing_key data wanted = None
  <-> forall key, In key wanted -> In key (keys data).
Proof.
  unfold missing_key. split.
  - intros Hnone key Hin. apply has_key.
    apply (find_none _ _ Hnone) in Hin.
    apply negb_false_iff in Hin. exact Hin.
  - intros Hall.
    destruct (find _ wanted) as [key|] eqn:Hfind; [|reflexivity].
    apply find_some in Hfind. destruct Hfind as [Hin Hmissing].
    apply Hall, has_key in Hin. rewrite Hin in Hmissing. discriminate.
Qed.

Lemma add_data_loop self data
    (id_key param_key est_key score_key run_key : string) :
  (forall key,
      In key [id_key; param_key; est_key; score_key; run_key] ->
      In key (keys data)) ->
  add_data self (Some data) id_key param_key est_key score_key run_key
  = for_each (fun self index parameter =>
                _add_box_plots cell_eqb format_d format_f self index parameter
                  (select (where_eq data param_key parameter)
                     [id_key; est_key; score_key; run_key])
                  (firstn (length (unique (column data id_key))) Plotly))
      (mk_ParameterEstimatePlot
         (map (fun _ => []) (unique (column data param_key)))
         (Some id_key) (Some est_key) (Some score_key) (Some run_key))
      0 (unique (column data param_key)).
Proof.
  intros Hkeys. apply missing_key_none in Hkeys.
  unfold Plots.add_data. rewrite Hkeys. reflexivity.
Qed.

(** *** The colours *)

(** The colours that [add_data] cuts from the palette are enough for a
    parameter where the palette is. *)
Lemma colours_suffice (data : DataFrame cell) (id_key param_key : string)
    (parameter : cell) :
  length (unique (column (where_eq data param_key parameter) id_key))
  <= length (firstn (length (unique (column data id_key))) Plotly)
  <-> length (unique (column (where_eq data param_key parameter) id_key))
      <= length Plotly.
Proof.
  pose proof (length_unique_where data param_key id_key parameter).
  rewrite length_firstn. lia.
Qed.

Lemma few_or_many (count : cell -> nat) (n : nat) (parameters : list cell) :
  (forall parameter, In parameter parameters -> count parameter <= n)
  \/ exists parameter, In parameter parameters /\ n < count parameter.
Proof.
  induction parameters as [|p parameters [Hfew | (q & Hq & Hmany)]].
  - left. intros ? [].
  - destruct (Nat.le_gt_cases (count p) n) as [Hp | Hp].
    + left. intros q [<- | Hq]; [exact Hp|apply Hfew; exact Hq].
    + right. exists p. split; [left; reflexivity|exact Hp].
  - right. exists q. split; [right; exact Hq|exact Hmany].
Qed.

Lemma add_data_figures self data
    (id_key param_key est_key score_key run_key : string) :
  (forall key,
      In key [id_key; param_key; est_key; score_key; run_key] ->
      In key (keys data)) ->
  formatted data id_key score_key run_key ->
  (forall parameter,
      In parameter (column data param_key) ->
      length (unique (column (where_eq data param_key parameter) id_key))
      <= length Plotly) ->
  add_data self (Some data) id_key param_key est_key score_key run_key
  = (mk_ParameterEstimatePlot
       (figures_of cell_eqb data id_key param_key est_key score_key run_key
          (firstn (length (unique (column data id_key))) Plotly)
          (unique (column data param_key)))
       (Some id_key) (Some est_key) (Some score_key) (Some run_key),
     Returned tt).
Proof.
  intros Hkeys Hformatted Hfew. rewrite add_data_loop by exact Hkeys.
  apply (@figures_loop id_key param_key est_key score_key run_key data
           (firstn (length (unique (column data id_key))) Plotly)
           (unique (column data param_key)) Hformatted []).
  intros parameter Hin. apply colours_suffice. apply Hfew.
  apply in_unique. exact Hin.
Qed.

Lemma add_data_index_error self data
    (id_key param_key est_key score_key run_key : string) :
  (forall key,
      In key [id_key; param_key; est_key; score_key; run_key] ->
      In key (keys data)) ->
  formatted data id_key score_key run_key ->
  (exists parameter,
      In parameter (column data param_key) /\
      length Plotly
      < length (unique (column (where_eq data param_key parameter) id_key))) ->
  exists msg,
    snd (add_data self (Some data) id_key param_key est_key score_key
           run_key)
    = Raised (IndexError msg).
Proof.
  intros Hkeys Hformatted (parameter & Hin & Hmany).
  rewrite add_data_loop by exact Hkeys.
  apply (@figures_loop_index_error id_key param_key est_key score_key
           run_key data
           (firstn (length (unique (column data id_key))) Plotly)
           (unique (column data param_key)) Hformatted []).
  exists parameter. split; [apply in_unique; exact Hin|].
  apply Nat.lt_nge. intros Hle. apply colours_suffice in Hle. lia.
Qed.

(** *** What the figures show *)


Lemma titles_traces {A B : Type} (box : A -> B -> Box cell color)
    (l : list (A * B)) :
  titles (map (fun '(a, b) => add_trace (box a b)) l) = [].
Proof.
  induction l as [|[a b] l IH]; [reflexivity|].
  cbn [map]. unfold titles in *. cbn [flat_map app]. exact IH.
Qed.


Lemma titles_parameter_figure data
    (id_key param_key est_key score_key run_key : string)
    (colors : list color) (parameter : cell) :
  titles (parameter_figure cell_eqb data id_key param_key est_key score_key
            run_key colors parameter)
  = [parameter].
Proof.
  unfold parameter_figure.
  change (titles (update_layout color parameter :: ?l))
    with (parameter :: titles l).
  rewrite titles_traces. reflexivity.
Qed.





(** *** [add_data] *)

(** X23. When the table lacks one of the five keys, [add_data] raises a
    [ValueError] that names the first of the keys, in the order id,
    parameter, estimate, score, run, that the table lacks, and leaves the
    figures and the keys of [self] as they were. *)
Theorem add_data_missing_key self data
    (id_key param_key est_key score_key run_key : string) :
  (exists key,
      In key [id_key; param_key; est_key; score_key; run_key] /\
      ~ In key (keys data)) ->
  exists before key after,
    [id_key; param_key; est_key; score_key; run_key]
    = before ++ key :: after /\
    (forall key', In key' before -> In key' (keys data)) /\
    ~ In key (keys data) /\
    add_data self (Some data) id_key param_key est_key score_key run_key
    = (self,
       Raised (ValueError ("Data does not have the key <" ++ key ++ ">."))).
Proof.
  intros (absent & Hwanted & Habsent). unfold Plots.add_data.
  destruct (missing_key data _) as [key|] eqn:Hmissing.
  - apply find_first in Hmissing.
    destruct Hmissing as (before & after & Hsplit & Hkey & Hbefore).
    exists before, key, after. split; [exact Hsplit|]. split; [|split].
    + intros key' Hin. apply has_key. apply Hbefore in Hin.
      apply negb_false_iff in Hin. exact Hin.
    + intros Hin. apply has_key in Hin. rewrite Hin in Hkey. discriminate.
    + reflexivity.
  - exfalso. apply Habsent.
    apply (proj1 (missing_key_none data _) Hmissing). exact Hwanted.
Qed.

(** X24. For a table with the five keys, where the keys of id, estimate,
    score and run differ and the ids, runs and scores are entries that the
    formats [%d] and [%.2f] of [_add_trace] take, [add_data] returns
    exactly when no parameter has estimates of more individuals than the
    palette has colours; otherwise it raises an [IndexError]. *)
Theorem add_data_returns_iff_colours_suffice self data
    (id_key param_key est_key score_key run_key : string) :
  (forall key,
      In key [id_key; param_key; est_key; score_key; run_key] ->
      In key (keys data)) ->
  NoDup [id_key; est_key; score_key; run_key] ->
  formatted data id_key score_key run_key ->
  (snd (add_data self (Some data) id_key param_key est_key score_key run_key)
   = Returned tt
   <-> forall parameter,
       In parameter (column data param_key) ->
       length (unique (column (where_eq data param_key parameter) id_key))
       <= length Plotly) /\
  (snd (add_data self (Some data) id_key param_key est_key score_key run_key)
   = Returned tt
   \/ exists msg,
       snd (add_data self (Some data) id_key param_key est_key score_key
              run_key)
       = Raised (IndexError msg)).
Proof.
  intros Hkeys _ Hformatted.
  destruct (few_or_many
              (fun parameter =>
                 length (unique (column (where_eq data param_key parameter)
                                    id_key)))
              (length Plotly) (column data param_key))
    as [Hfew | Hmany].
  - rewrite add_data_figures by assumption. cbn [snd].
    split; [|left; reflexivity]. split; [intros _; exact Hfew|reflexivity].
  - destruct (@add_data_index_error self data id_key param_key est_key
                score_key run_key Hkeys Hformatted Hmany) as [msg Hmsg].
    split; [|right; exists msg; exact Hmsg]. rewrite Hmsg. split.
    + discriminate.
    + intros Hfew. destruct Hmany as (parameter & Hin & Hlong).
      apply Hfew in Hin. lia.
Qed.

(** X25. For a table with the five keys, where the keys of id, estimate,
    score and run differ, the ids, runs and scores are entries that the
    formats of [_add_trace] take and the palette has a colour for every
    individual of a parameter, [add_data] returns and leaves one figure
    for each parameter of the table, in the order in which the parameters
    first appear, and the axis of each figure is titled once, with its
    parameter. *)
Theorem add_data_one_figure_per_parameter self data
    (id_key param_key est_key score_key run_key : string) :
  (forall key,
      In key [id_key; param_key; est_key; score_key; run_key] ->
      In key (keys data)) ->
  NoDup [id_key; est_key; score_key; run_key] ->
  formatted data id_key score_key run_key ->
  (forall parameter,
      In parameter (column data param_key) ->
      length (unique (column (where_eq data param_key parameter) id_key))
      <= length Plotly) ->
  snd (add_data self (Some data) id_key param_key est_key score_key run_key)
  = Returned tt /\
  map (@titles cell color)
    (_figs (fst (add_data self (Some data) id_key param_key est_key
                   score_key run_key)))
  = map (fun parameter => [parameter]) (unique (column data param_key)).
Proof.
  intros Hkeys _ Hformatted Hfew. rewrite add_data_figures by assumption.
  cbn [fst snd _figs]. split; [reflexivity|].
  unfold figures_of. rewrite map_map.
  apply map_ext. intros parameter. apply titles_parameter_figure.
Qed.



(** X28. [add_data] replaces what an earlier call of [add_data] has left:
    called with a table that has the five keys, it has the same result,
    and leaves the same figures and keys, whatever an earlier call was
    given and whether that call returned or raised. *)
Theorem add_data_replaces_earlier_data self
    (earlier : option (DataFrame cell)) data
    (id_key' param_key' est_key' score_key' run_key' : string)
    (id_key param_key est_key score_key run_key : string) :
  (forall key,
      In key [id_key; param_key; est_key; score_key; run_key] ->
      In key (keys data)) ->
  NoDup [id_key; est_key; score_key; run_key] ->
  add_data
    (fst (add_data self earlier id_key' param_key' est_key' score_key'
            run_key'))
    (Some data) id_key param_key est_key score_key run_key
  = add_data self (Some data) id_key param_key est_key score_key run_key.
Proof.
  intros Hkeys _. rewrite !add_data_loop by exact Hkeys. reflexivity.
Qed.

End ParameterEstimatePlot.

(** *** A table of two individuals *)

Import Examples.

Lemma entry_eqb_eq (a b : entry) : entry_eqb a b = true <-> a = b.
Proof.
  destruct a as [x|s], b as [y|t]; cbn [entry_eqb];
    rewrite ?Z.eqb_eq, ?String.eqb_eq;
    split; intros H; try discriminate; try congruence.
Qed.

Lemma add_data_missing_key_example :
  exists before key after,
    ["ID"; "Parameter"; "Estimate"; "Score"; "Run"]%string
    = before ++ key :: after /\
    (forall key', In key' before -> In key' (keys estimates_without_scores)) /\
    ~ In key (keys estimates_without_scores) /\
    add_data entry_eqb entry_format_d entry_format_f palette
          (ParameterEstimatePlot__init__ entry string)
      (Some estimates_without_scores) "ID" "Parameter" "Estimate" "Score"
      "Run"
    = (ParameterEstimatePlot__init__ entry string,
       Raised (ValueError ("Data does not have the key <" ++ key ++ ">."))).
Proof.
  apply add_data_missing_key. exists "Score"%string. split.
  - simpl. tauto.
  - simpl. intros [H | [H | [H | [H | []]]]]; discriminate.
Defined.

(** The table [estimates] has the five keys, its keys differ, and none of
    its parameters has more individuals than [palette] has colours. *)
Local Ltac has_keys := intros key Hin; exact Hin.

Local Ltac keys_differ :=
  repeat (constructor; [simpl; intuition discriminate|]); constructor.

Local Ltac entries_formatted :=
  intros row Hrow; simpl in Hrow;
  repeat (destruct Hrow as [<- | Hrow]; [repeat split|]);
  destruct Hrow.

Local Ltac colours_suffice :=
  intros parameter Hin; simpl in Hin;
  repeat (destruct Hin as [<- | Hin]; [vm_compute; lia|]);
  destruct Hin.

Lemma add_data_returns_iff_colours_suffice_example :
  (snd (add_data entry_eqb entry_format_d entry_format_f palette
          (ParameterEstimatePlot__init__ entry string)
          (Some estimates) "ID" "Parameter" "Estimate" "Score" "Run")
   = Returned tt
   <-> forall parameter,
       In parameter (column estimates "Parameter") ->
       length (unique entry_eqb
                 (column (where_eq entry_eqb estimates "Parameter" parameter)
                    "ID"))
       <= length palette) /\
  (snd (add_data entry_eqb entry_format_d entry_format_f palette
          (ParameterEstimatePlot__init__ entry string)
          (Some estimates) "ID" "Parameter" "Estimate" "Score" "Run")
   = Returned tt
   \/ exists msg,
       snd (add_data entry_eqb entry_format_d entry_format_f palette
              (ParameterEstimatePlot__init__ entry string)
              (Some estimates) "ID" "Parameter" "Estimate" "Score" "Run")
       = Raised (IndexError msg)).
Proof.
  apply add_data_returns_iff_colours_suffice.
  - exact entry_eqb_eq.
  - has_keys.
  - keys_differ.
  - entries_formatted.
Defined.

Lemma add_data_one_figure_per_parameter_example :
  snd (add_data entry_eqb entry_format_d entry_format_f palette
         (ParameterEstimatePlot__init__ entry string)
         (Some estimates) "ID" "Parameter" "Estimate" "Score" "Run")
  = Returned tt /\
  map (@titles entry string)
    (_figs (fst (add_data entry_eqb entry_format_d entry_format_f palette
                   (ParameterEstimatePlot__init__ entry string)
                   (Some estimates) "ID" "Parameter" "Estimate" "Score"
                   "Run")))
  = [[Str "rate"]; [Str "amount"]].
Proof.
  apply (@add_data_one_figure_per_parameter entry entry_eqb entry_eqb_eq
           entry_format_d entry_format_f string palette
           (ParameterEstimatePlot__init__ entry string)
           estimates "ID" "Parameter" "Estimate" "Score" "Run").
  - has_keys.
  - keys_differ.
  - entries_formatted.
  - colours_suffice.
Defined.



Lemma add_data_replaces_earlier_data_example :
  add_data entry_eqb entry_format_d entry_format_f palette
    (fst (add_data entry_eqb entry_format_d entry_format_f palette
            (ParameterEstimatePlot__init__ entry string)
            (Some estimates) "ID" "Parameter" "Estimate" "Score" "Run"))
    (Some estimates) "ID" "Parameter" "Estimate" "Score" "Run"
  = add_data entry_eqb entry_format_d entry_format_f palette
          (ParameterEstimatePlot__init__ entry string)
      (Some estimates) "ID" "Parameter" "Estimate" "Score" "Run".
Proof.
  apply add_data_replaces_earlier_data.
  - has_keys.
  - keys_differ.
Defined.

(** The individuals of [estimates_of_names] are names: the format of
    the name of the first box raises, after the first figure was
    titled. *)
Example add_data_names :
  add_data entry_eqb entry_format_d entry_format_f palette
    (ParameterEstimatePlot__init__ entry string) (Some estimates_of_names)
    "ID" "Parameter" "Estimate" "Score" "Run"
  = (mk_ParameterEstimatePlot [[update_layout string (Str "rate")]]
       (Some "ID"%string) (Some "Estimate"%string) (Some "Score"%string)
       (Some "Run"%string),
     Raised (TypeError "%d format: a number is required, not str")).
Proof. reflexivity. Qed.

End PlotsFacts.
